(** * UE session task of the GTP-C simulator (src/session.cpp)

    A shallow embedding of [UeSession] and of the handlers it runs
    ([run], [handleSend], [handleRecv], [handleWait], ...), with the
    objects the handlers reach through pointers (the scenario's jobs, the
    control tunnels, the statistics counters and the transport) held in an
    explicit world state. A read through a NULL or out-of-range pointer is
    the result [Fault]; a C++ [throw] is the result [Throw]. The logging
    macros [LOG_EXITFN (ret)] and [LOG_EXITVOID ()] end the function they are
    in: they are its [return]. *)

From Stdlib Require Import ZArith Lia Bool.
From stdpp Require Import base option list gmap.

Local Open Scope Z_scope.

(** ** Machine integers *)

Definition U32 := Z.
Definition u32 (x : Z) : U32 := x mod 2 ^ 32.

(** [Time_t] is wider than 32 bits (display.cpp narrows it to U32 and S32
    with casts before printing); it is taken as an unsigned 64-bit integer. *)
Definition Time_t := Z.
Definition u64 (x : Z) : Time_t := x mod 2 ^ 64.

Definition GtpMsgType_t := Z.
Definition GtpSeqNumber_t := Z.
Definition GtpTeid_t := Z.
Definition GtpEbi_t := Z.
Definition TransConnId := Z.
Definition Buffer := list Z.
Definition GtpImsiKey := list Z.

(** Message types of 3GPP TS 29.274 used by the session code. *)
Definition GTPC_MSG_CS_REQ : GtpMsgType_t := 32.
Definition GTPC_MSG_CS_RSP : GtpMsgType_t := 33.
Definition GTPC_MSG_MB_REQ : GtpMsgType_t := 34.
Definition GTPC_MSG_MB_RSP : GtpMsgType_t := 35.

Inductive RETVAL :=
| ROK
| ROK_OVER
| RFAILED
| ERR_MAX_RETRY_EXCEEDED
| ERR_PDN_CREATION
| ERR_CTUN_CREATION.

Definition RETVAL_eqb (a b : RETVAL) : bool :=
  match a, b with
  | ROK, ROK | ROK_OVER, ROK_OVER | RFAILED, RFAILED
  | ERR_MAX_RETRY_EXCEEDED, ERR_MAX_RETRY_EXCEEDED
  | ERR_PDN_CREATION, ERR_PDN_CREATION
  | ERR_CTUN_CREATION, ERR_CTUN_CREATION => true
  | _, _ => false
  end.

Inductive GtpMsgCategory_t :=
| GTP_MSG_CAT_INV
| GTP_MSG_CAT_REQ
| GTP_MSG_CAT_RSP.

Inductive JobType_t :=
| JOB_TYPE_INV
| JOB_TYPE_SEND
| JOB_TYPE_RECV
| JOB_TYPE_WAIT.

(** task.hpp *)
Inductive TaskState_t :=
| TASK_STATE_INVALID
| TASK_STATE_RUNNING
| TASK_STATE_PAUSED
| TASK_STATE_STOPPED.

(** Only [GTP_IF_S11_C_MME] is named by session.cpp; every other interface
    type takes the same branch of [createCTun]. *)
Inductive GtpIfType_t :=
| GTP_IF_S11_C_MME
| GTP_IF_OTHER.

Inductive IpAddrType_t :=
| IP_ADDR_TYPE_INV
| IP_ADDR_TYPE_V4
| IP_ADDR_TYPE_V6.

(** ** Results of code that can dereference a bad pointer or throw *)

Inductive Res (A : Type) : Type :=
| Ok (a : A)
| Fault
| Throw (e : RETVAL).

Arguments Ok {A} a.
Arguments Fault {A}.
Arguments Throw {A} e.

#[global] Instance Res_ret : MRet Res := fun A a => Ok a.

#[global] Instance Res_bind : MBind Res := fun A B k c =>
  match c with
  | Ok a => k a
  | Fault => Fault
  | Throw e => Throw e
  end.

(** Dereference of a pointer that may be NULL. *)
Definition deref {A : Type} (p : option A) : Res A :=
  match p with
  | Some a => Ok a
  | None => Fault
  end.

(** ** Bit masks (macros.hpp) *)

Definition GSIM_CHK_MASK (mask bit : Z) : bool := negb (Z.land mask bit =? 0).
Definition GSIM_SET_MASK (mask bit : Z) : Z := Z.lor mask bit.
Definition GSIM_UNSET_MASK (mask bit : Z) : Z := Z.ldiff mask bit.

(** The two session flags are distinct single bits; session.hpp, which gives
    their values, is not part of the sources at hand. *)
Definition GSIM_UE_SSN_WAITING_FOR_RSP : Z := 1.
Definition GSIM_UE_SSN_SCN_COMPLETE : Z := 2.

Definition GTP_MSG_HDR_TEID_PRES : Z := 1.
Definition GTP_MSG_HDR_SEQ_PRES : Z := 2.

(** Bearers are kept in a vector indexed by [ebi - 5], for EBIs 5 to 15. *)
Definition GTP_MAX_BEARERS : nat := 11.
Definition GTP_BEARER_INDEX (ebi : GtpEbi_t) : Z := ebi - 5.
Definition GSIM_SET_BEARER_MASK (mask : Z) (ebi : GtpEbi_t) : Z :=
  Z.lor mask (Z.shiftl 1 ebi).

(** ** Data *)

Record IpAddr := mkIpAddr {
  ipAddrType : IpAddrType_t;
  ipVal : Z
}.

Record IPEndPoint := mkIPEndPoint {
  ipAddr : IpAddr;
  port : Z
}.

Record UdpData_t := mkUdpData {
  buf : Buffer;
  connId : TransConnId;
  peerEp : IPEndPoint
}.

Record GtpMsgHdr := mkGtpMsgHdr {
  hdr_teid : GtpTeid_t;
  hdr_seqN : GtpSeqNumber_t;
  hdr_pres : Z
}.

(** A procedure record ([m_currUeProc], [m_prevUeProc]). [procTask] is a
    pointer to one of the scenario's jobs: its position in [m_jobSeq]. *)
Record UeProc := mkUeProc {
  proc_connId : TransConnId;
  proc_seqNumber : GtpSeqNumber_t;
  proc_reqType : GtpMsgType_t;
  proc_rspType : GtpMsgType_t;
  proc_sentMsg : option UdpData_t;
  proc_procTask : option nat
}.

Record GtpuTun := mkGtpuTun {
  utun_locTeid : GtpTeid_t
}.

Record GtpBearer := mkGtpBearer {
  bearer_pPdn : nat;
  bearer_ebi : GtpEbi_t;
  bearer_pUTun : GtpuTun
}.

(** [pCTun] points into the heap of control tunnels of the world. *)
Record GtpcPdn := mkGtpcPdn {
  pCTun : option nat;
  bearerMask : Z
}.

Record GtpcTun := mkGtpcTun {
  ctun_locTeid : GtpTeid_t;
  ctun_remTeid : GtpTeid_t;
  ctun_localEp : IPEndPoint;
  ctun_peerEp : IPEndPoint;
  ctun_refCount : U32;
  ctun_pPdn : nat
}.

Record Stats := mkStats {
  NUM_SESSIONS_CREATED : U32;
  NUM_SESSIONS : U32;
  NUM_SESSIONS_SUCC : U32;
  NUM_SESSIONS_FAIL : U32;
  NUM_DEADCALLS : U32
}.

Record Config := mkConfig {
  cfgN3Requests : U32;
  cfgT3Timer : Time_t;
  cfgNodeType : Z;
  cfgRemoteEp : IPEndPoint;
  cfgLocalEp : IPEndPoint;
  cfgDeadCallWait : Time_t
}.

Record UeSession := mkUeSession {
  m_n3req : U32;
  m_retryCnt : U32;
  m_t3time : Time_t;
  m_sessionId : U32;
  m_nodeType : Z;
  m_peerEp : IPEndPoint;
  m_currTaskIndx : U32;
  m_currTask : option nat;
  m_bitmask : Z;
  m_imsiKey : GtpImsiKey;
  m_deadCallWait : Time_t;
  m_bearerVec : list (option GtpBearer);
  m_pdnLst : list GtpcPdn;
  m_pCurrPdn : option nat;
  m_currUeProc : UeProc;
  m_prevUeProc : UeProc;
  m_currReqType : GtpMsgType_t;
  m_lastRunTime : Time_t;
  m_wakeTime : Time_t;
  m_taskState : TaskState_t
}.

(** Field updates ([s.f = v] in the source). *)

Definition set_m_retryCnt (v : _) (s : UeSession) : UeSession :=
  {| m_n3req := m_n3req s;
     m_retryCnt := v;
     m_t3time := m_t3time s;
     m_sessionId := m_sessionId s;
     m_nodeType := m_nodeType s;
     m_peerEp := m_peerEp s;
     m_currTaskIndx := m_currTaskIndx s;
     m_currTask := m_currTask s;
     m_bitmask := m_bitmask s;
     m_imsiKey := m_imsiKey s;
     m_deadCallWait := m_deadCallWait s;
     m_bearerVec := m_bearerVec s;
     m_pdnLst := m_pdnLst s;
     m_pCurrPdn := m_pCurrPdn s;
     m_currUeProc := m_currUeProc s;
     m_prevUeProc := m_prevUeProc s;
     m_currReqType := m_currReqType s;
     m_lastRunTime := m_lastRunTime s;
     m_wakeTime := m_wakeTime s;
     m_taskState := m_taskState s |}.

Definition set_m_currTaskIndx (v : _) (s : UeSession) : UeSession :=
  {| m_n3req := m_n3req s;
     m_retryCnt := m_retryCnt s;
     m_t3time := m_t3time s;
     m_sessionId := m_sessionId s;
     m_nodeType := m_nodeType s;
     m_peerEp := m_peerEp s;
     m_currTaskIndx := v;
     m_currTask := m_currTask s;
     m_bitmask := m_bitmask s;
     m_imsiKey := m_imsiKey s;
     m_deadCallWait := m_deadCallWait s;
     m_bearerVec := m_bearerVec s;
     m_pdnLst := m_pdnLst s;
     m_pCurrPdn := m_pCurrPdn s;
     m_currUeProc := m_currUeProc s;
     m_prevUeProc := m_prevUeProc s;
     m_currReqType := m_currReqType s;
     m_lastRunTime := m_lastRunTime s;
     m_wakeTime := m_wakeTime s;
     m_taskState := m_taskState s |}.

Definition set_m_currTask (v : _) (s : UeSession) : UeSession :=
  {| m_n3req := m_n3req s;
     m_retryCnt := m_retryCnt s;
     m_t3time := m_t3time s;
     m_sessionId := m_sessionId s;
     m_nodeType := m_nodeType s;
     m_peerEp := m_peerEp s;
     m_currTaskIndx := m_currTaskIndx s;
     m_currTask := v;
     m_bitmask := m_bitmask s;
     m_imsiKey := m_imsiKey s;
     m_deadCallWait := m_deadCallWait s;
     m_bearerVec := m_bearerVec s;
     m_pdnLst := m_pdnLst s;
     m_pCurrPdn := m_pCurrPdn s;
     m_currUeProc := m_currUeProc s;
     m_prevUeProc := m_prevUeProc s;
     m_currReqType := m_currReqType s;
     m_lastRunTime := m_lastRunTime s;
     m_wakeTime := m_wakeTime s;
     m_taskState := m_taskState s |}.

Definition set_m_bitmask (v : _) (s : UeSession) : UeSession :=
  {| m_n3req := m_n3req s;
     m_retryCnt := m_retryCnt s;
     m_t3time := m_t3time s;
     m_sessionId := m_sessionId s;
     m_nodeType := m_nodeType s;
     m_peerEp := m_peerEp s;
     m_currTaskIndx := m_currTaskIndx s;
     m_currTask := m_currTask s;
     m_bitmask := v;
     m_imsiKey := m_imsiKey s;
     m_deadCallWait := m_deadCallWait s;
     m_bearerVec := m_bearerVec s;
     m_pdnLst := m_pdnLst s;
     m_pCurrPdn := m_pCurrPdn s;
     m_currUeProc := m_currUeProc s;
     m_prevUeProc := m_prevUeProc s;
     m_currReqType := m_currReqType s;
     m_lastRunTime := m_lastRunTime s;
     m_wakeTime := m_wakeTime s;
     m_taskState := m_taskState s |}.

Definition set_m_bearerVec (v : _) (s : UeSession) : UeSession :=
  {| m_n3req := m_n3req s;
     m_retryCnt := m_retryCnt s;
     m_t3time := m_t3time s;
     m_sessionId := m_sessionId s;
     m_nodeType := m_nodeType s;
     m_peerEp := m_peerEp s;
     m_currTaskIndx := m_currTaskIndx s;
     m_currTask := m_currTask s;
     m_bitmask := m_bitmask s;
     m_imsiKey := m_imsiKey s;
     m_deadCallWait := m_deadCallWait s;
     m_bearerVec := v;
     m_pdnLst := m_pdnLst s;
     m_pCurrPdn := m_pCurrPdn s;
     m_currUeProc := m_currUeProc s;
     m_prevUeProc := m_prevUeProc s;
     m_currReqType := m_currReqType s;
     m_lastRunTime := m_lastRunTime s;
     m_wakeTime := m_wakeTime s;
     m_taskState := m_taskState s |}.

Definition set_m_pdnLst (v : _) (s : UeSession) : UeSession :=
  {| m_n3req := m_n3req s;
     m_retryCnt := m_retryCnt s;
     m_t3time := m_t3time s;
     m_sessionId := m_sessionId s;
     m_nodeType := m_nodeType s;
     m_peerEp := m_peerEp s;
     m_currTaskIndx := m_currTaskIndx s;
     m_currTask := m_currTask s;
     m_bitmask := m_bitmask s;
     m_imsiKey := m_imsiKey s;
     m_deadCallWait := m_deadCallWait s;
     m_bearerVec := m_bearerVec s;
     m_pdnLst := v;
     m_pCurrPdn := m_pCurrPdn s;
     m_currUeProc := m_currUeProc s;
     m_prevUeProc := m_prevUeProc s;
     m_currReqType := m_currReqType s;
     m_lastRunTime := m_lastRunTime s;
     m_wakeTime := m_wakeTime s;
     m_taskState := m_taskState s |}.

Definition set_m_pCurrPdn (v : _) (s : UeSession) : UeSession :=
  {| m_n3req := m_n3req s;
     m_retryCnt := m_retryCnt s;
     m_t3time := m_t3time s;
     m_sessionId := m_sessionId s;
     m_nodeType := m_nodeType s;
     m_peerEp := m_peerEp s;
     m_currTaskIndx := m_currTaskIndx s;
     m_currTask := m_currTask s;
     m_bitmask := m_bitmask s;
     m_imsiKey := m_imsiKey s;
     m_deadCallWait := m_deadCallWait s;
     m_bearerVec := m_bearerVec s;
     m_pdnLst := m_pdnLst s;
     m_pCurrPdn := v;
     m_currUeProc := m_currUeProc s;
     m_prevUeProc := m_prevUeProc s;
     m_currReqType := m_currReqType s;
     m_lastRunTime := m_lastRunTime s;
     m_wakeTime := m_wakeTime s;
     m_taskState := m_taskState s |}.

Definition set_m_currUeProc (v : _) (s : UeSession) : UeSession :=
  {| m_n3req := m_n3req s;
     m_retryCnt := m_retryCnt s;
     m_t3time := m_t3time s;
     m_sessionId := m_sessionId s;
     m_nodeType := m_nodeType s;
     m_peerEp := m_peerEp s;
     m_currTaskIndx := m_currTaskIndx s;
     m_currTask := m_currTask s;
     m_bitmask := m_bitmask s;
     m_imsiKey := m_imsiKey s;
     m_deadCallWait := m_deadCallWait s;
     m_bearerVec := m_bearerVec s;
     m_pdnLst := m_pdnLst s;
     m_pCurrPdn := m_pCurrPdn s;
     m_currUeProc := v;
     m_prevUeProc := m_prevUeProc s;
     m_currReqType := m_currReqType s;
     m_lastRunTime := m_lastRunTime s;
     m_wakeTime := m_wakeTime s;
     m_taskState := m_taskState s |}.

Definition set_m_prevUeProc (v : _) (s : UeSession) : UeSession :=
  {| m_n3req := m_n3req s;
     m_retryCnt := m_retryCnt s;
     m_t3time := m_t3time s;
     m_sessionId := m_sessionId s;
     m_nodeType := m_nodeType s;
     m_peerEp := m_peerEp s;
     m_currTaskIndx := m_currTaskIndx s;
     m_currTask := m_currTask s;
     m_bitmask := m_bitmask s;
     m_imsiKey := m_imsiKey s;
     m_deadCallWait := m_deadCallWait s;
     m_bearerVec := m_bearerVec s;
     m_pdnLst := m_pdnLst s;
     m_pCurrPdn := m_pCurrPdn s;
     m_currUeProc := m_currUeProc s;
     m_prevUeProc := v;
     m_currReqType := m_currReqType s;
     m_lastRunTime := m_lastRunTime s;
     m_wakeTime := m_wakeTime s;
     m_taskState := m_taskState s |}.

Definition set_m_currReqType (v : _) (s : UeSession) : UeSession :=
  {| m_n3req := m_n3req s;
     m_retryCnt := m_retryCnt s;
     m_t3time := m_t3time s;
     m_sessionId := m_sessionId s;
     m_nodeType := m_nodeType s;
     m_peerEp := m_peerEp s;
     m_currTaskIndx := m_currTaskIndx s;
     m_currTask := m_currTask s;
     m_bitmask := m_bitmask s;
     m_imsiKey := m_imsiKey s;
     m_deadCallWait := m_deadCallWait s;
     m_bearerVec := m_bearerVec s;
     m_pdnLst := m_pdnLst s;
     m_pCurrPdn := m_pCurrPdn s;
     m_currUeProc := m_currUeProc s;
     m_prevUeProc := m_prevUeProc s;
     m_currReqType := v;
     m_lastRunTime := m_lastRunTime s;
     m_wakeTime := m_wakeTime s;
     m_taskState := m_taskState s |}.

Definition set_m_lastRunTime (v : _) (s : UeSession) : UeSession :=
  {| m_n3req := m_n3req s;
     m_retryCnt := m_retryCnt s;
     m_t3time := m_t3time s;
     m_sessionId := m_sessionId s;
     m_nodeType := m_nodeType s;
     m_peerEp := m_peerEp s;
     m_currTaskIndx := m_currTaskIndx s;
     m_currTask := m_currTask s;
     m_bitmask := m_bitmask s;
     m_imsiKey := m_imsiKey s;
     m_deadCallWait := m_deadCallWait s;
     m_bearerVec := m_bearerVec s;
     m_pdnLst := m_pdnLst s;
     m_pCurrPdn := m_pCurrPdn s;
     m_currUeProc := m_currUeProc s;
     m_prevUeProc := m_prevUeProc s;
     m_currReqType := m_currReqType s;
     m_lastRunTime := v;
     m_wakeTime := m_wakeTime s;
     m_taskState := m_taskState s |}.

Definition set_m_wakeTime (v : _) (s : UeSession) : UeSession :=
  {| m_n3req := m_n3req s;
     m_retryCnt := m_retryCnt s;
     m_t3time := m_t3time s;
     m_sessionId := m_sessionId s;
     m_nodeType := m_nodeType s;
     m_peerEp := m_peerEp s;
     m_currTaskIndx := m_currTaskIndx s;
     m_currTask := m_currTask s;
     m_bitmask := m_bitmask s;
     m_imsiKey := m_imsiKey s;
     m_deadCallWait := m_deadCallWait s;
     m_bearerVec := m_bearerVec s;
     m_pdnLst := m_pdnLst s;
     m_pCurrPdn := m_pCurrPdn s;
     m_currUeProc := m_currUeProc s;
     m_prevUeProc := m_prevUeProc s;
     m_currReqType := m_currReqType s;
     m_lastRunTime := m_lastRunTime s;
     m_wakeTime := v;
     m_taskState := m_taskState s |}.

Definition set_m_taskState (v : _) (s : UeSession) : UeSession :=
  {| m_n3req := m_n3req s;
     m_retryCnt := m_retryCnt s;
     m_t3time := m_t3time s;
     m_sessionId := m_sessionId s;
     m_nodeType := m_nodeType s;
     m_peerEp := m_peerEp s;
     m_currTaskIndx := m_currTaskIndx s;
     m_currTask := m_currTask s;
     m_bitmask := m_bitmask s;
     m_imsiKey := m_imsiKey s;
     m_deadCallWait := m_deadCallWait s;
     m_bearerVec := m_bearerVec s;
     m_pdnLst := m_pdnLst s;
     m_pCurrPdn := m_pCurrPdn s;
     m_currUeProc := m_currUeProc s;
     m_prevUeProc := m_prevUeProc s;
     m_currReqType := m_currReqType s;
     m_lastRunTime := m_lastRunTime s;
     m_wakeTime := m_wakeTime s;
     m_taskState := v |}.

Definition set_proc_connId (v : _) (p : UeProc) : UeProc :=
  {| proc_connId := v;
     proc_seqNumber := proc_seqNumber p;
     proc_reqType := proc_reqType p;
     proc_rspType := proc_rspType p;
     proc_sentMsg := proc_sentMsg p;
     proc_procTask := proc_procTask p |}.

Definition set_proc_seqNumber (v : _) (p : UeProc) : UeProc :=
  {| proc_connId := proc_connId p;
     proc_seqNumber := v;
     proc_reqType := proc_reqType p;
     proc_rspType := proc_rspType p;
     proc_sentMsg := proc_sentMsg p;
     proc_procTask := proc_procTask p |}.

Definition set_proc_reqType (v : _) (p : UeProc) : UeProc :=
  {| proc_connId := proc_connId p;
     proc_seqNumber := proc_seqNumber p;
     proc_reqType := v;
     proc_rspType := proc_rspType p;
     proc_sentMsg := proc_sentMsg p;
     proc_procTask := proc_procTask p |}.

Definition set_proc_rspType (v : _) (p : UeProc) : UeProc :=
  {| proc_connId := proc_connId p;
     proc_seqNumber := proc_seqNumber p;
     proc_reqType := proc_reqType p;
     proc_rspType := v;
     proc_sentMsg := proc_sentMsg p;
     proc_procTask := proc_procTask p |}.

Definition set_proc_sentMsg (v : _) (p : UeProc) : UeProc :=
  {| proc_connId := proc_connId p;
     proc_seqNumber := proc_seqNumber p;
     proc_reqType := proc_reqType p;
     proc_rspType := proc_rspType p;
     proc_sentMsg := v;
     proc_procTask := proc_procTask p |}.

Definition set_proc_procTask (v : _) (p : UeProc) : UeProc :=
  {| proc_connId := proc_connId p;
     proc_seqNumber := proc_seqNumber p;
     proc_reqType := proc_reqType p;
     proc_rspType := proc_rspType p;
     proc_sentMsg := proc_sentMsg p;
     proc_procTask := v |}.

(** ** The message codec

    [GtpMsg] is opaque to the session code: it is used through the methods
    below only (gtp_msg.hpp, gtp_util.hpp). [msgBearerEbis] lists the EBIs
    of the Bearer Context IEs of instance 0, in the order in which
    [getIe (GTP_IE_BEARER_CNTXT, 0, i)] yields them for [i = 1 .. getIeCount];
    [msgFteidTeid] is the TEID of [getIe (GTP_IE_FTEID, 0, 1)], [None] when
    that IE is absent (the source then calls through a NULL pointer). *)
Class GtpCodec (GtpMsg : Type) := {
  gtpGetMsgCategory : GtpMsgType_t -> GtpMsgCategory_t;
  msgOfBuffer : Buffer -> GtpMsg;
  msgType : GtpMsg -> GtpMsgType_t;
  msgSeqNumber : GtpMsg -> GtpSeqNumber_t;
  msgDecode : GtpMsg -> GtpMsg;
  msgFteidTeid : GtpMsg -> option GtpTeid_t;
  msgBearerEbis : GtpMsg -> list GtpEbi_t;
  msgSetMsgHdr : GtpMsgHdr -> GtpMsg -> GtpMsg;
  msgSetImsi : GtpImsiKey -> GtpMsg -> GtpMsg;
  msgSetSenderFteid : GtpTeid_t -> IpAddr -> GtpMsg -> RETVAL * GtpMsg;
  msgSetGtpuTeid : nat -> GtpTeid_t -> GtpMsg -> GtpMsg;
  msgEncode : GtpMsg -> Buffer
}.

Inductive GtpStat_t :=
| GSIM_STAT_NUM_SESSIONS_CREATED
| GSIM_STAT_NUM_SESSIONS
| GSIM_STAT_NUM_SESSIONS_SUCC
| GSIM_STAT_NUM_SESSIONS_FAIL
| GSIM_STAT_NUM_DEADCALLS.

(** Modelled from the spec: [Stats::incStats] and [Stats::decStats]
    (gtp_stats.cpp is absent) add one to, and take one from, the named
    counter, an unsigned 32-bit integer. *)
Definition updStats (d : Z) (t : GtpStat_t) (st : Stats) : Stats :=
  match t with
  | GSIM_STAT_NUM_SESSIONS_CREATED =>
      mkStats (u32 (NUM_SESSIONS_CREATED st + d)) (NUM_SESSIONS st)
              (NUM_SESSIONS_SUCC st) (NUM_SESSIONS_FAIL st) (NUM_DEADCALLS st)
  | GSIM_STAT_NUM_SESSIONS =>
      mkStats (NUM_SESSIONS_CREATED st) (u32 (NUM_SESSIONS st + d))
              (NUM_SESSIONS_SUCC st) (NUM_SESSIONS_FAIL st) (NUM_DEADCALLS st)
  | GSIM_STAT_NUM_SESSIONS_SUCC =>
      mkStats (NUM_SESSIONS_CREATED st) (NUM_SESSIONS st)
              (u32 (NUM_SESSIONS_SUCC st + d)) (NUM_SESSIONS_FAIL st) (NUM_DEADCALLS st)
  | GSIM_STAT_NUM_SESSIONS_FAIL =>
      mkStats (NUM_SESSIONS_CREATED st) (NUM_SESSIONS st)
              (NUM_SESSIONS_SUCC st) (u32 (NUM_SESSIONS_FAIL st + d)) (NUM_DEADCALLS st)
  | GSIM_STAT_NUM_DEADCALLS =>
      mkStats (NUM_SESSIONS_CREATED st) (NUM_SESSIONS st)
              (NUM_SESSIONS_SUCC st) (NUM_SESSIONS_FAIL st) (u32 (NUM_DEADCALLS st + d))
  end.

Section Session.

Context {GtpMsg : Type} `{!GtpCodec GtpMsg}.

(** A job of the scenario: its kind, its message template ([getGtpMsg],
    NULL for a Wait job), its duration ([wait]) and its counters. *)
Record Job := mkJob {
  job_type : JobType_t;
  job_gtpMsg : option GtpMsg;
  job_wait : Time_t;
  m_numSnd : U32;
  m_numSndRetrans : U32;
  m_numRcv : U32;
  m_numRcvRetrans : U32;
  m_numTimeOut : U32;
  m_numUnexp : U32
}.

Definition inc_numSnd (j : Job) : Job :=
  mkJob (job_type j) (job_gtpMsg j) (job_wait j) (u32 (m_numSnd j + 1))
        (m_numSndRetrans j) (m_numRcv j) (m_numRcvRetrans j) (m_numTimeOut j)
        (m_numUnexp j).

Definition inc_numSndRetrans (j : Job) : Job :=
  mkJob (job_type j) (job_gtpMsg j) (job_wait j) (m_numSnd j)
        (u32 (m_numSndRetrans j + 1)) (m_numRcv j) (m_numRcvRetrans j)
        (m_numTimeOut j) (m_numUnexp j).

Definition inc_numRcv (j : Job) : Job :=
  mkJob (job_type j) (job_gtpMsg j) (job_wait j) (m_numSnd j)
        (m_numSndRetrans j) (u32 (m_numRcv j + 1)) (m_numRcvRetrans j)
        (m_numTimeOut j) (m_numUnexp j).

Definition inc_numRcvRetrans (j : Job) : Job :=
  mkJob (job_type j) (job_gtpMsg j) (job_wait j) (m_numSnd j)
        (m_numSndRetrans j) (m_numRcv j) (u32 (m_numRcvRetrans j + 1))
        (m_numTimeOut j) (m_numUnexp j).

Definition inc_numTimeOut (j : Job) : Job :=
  mkJob (job_type j) (job_gtpMsg j) (job_wait j) (m_numSnd j)
        (m_numSndRetrans j) (m_numRcv j) (m_numRcvRetrans j)
        (u32 (m_numTimeOut j + 1)) (m_numUnexp j).

Definition inc_numUnexp (j : Job) : Job :=
  mkJob (job_type j) (job_gtpMsg j) (job_wait j) (m_numSnd j)
        (m_numSndRetrans j) (m_numRcv j) (m_numRcvRetrans j) (m_numTimeOut j)
        (u32 (m_numUnexp j + 1)).

Definition set_job_gtpMsg (m : GtpMsg) (j : Job) : Job :=
  mkJob (job_type j) (Some m) (job_wait j) (m_numSnd j)
        (m_numSndRetrans j) (m_numRcv j) (m_numRcvRetrans j) (m_numTimeOut j)
        (m_numUnexp j).

(** The session together with everything it reaches through pointers and
    globals: the scenario ([m_pScn]: job sequence and interface type), the
    configuration singleton, the control tunnels on the heap, the statistics,
    the TEID counter, the sequence numbers kept per peer, and the datagrams
    handed to [sendMsg], oldest first. *)
Record World := mkWorld {
  ue : UeSession;
  jobSeq : list Job;
  ifType : GtpIfType_t;
  config : Config;
  cTuns : list GtpcTun;
  stats : Stats;
  teidCtr : GtpTeid_t;
  seqCtr : GtpSeqNumber_t;
  peerSeq : GtpSeqNumber_t;
  netOut : list UdpData_t
}.

Definition set_ue (v : UeSession) (w : World) : World :=
  mkWorld v (jobSeq w) (ifType w) (config w) (cTuns w) (stats w) (teidCtr w)
          (seqCtr w) (peerSeq w) (netOut w).

Definition set_jobSeq (v : list Job) (w : World) : World :=
  mkWorld (ue w) v (ifType w) (config w) (cTuns w) (stats w) (teidCtr w)
          (seqCtr w) (peerSeq w) (netOut w).

Definition set_cTuns (v : list GtpcTun) (w : World) : World :=
  mkWorld (ue w) (jobSeq w) (ifType w) (config w) v (stats w) (teidCtr w)
          (seqCtr w) (peerSeq w) (netOut w).

Definition set_stats (v : Stats) (w : World) : World :=
  mkWorld (ue w) (jobSeq w) (ifType w) (config w) (cTuns w) v (teidCtr w)
          (seqCtr w) (peerSeq w) (netOut w).

Definition set_teidCtr (v : GtpTeid_t) (w : World) : World :=
  mkWorld (ue w) (jobSeq w) (ifType w) (config w) (cTuns w) (stats w) v
          (seqCtr w) (peerSeq w) (netOut w).

Definition set_seqCtr (v : GtpSeqNumber_t) (w : World) : World :=
  mkWorld (ue w) (jobSeq w) (ifType w) (config w) (cTuns w) (stats w) (teidCtr w)
          v (peerSeq w) (netOut w).

Definition set_peerSeq (v : GtpSeqNumber_t) (w : World) : World :=
  mkWorld (ue w) (jobSeq w) (ifType w) (config w) (cTuns w) (stats w) (teidCtr w)
          (seqCtr w) v (netOut w).

Definition set_netOut (v : list UdpData_t) (w : World) : World :=
  mkWorld (ue w) (jobSeq w) (ifType w) (config w) (cTuns w) (stats w) (teidCtr w)
          (seqCtr w) (peerSeq w) v.

Definition modUe (f : UeSession -> UeSession) (w : World) : World :=
  set_ue (f (ue w)) w.

(** ** Collaborators outside session.cpp *)

Definition incStats (t : GtpStat_t) (w : World) : World :=
  set_stats (updStats 1 t (stats w)) w.

Definition decStats (t : GtpStat_t) (w : World) : World :=
  set_stats (updStats (-1) t (stats w)) w.

(** transport.hpp: [sendMsg] hands one datagram to the socket [connId]. The
    callers in session.cpp ignore its return value. *)
Definition sendMsg (c : TransConnId) (dst : IPEndPoint) (b : Buffer) (w : World)
  : World :=
  set_netOut (netOut w ++ [mkUdpData b c dst]) w.

(** Modelled from the spec: [Task::pause], [Task::stop] and
    [Task::resumeTask] (task.cpp is absent; task.hpp declares them and the
    task states). A paused task sleeps until its wake time, a stopped task is
    off the scheduler's lists, a resumed task is runnable. *)
Definition pause (w : World) : World := modUe (set_m_taskState TASK_STATE_PAUSED) w.
Definition stop (w : World) : World := modUe (set_m_taskState TASK_STATE_STOPPED) w.
Definition resumeTask (w : World) : World := modUe (set_m_taskState TASK_STATE_RUNNING) w.

(** Modelled from the spec: [generateSeqNum] (gtp_peer.cpp is absent) gives
    the next outbound sequence number of the peer, a 24-bit counter that
    wraps. *)
Definition generateSeqNum (w : World) : GtpSeqNumber_t * World :=
  let n := (seqCtr w + 1) mod 2 ^ 24 in (n, set_seqCtr n w).

(** Modelled from the spec: [updatePeerSeqNumber] (gtp_peer.cpp is absent)
    remembers the last sequence number seen from the peer. *)
Definition updatePeerSeqNumber (n : GtpSeqNumber_t) (w : World) : World :=
  set_peerSeq n w.

(** Modelled from the spec: the constructor of [GtpcTun] (tunnel.cpp is
    absent) takes the next local TEID of the per-process counter; the new
    tunnel has one reference and no remote TEID yet. *)
Definition GtpcTun_new (w : World) : GtpcTun * World :=
  let t := u32 (teidCtr w + 1) in
  (mkGtpcTun t 0 (cfgLocalEp (config w)) (cfgRemoteEp (config w)) 1 0,
   set_teidCtr t w).

(** Modelled from the spec: the constructor of [GtpuTun] (tunnel.cpp is
    absent) takes the next local TEID of the per-process counter. *)
Definition GtpuTun_new (w : World) : GtpuTun * World :=
  let t := u32 (teidCtr w + 1) in (mkGtpuTun t, set_teidCtr t w).

(** ** Pointers to jobs *)

(** [m_pScn->m_jobSeq[i]]: a pointer to the job at position [i]; [None]
    stands for the value read past the end of the vector. *)
Definition jobSeq_at (jobs : list Job) (i : Z) : option nat :=
  if (0 <=? i) && (i <? Z.of_nat (length jobs)) then Some (Z.to_nat i) else None.

Definition derefJob (p : option nat) (w : World) : Res Job :=
  n ← deref p; deref (jobSeq w !! n).

(** [p->counter++] *)
Definition updJob (f : Job -> Job) (p : option nat) (w : World) : Res World :=
  n ← deref p;
  deref (jobSeq w !! n);;
  Ok (set_jobSeq (alter f n (jobSeq w)) w).

Definition UE_SSN_FINISH_TASK (w : World) : World :=
  let i := u32 (m_currTaskIndx (ue w) + 1) in
  modUe (fun s => set_m_currTask (jobSeq_at (jobSeq w) i) (set_m_currTaskIndx i s)) w.

Definition IS_SCN_COMPLETED (w : World) : bool :=
  m_currTaskIndx (ue w) =? Z.of_nat (length (jobSeq w)).

(** ** PDNs, control tunnels and bearers *)

(** [getS11S4CTun]: the loop keeps the tunnel of the last PDN of the list. *)
Definition getS11S4CTun (w : World) : option nat :=
  match last (m_pdnLst (ue w)) with
  | Some pdn => pCTun pdn
  | None => None
  end.

Definition inc_refCount (t : GtpcTun) : GtpcTun :=
  mkGtpcTun (ctun_locTeid t) (ctun_remTeid t) (ctun_localEp t) (ctun_peerEp t)
            (u32 (ctun_refCount t + 1)) (ctun_pPdn t).

Definition set_ctun_remTeid (v : GtpTeid_t) (t : GtpcTun) : GtpcTun :=
  mkGtpcTun (ctun_locTeid t) v (ctun_localEp t) (ctun_peerEp t)
            (ctun_refCount t) (ctun_pPdn t).

Definition set_ctun_peerEp (v : IPEndPoint) (t : GtpcTun) : GtpcTun :=
  mkGtpcTun (ctun_locTeid t) (ctun_remTeid t) (ctun_localEp t) v
            (ctun_refCount t) (ctun_pPdn t).

Definition set_ctun_pPdn (v : nat) (t : GtpcTun) : GtpcTun :=
  mkGtpcTun (ctun_locTeid t) (ctun_remTeid t) (ctun_localEp t) (ctun_peerEp t)
            (ctun_refCount t) v.

(** [new GtpcTun ()] followed by [pCTun->m_pPdn = pPdn]; the result is the
    address of the new tunnel. *)
Definition allocCTun (pPdn : nat) (w : World) : nat * World :=
  let '(t, w1) := GtpcTun_new w in
  (length (cTuns w1), set_cTuns (cTuns w1 ++ [set_ctun_pPdn pPdn t]) w1).

(** [createCTun]: on S11 the tunnel of the session is shared by its PDNs.
    Failure of [new] is not modelled. *)
Definition createCTun (pPdn : nat) (w : World) : Res (nat * World) :=
  match ifType w with
  | GTP_IF_S11_C_MME =>
      match getS11S4CTun w with
      | Some t =>
          deref (cTuns w !! t);;
          Ok (t, set_cTuns (alter inc_refCount t (cTuns w)) w)
      | None => Ok (allocCTun pPdn w)
      end
  | GTP_IF_OTHER => Ok (allocCTun pPdn w)
  end.

(** [createPdn] followed by [m_pdnLst.push_back (pPdn); m_pCurrPdn = pPdn],
    as both callers do: the new PDN is the last one of the list. *)
Definition createPdn (w : World) : Res (nat * World) :=
  let pPdn := length (m_pdnLst (ue w)) in
  '(t, w1) ← createCTun pPdn w;
  Ok (pPdn,
      modUe (fun s => set_m_pCurrPdn (Some pPdn)
                        (set_m_pdnLst (m_pdnLst s ++ [mkGtpcPdn (Some t) 0]) s)) w1).

Definition derefPdn (pPdn : option nat) (w : World) : Res GtpcPdn :=
  p ← deref pPdn; deref (m_pdnLst (ue w) !! p).

(** [pPdn->pCTun] dereferenced *)
Definition derefCTun (pPdn : option nat) (w : World) : Res GtpcTun :=
  pdn ← derefPdn pPdn w;
  t ← deref (pCTun pdn);
  deref (cTuns w !! t).

Definition updCTun (f : GtpcTun -> GtpcTun) (pPdn : option nat) (w : World)
  : Res World :=
  pdn ← derefPdn pPdn w;
  t ← deref (pCTun pdn);
  deref (cTuns w !! t);;
  Ok (set_cTuns (alter f t (cTuns w)) w).

Definition set_bearerMask (v : Z) (pdn : GtpcPdn) : GtpcPdn :=
  mkGtpcPdn (pCTun pdn) v.

(** The slot of [m_bearerVec] for an EBI, when it is one of the
    [GTP_MAX_BEARERS] slots the constructor sets to NULL. The code indexes
    the vector with [GTP_BEARER_INDEX (ebi)] unchecked; an index outside
    those slots is undefined behaviour, which [createBearer] and
    [bearerLocalTeid] render as a fault. *)
Definition bearerSlot (s : UeSession) (ebi : GtpEbi_t) : option nat :=
  let i := GTP_BEARER_INDEX ebi in
  if (0 <=? i) && (i <? Z.of_nat (length (m_bearerVec s)))
  then Some (Z.to_nat i) else None.

(** One turn of the loop of [createBearers]. *)
Definition createBearer (pPdn : option nat) (ebi : GtpEbi_t) (w : World)
  : Res World :=
  p ← deref pPdn;
  pdn ← deref (m_pdnLst (ue w) !! p);
  let '(ut, w1) := GtpuTun_new w in
  let pBearer := mkGtpBearer p ebi ut in
  i ← deref (bearerSlot (ue w1) ebi);
  Ok (modUe (fun s =>
        set_m_bearerVec (<[i := Some pBearer]> (m_bearerVec s))
          (set_m_pdnLst
             (<[p := set_bearerMask (GSIM_SET_BEARER_MASK (bearerMask pdn) ebi) pdn]>
                (m_pdnLst s)) s)) w1).

Fixpoint createBearers_loop (pPdn : option nat) (ebis : list GtpEbi_t) (w : World)
  : Res World :=
  match ebis with
  | [] => Ok w
  | ebi :: rest => w1 ← createBearer pPdn ebi w; createBearers_loop pPdn rest w1
  end.

Definition createBearers (pPdn : option nat) (pGtpMsg : GtpMsg) (w : World)
  : Res World :=
  if msgType pGtpMsg =? GTPC_MSG_CS_REQ
  then createBearers_loop pPdn (msgBearerEbis pGtpMsg) w
  else Ok w.

Definition decAndStoreGtpcIncMsg (pPdn : option nat) (pGtpMsg : GtpMsg)
    (pPeerEp : IPEndPoint) (w : World) : Res World :=
  let m := msgDecode pGtpMsg in
  let rcvdMsgTye := msgType m in
  w1 ← (if (rcvdMsgTye =? GTPC_MSG_CS_REQ) || (rcvdMsgTye =? GTPC_MSG_CS_RSP)
        then teid ← deref (msgFteidTeid m); updCTun (set_ctun_remTeid teid) pPdn w
        else Ok w);
  w2 ← updCTun (set_ctun_peerEp (mkIPEndPoint (ipAddr pPeerEp) (port pPeerEp)))
         pPdn w1;
  if msgType m =? GTPC_MSG_CS_REQ then createBearers pPdn m w2 else Ok w2.

(** [getBearer (ebi)->localTeid ()] *)
Definition bearerLocalTeid (s : UeSession) (ebi : GtpEbi_t) : Res GtpTeid_t :=
  i ← deref (bearerSlot s ebi);
  slot ← deref (m_bearerVec s !! i);
  b ← deref slot;
  Ok (utun_locTeid (bearer_pUTun b)).

(** The loop of [encGtpcOutMsg] over the Bearer Context IEs, [i] counting
    from one. *)
Fixpoint encBearers (s : UeSession) (i : nat) (ebis : list GtpEbi_t) (m : GtpMsg)
  : Res GtpMsg :=
  match ebis with
  | [] => Ok m
  | ebi :: rest =>
      teid ← bearerLocalTeid s ebi;
      encBearers s (S i) rest (msgSetGtpuTeid i teid m)
  end.

Definition setSenderFteid (tun : GtpcTun) (m : GtpMsg) : Res GtpMsg :=
  let '(ret, m1) := msgSetSenderFteid (ctun_locTeid tun) (ipAddr (ctun_localEp tun)) m in
  if RETVAL_eqb ret ROK then Ok m1 else Throw ret.

(** [encGtpcOutMsg (pPdn, m_currTask->getGtpMsg (), &buf, &m_peerEp)]: the
    template of the job [pJob] is rewritten in place and encoded. *)
Definition encGtpcOutMsg (pPdn : option nat) (pJob : option nat) (w : World)
  : Res (Buffer * World) :=
  n ← deref pJob;
  job ← deref (jobSeq w !! n);
  pGtpMsg ← deref (job_gtpMsg job);
  tun ← derefCTun pPdn w;
  let msgHdr :=
    mkGtpMsgHdr (ctun_remTeid tun) (proc_seqNumber (m_currUeProc (ue w)))
      (GSIM_SET_MASK (GSIM_SET_MASK 0 GTP_MSG_HDR_TEID_PRES) GTP_MSG_HDR_SEQ_PRES) in
  let m1 := msgSetMsgHdr msgHdr pGtpMsg in
  let msgType_ := msgType m1 in
  m2 ← (if msgType_ =? GTPC_MSG_CS_REQ
        then setSenderFteid tun (msgSetImsi (m_imsiKey (ue w)) m1)
        else if msgType_ =? GTPC_MSG_CS_RSP
        then setSenderFteid tun m1
        else Ok m1);
  m3 ← encBearers (ue w) 1%nat (msgBearerEbis m2) m2;
  Ok (msgEncode m3, set_jobSeq (alter (set_job_gtpMsg m3) n (jobSeq w)) w).

(** ** The handlers of [UeSession] *)

Definition chkWaiting (w : World) : bool :=
  GSIM_CHK_MASK (m_bitmask (ue w)) GSIM_UE_SSN_WAITING_FOR_RSP.

Definition chkComplete (w : World) : bool :=
  GSIM_CHK_MASK (m_bitmask (ue w)) GSIM_UE_SSN_SCN_COMPLETE.

(** [m_currTask->getGtpMsg ()] dereferenced *)
Definition currGtpMsg (w : World) : Res GtpMsg :=
  job ← derefJob (m_currTask (ue w)) w;
  deref (job_gtpMsg job).

Definition handleCompletedTask (w : World) : World :=
  let w1 := incStats GSIM_STAT_NUM_SESSIONS_SUCC w in
  let w2 := decStats GSIM_STAT_NUM_SESSIONS w1 in
  let w3 :=
    modUe (fun s =>
      set_m_wakeTime (u64 (m_lastRunTime s + m_deadCallWait s))
        (set_m_bitmask (GSIM_SET_MASK (m_bitmask s) GSIM_UE_SSN_SCN_COMPLETE) s)) w2 in
  pause w3.

Definition handleOutReqMsg (w : World) : Res (RETVAL * World) :=
  gtpMsg ← currGtpMsg w;
  '(pPdn, w1) ←
    (if msgType gtpMsg =? GTPC_MSG_CS_REQ
     then
       '(p, w') ← createPdn (incStats GSIM_STAT_NUM_SESSIONS
                               (incStats GSIM_STAT_NUM_SESSIONS_CREATED w));
       Ok (Some p, w')
     else Ok (m_pCurrPdn (ue w), w));
  w2 ← createBearers pPdn gtpMsg w1;
  let '(seqN, w3) := generateSeqNum w2 in
  let w4 :=
    modUe (fun s =>
      set_m_currReqType (msgType gtpMsg)
        (set_m_currUeProc (set_proc_seqNumber seqN (m_currUeProc s)) s)) w3 in
  '(b, w5) ← encGtpcOutMsg pPdn (m_currTask (ue w4)) w4;
  let pNwData := mkUdpData b 0 (m_peerEp (ue w5)) in
  let w6 := sendMsg (connId pNwData) (peerEp pNwData) (buf pNwData) w5 in
  w7 ← updJob inc_numSnd (m_currTask (ue w6)) w6;
  Ok (ROK,
      modUe (fun s =>
        set_m_wakeTime (u64 (m_lastRunTime s + m_t3time s))
          (set_m_bitmask (GSIM_SET_MASK (m_bitmask s) GSIM_UE_SSN_WAITING_FOR_RSP)
             (set_m_currUeProc (set_proc_sentMsg (Some pNwData) (m_currUeProc s)) s)))
        w7).

Definition handleOutReqTimeout (w : World) : Res (RETVAL * World) :=
  if m_n3req (ue w) <=? m_retryCnt (ue w)
  then
    Ok (ERR_MAX_RETRY_EXCEEDED,
        modUe (fun s => set_m_currUeProc (set_proc_sentMsg None (m_currUeProc s)) s) w)
  else
    sentMsg ← deref (proc_sentMsg (m_currUeProc (ue w)));
    let w1 := sendMsg (connId sentMsg) (peerEp sentMsg) (buf sentMsg) w in
    w2 ← updJob inc_numSndRetrans (m_currTask (ue w1)) w1;
    Ok (ROK,
        pause (modUe (fun s =>
                 set_m_wakeTime (u64 (m_lastRunTime s + m_t3time s))
                   (set_m_retryCnt (u32 (m_retryCnt s + 1)) s)) w2)).

Definition handleOutRspMsg (w : World) : Res (RETVAL * World) :=
  let pPdn := m_pCurrPdn (ue w) in
  '(b, w1) ← encGtpcOutMsg pPdn (m_currTask (ue w)) w;
  tun ← derefCTun pPdn w1;
  let pNwData := mkUdpData b (proc_connId (m_currUeProc (ue w1))) (ctun_peerEp tun) in
  let w2 := sendMsg (connId pNwData) (peerEp pNwData) (buf pNwData) w1 in
  w3 ← updJob inc_numSnd (m_currTask (ue w2)) w2;
  gtpMsg ← currGtpMsg w3;
  let w4 :=
    modUe (fun s =>
      set_m_prevUeProc
        (set_proc_rspType (msgType gtpMsg)
           (set_proc_sentMsg (Some pNwData) (m_prevUeProc s))) s) w3 in
  let w5 := UE_SSN_FINISH_TASK w4 in
  Ok (ROK, if IS_SCN_COMPLETED w5 then handleCompletedTask w5 else w5).

Definition handleSend (w : World) : Res (RETVAL * World) :=
  if chkWaiting w
  then
    '(ret, w1) ← handleOutReqTimeout w;
    if RETVAL_eqb ERR_MAX_RETRY_EXCEEDED ret
    then
      w2 ← updJob inc_numTimeOut (m_currTask (ue w1)) w1;
      let w3 := incStats GSIM_STAT_NUM_SESSIONS_FAIL w2 in
      Ok (ROK_OVER,
          modUe (fun s => set_m_currUeProc (set_proc_sentMsg None (m_currUeProc s)) s) w3)
    else Ok (ret, w1)
  else
    gtpMsg ← currGtpMsg w;
    match gtpGetMsgCategory (msgType gtpMsg) with
    | GTP_MSG_CAT_REQ =>
        '(ret, w1) ← handleOutReqMsg w;
        if RETVAL_eqb ROK ret then Ok (ret, pause w1) else Ok (ROK_OVER, w1)
    | _ =>
        '(ret, w1) ← handleOutRspMsg w;
        if RETVAL_eqb ROK ret then Ok (ret, stop w1) else Ok (ROK_OVER, w1)
    end.

Definition handleWait (w : World) : Res (RETVAL * World) :=
  job ← derefJob (m_currTask (ue w)) w;
  let w1 := modUe (fun s => set_m_wakeTime (u64 (m_lastRunTime s + job_wait job)) s) w in
  Ok (ROK, pause (UE_SSN_FINISH_TASK w1)).

Definition isExpectedRsp (rspMsg : GtpMsg) (w : World) : Res bool :=
  task ← derefJob (jobSeq_at (jobSeq w) (u32 (m_currTaskIndx (ue w) + 1))) w;
  expectedRspMsg ← deref (job_gtpMsg task);
  Ok ((msgType expectedRspMsg =? msgType rspMsg)
      && (proc_seqNumber (m_currUeProc (ue w)) =? msgSeqNumber rspMsg)).

Definition isExpectedReq (reqMsg : GtpMsg) (w : World) : Res bool :=
  expectedReqMsg ← currGtpMsg w;
  Ok ((msgType expectedReqMsg =? msgType reqMsg)
      && (proc_seqNumber (m_currUeProc (ue w)) <? msgSeqNumber reqMsg)).

Definition isPrevProcRsp (rspMsg : GtpMsg) (w : World) : bool :=
  (0 <? m_currTaskIndx (ue w))
  && (proc_rspType (m_prevUeProc (ue w)) =? msgType rspMsg)
  && (proc_seqNumber (m_prevUeProc (ue w)) =? msgSeqNumber rspMsg).

Definition isPrevProcReq (reqMsg : GtpMsg) (w : World) : bool :=
  (0 <? m_currTaskIndx (ue w))
  && (proc_reqType (m_prevUeProc (ue w)) =? msgType reqMsg)
  && (proc_seqNumber (m_prevUeProc (ue w)) =? msgSeqNumber reqMsg).

(** The resend of the response of the previous procedure, as
    [handleIncReqMsg] and [handleDeadCall] do it. *)
Definition resendPrevRsp (w : World) : Res World :=
  w1 ← updJob inc_numRcvRetrans (proc_procTask (m_prevUeProc (ue w))) w;
  sentMsg ← deref (proc_sentMsg (m_prevUeProc (ue w1)));
  Ok (sendMsg (connId sentMsg) (peerEp sentMsg) (buf sentMsg) w1).

Definition handleDeadCall (arg : option UdpData_t) (w : World) : Res (RETVAL * World) :=
  match arg with
  | None =>
      if m_wakeTime (ue w) <=? m_lastRunTime (ue w) then Ok (ROK_OVER, w) else Ok (ROK, w)
  | Some data =>
      let gtpMsg := msgOfBuffer (buf data) in
      match gtpGetMsgCategory (msgType gtpMsg) with
      | GTP_MSG_CAT_REQ =>
          if isPrevProcReq gtpMsg w
          then w1 ← resendPrevRsp w; Ok (ROK, w1)
          else Ok (ROK, w)
      | GTP_MSG_CAT_RSP =>
          if isPrevProcRsp gtpMsg w
          then
            w1 ← updJob inc_numRcvRetrans (proc_procTask (m_prevUeProc (ue w))) w;
            Ok (ROK, w1)
          else Ok (ROK, w)
      | GTP_MSG_CAT_INV => Ok (ROK, w)
      end
  end.

(** The first statements of [run]: [m_lastRunTime = getMilliSeconds ();
    resumeTask ()], [now] being what the clock reads. *)
Definition run_enter (now : Time_t) (w : World) : World :=
  resumeTask (modUe (set_m_lastRunTime now) w).

(** [run (NULL)]: the task was woken by its timer, or re-entered by
    [handleIncReqMsg]. What [handleDeadCall] returns is not assigned to
    [ret]: once the scenario is complete [run] returns [ROK]. *)
Definition run_timer (now : Time_t) (w : World) : Res (RETVAL * World) :=
  let w1 := run_enter now w in
  if chkComplete w1
  then '(_, w2) ← handleDeadCall None w1; Ok (ROK, w2)
  else
    job ← derefJob (m_currTask (ue w1)) w1;
    match job_type job with
    | JOB_TYPE_SEND => handleSend w1
    | JOB_TYPE_WAIT => handleWait w1
    | _ => Ok (ROK, w1)
    end.

(** The part of [handleIncReqMsg] that follows the classification of an
    expected request, up to [UE_SSN_FINISH_TASK]: the PDN is created on a
    Create Session Request, the procedure is recorded in [m_currUeProc] and
    [m_prevUeProc], and the Recv job is finished. [decAndStoreGtpcIncMsg]
    decodes the request in place, so the type kept in [m_prevUeProc] is read
    from the decoded message. *)
Definition acceptReq (rcvdReq : GtpMsg) (rcvdData : UdpData_t) (w : World)
  : Res World :=
  w1 ← updJob inc_numRcv (m_currTask (ue w)) w;
  '(pdn, w2) ←
    (if GTPC_MSG_CS_REQ =? msgType rcvdReq
     then
       '(p, w') ← createPdn (incStats GSIM_STAT_NUM_SESSIONS
                               (incStats GSIM_STAT_NUM_SESSIONS_CREATED w1));
       Ok (Some p, w')
     else Ok (m_pCurrPdn (ue w1), w1));
  let w3 :=
    modUe (fun s =>
      set_m_currReqType (msgType rcvdReq)
        (set_m_currUeProc
           (set_proc_seqNumber (msgSeqNumber rcvdReq)
              (set_proc_connId (connId rcvdData) (m_currUeProc s))) s)) w2 in
  let w4 := updatePeerSeqNumber (proc_seqNumber (m_currUeProc (ue w3))) w3 in
  w5 ← decAndStoreGtpcIncMsg pdn rcvdReq (peerEp rcvdData) w4;
  let w6 :=
    modUe (fun s =>
      set_m_prevUeProc
        (set_proc_procTask (m_currTask s)
           (set_proc_reqType (msgType (msgDecode rcvdReq))
              (set_proc_seqNumber (proc_seqNumber (m_currUeProc s))
                 (set_proc_connId (proc_connId (m_currUeProc s))
                    (m_prevUeProc s))))) s) w5 in
  Ok (UE_SSN_FINISH_TASK w6).

(** [now2] is what the clock reads when [this->run ()] is re-entered after
    an expected request; the value [run] returns there is dropped. *)
Definition handleIncReqMsg (rcvdReq : GtpMsg) (rcvdData : UdpData_t) (now2 : Time_t)
    (w : World) : Res (RETVAL * World) :=
  expected ← isExpectedReq rcvdReq w;
  if (expected : bool)
  then
    w6 ← acceptReq rcvdReq rcvdData w;
    '(_, w7) ← run_timer now2 w6;
    Ok (ROK, w7)
  else if isPrevProcReq rcvdReq w
  then w1 ← resendPrevRsp w; Ok (ROK, w1)
  else w1 ← updJob inc_numUnexp (m_currTask (ue w)) w; Ok (ROK, w1).

Definition handleIncRspMsg (rspMsg : GtpMsg) (rcvdData : UdpData_t) (w : World)
  : Res (RETVAL * World) :=
  expected ← isExpectedRsp rspMsg w;
  if (expected : bool)
  then
    let w1 :=
      modUe (fun s =>
        set_m_prevUeProc
          (set_proc_procTask (m_currTask s)
             (set_proc_rspType (msgType rspMsg)
                (set_proc_reqType (m_currReqType s)
                   (set_proc_seqNumber (proc_seqNumber (m_currUeProc s))
                      (set_proc_connId (connId rcvdData) (m_prevUeProc s)))))) s) w in
    let w2 := UE_SSN_FINISH_TASK w1 in
    w3 ← updJob inc_numRcv (m_currTask (ue w2)) w2;
    w4 ← decAndStoreGtpcIncMsg (m_pCurrPdn (ue w3)) rspMsg (peerEp rcvdData) w3;
    let w5 :=
      modUe (fun s =>
        set_m_currUeProc (set_proc_sentMsg None (m_currUeProc s))
          (set_m_bitmask (GSIM_UNSET_MASK (m_bitmask s) GSIM_UE_SSN_WAITING_FOR_RSP) s))
        w4 in
    let w6 := UE_SSN_FINISH_TASK w5 in
    Ok (ROK, if IS_SCN_COMPLETED w6 then handleCompletedTask w6 else w6)
  else if isPrevProcRsp rspMsg w
  then
    w1 ← updJob inc_numRcvRetrans (proc_procTask (m_prevUeProc (ue w))) w;
    Ok (ROK, w1)
  else w1 ← updJob inc_numUnexp (m_currTask (ue w)) w; Ok (ROK, w1).

Definition handleRecv (data : UdpData_t) (now2 : Time_t) (w : World)
  : Res (RETVAL * World) :=
  let gtpMsg := msgOfBuffer (buf data) in
  '(ret, w1) ←
    match gtpGetMsgCategory (msgType gtpMsg) with
    | GTP_MSG_CAT_REQ => handleIncReqMsg gtpMsg data now2 w
    | GTP_MSG_CAT_RSP => handleIncRspMsg gtpMsg data w
    | GTP_MSG_CAT_INV => Ok (ROK, w)
    end;
  Ok (ret, modUe (set_m_wakeTime 0) w1).

(** [run (arg)]: [now] is what the clock reads on entry. *)
Definition run (arg : option UdpData_t) (now now2 : Time_t) (w : World)
  : Res (RETVAL * World) :=
  match arg with
  | None => run_timer now w
  | Some data =>
      let w1 := run_enter now w in
      if chkComplete w1
      then '(_, w2) ← handleDeadCall arg w1; Ok (ROK, w2)
      else handleRecv data now2 w1
  end.

(** The constructor. [m_currUeProc], [m_prevUeProc], [m_pCurrPdn],
    [m_currReqType] and the times are not assigned by it; they are given the
    values of zero-initialised members, the stored messages being NULL as the
    destructor expects. [m_bearerVec] is reserved for [GTP_MAX_BEARERS]
    pointers, each set to NULL through the index operator (the size of the
    vector stays 0 in the code); it is given as that many NULL slots. *)
Definition emptyProc : UeProc := mkUeProc 0 0 0 0 None None.

Definition UeSession_new (cfg : Config) (jobs : list Job) (sessionId : U32)
    (imsi : GtpImsiKey) : UeSession :=
  {| m_n3req := cfgN3Requests cfg;
     m_retryCnt := 0;
     m_t3time := cfgT3Timer cfg;
     m_sessionId := sessionId;
     m_nodeType := cfgNodeType cfg;
     m_peerEp := cfgRemoteEp cfg;
     m_currTaskIndx := 0;
     m_currTask := jobSeq_at jobs 0;
     m_bitmask := 0;
     m_imsiKey := imsi;
     m_deadCallWait := cfgDeadCallWait cfg;
     m_bearerVec := replicate GTP_MAX_BEARERS None;
     m_pdnLst := [];
     m_pCurrPdn := None;
     m_currUeProc := emptyProc;
     m_prevUeProc := emptyProc;
     m_currReqType := 0;
     m_lastRunTime := 0;
     m_wakeTime := 0;
     m_taskState := TASK_STATE_RUNNING |}.

Definition zeroStats : Stats := mkStats 0 0 0 0 0.

(** The world in which a fresh session starts on the scenario [jobs]. *)
Definition initWorld (cfg : Config) (ift : GtpIfType_t) (jobs : list Job)
    (imsi : GtpImsiKey) : World :=
  mkWorld (UeSession_new cfg jobs 1 imsi) jobs ift cfg [] zeroStats 0 0 0 [].

(** The states a session goes through: the scheduler and the dispatcher
    call [run] again, with a datagram or without, as long as the session has
    not asked to be ended ([ROK_OVER]). Any order of calls and any clock
    readings are allowed, which covers what the scheduler can do. *)
Inductive reachable (w0 : World) : World -> Prop :=
| reach_init : reachable w0 w0
| reach_run w arg now now2 w' :
    reachable w0 w ->
    run arg now now2 w = Ok (ROK, w') ->
    reachable w0 w'.

(** ** A request that is out

    [awaiting seqN w]: the session, not waiting, has sent a request through
    [handleSend], [generateSeqNum] giving that request the sequence number
    [seqN]; since then every run took place with [WAITING_FOR_RSP] set, on the
    timer (the T3 retransmissions) or on a datagram that is not a request
    accepted as the expected one. *)
Inductive awaiting : GtpSeqNumber_t -> World -> Prop :=
| await_sent w0 (gtpMsg : GtpMsg) (r : RETVAL) w :
    chkWaiting w0 = false ->
    currGtpMsg w0 = Ok gtpMsg ->
    gtpGetMsgCategory (msgType gtpMsg) = GTP_MSG_CAT_REQ ->
    handleSend w0 = Ok (r, w) ->
    awaiting (fst (generateSeqNum w0)) w
| await_timer seqN w (now now2 : Time_t) (r : RETVAL) w' :
    awaiting seqN w ->
    chkWaiting w = true ->
    run None now now2 w = Ok (r, w') ->
    awaiting seqN w'
| await_datagram seqN w (data : UdpData_t) (now now2 : Time_t) (r : RETVAL) w' :
    awaiting seqN w ->
    chkWaiting w = true ->
    gtpGetMsgCategory (msgType (msgOfBuffer (buf data))) <> GTP_MSG_CAT_REQ \/
      isExpectedReq (msgOfBuffer (buf data)) w = Ok false ->
    run (Some data) now now2 w = Ok (r, w') ->
    awaiting seqN w'.

(** ** The retry counter *)

(** [m_retryCnt] and [m_n3req] are the same in both worlds. *)
Definition sameRetry (w w' : World) : Prop :=
  m_retryCnt (ue w') = m_retryCnt (ue w) /\ m_n3req (ue w') = m_n3req (ue w).

Definition retryInv (w : World) : Prop :=
  0 <= m_retryCnt (ue w) <= m_n3req (ue w) /\ m_n3req (ue w) < 2 ^ 32.

(** ** The next job *)

(** [nextTaskType]: the kind of the job after the current one, or
    [JOB_TYPE_INV] when there is none. The index is compared with the size of
    the vector before the vector is read. *)
Definition nextTaskType (w : World) : JobType_t :=
  let i := u32 (m_currTaskIndx (ue w) + 1) in
  if i <? Z.of_nat (length (jobSeq w))
  then
    match jobSeq w !! Z.to_nat i with
    | Some task => job_type task
    | None => JOB_TYPE_INV
    end
  else JOB_TYPE_INV.

(** ** The session map *)

(** [s_ueSessionMap] and [g_sessionId], with the sessions that [new] has
    made: a session pointer is a position in [ssnHeap], whose entry is [None]
    once the session is deleted. The keys of the map are compared byte by
    byte. *)
Record Registry := mkRegistry {
  ssnHeap : list (option UeSession);
  s_ueSessionMap : gmap GtpImsiKey nat;
  g_sessionId : U32
}.

(** [createUeSession]: the constructor takes the next session id; [insert]
    of [std::map] adds the pair only when the key is not in the map yet. *)
Definition createUeSession (cfg : Config) (jobs : list Job) (imsiKey : GtpImsiKey)
    (reg : Registry) : nat * Registry :=
  let sid := u32 (g_sessionId reg + 1) in
  let pUeSsn := length (ssnHeap reg) in
  (pUeSsn,
   mkRegistry (ssnHeap reg ++ [Some (UeSession_new cfg jobs sid imsiKey)])
     (match s_ueSessionMap reg !! imsiKey with
      | Some _ => s_ueSessionMap reg
      | None => <[imsiKey := pUeSsn]> (s_ueSessionMap reg)
      end)
     sid).

(** [getUeSession (imsiKey)]: [None] is the NULL pointer. *)
Definition getUeSession (imsiKey : GtpImsiKey) (reg : Registry) : option nat :=
  s_ueSessionMap reg !! imsiKey.

(** [delete pUeSsn]: what the destructor does to the session map,
    [s_ueSessionMap.erase (m_imsiKey)]; the release of the PDNs, tunnels and
    bearers of the session is not followed here. *)
Definition deleteUeSession (pUeSsn : nat) (reg : Registry) : Res Registry :=
  slot ← deref (ssnHeap reg !! pUeSsn);
  s ← deref slot;
  Ok (mkRegistry (<[pUeSsn := None]> (ssnHeap reg))
        (delete (m_imsiKey s) (s_ueSessionMap reg))
        (g_sessionId reg)).

(** ** What a run leaves alone *)

(** The session without its PDN list, current PDN and bearers. *)
Definition blankPdn (s : UeSession) : UeSession :=
  set_m_bearerVec [] (set_m_pCurrPdn None (set_m_pdnLst [] s)).

(** The kinds and durations of the jobs of a scenario. *)
Definition jobShape (jobs : list Job) : list (JobType_t * Time_t) :=
  map (fun j => (job_type j, job_wait j)) jobs.

(** What the handling of jobs' counters and templates, PDNs, tunnels and
    bearers leaves as it is. *)
Definition helperFrame (w w' : World) : Prop :=
  blankPdn (ue w') = blankPdn (ue w) /\
  jobShape (jobSeq w') = jobShape (jobSeq w) /\
  length (m_bearerVec (ue w')) = length (m_bearerVec (ue w)) /\
  stats w' = stats w /\ netOut w' = netOut w /\
  seqCtr w' = seqCtr w /\ peerSeq w' = peerSeq w /\
  config w' = config w /\ ifType w' = ifType w.

(** What is fixed when the session is made. *)
Definition staticView (w : World) :=
  (m_n3req (ue w), m_t3time (ue w), m_sessionId (ue w), m_nodeType (ue w),
   m_peerEp (ue w), m_imsiKey (ue w), m_deadCallWait (ue w),
   config w, ifType w, jobShape (jobSeq w), length (m_bearerVec (ue w))).

Definition sendsAtMostOne (w w' : World) : Prop :=
  netOut w' = netOut w \/ exists d : UdpData_t, netOut w' = netOut w ++ [d].

(** Sessions created, less those completed and those in flight, as a
    32-bit value; and the counter of dead calls. *)
Definition statsKept (st st' : Stats) : Prop :=
  (NUM_SESSIONS_CREATED st' - NUM_SESSIONS_SUCC st' - NUM_SESSIONS st') mod 2 ^ 32
  = (NUM_SESSIONS_CREATED st - NUM_SESSIONS_SUCC st - NUM_SESSIONS st) mod 2 ^ 32 /\
  NUM_DEADCALLS st' = NUM_DEADCALLS st.

(** The position in the scenario: [m_currTaskIndx] is within the job
    sequence or at its end, [m_currTask] is what [m_jobSeq] holds there, and
    a complete scenario is at the end. The scenario is short enough for the
    32-bit index not to wrap. *)
Definition cursorInv (w : World) : Prop :=
  Z.of_nat (length (jobSeq w)) + 2 < 2 ^ 32 /\
  0 <= m_currTaskIndx (ue w) <= Z.of_nat (length (jobSeq w)) /\
  m_currTask (ue w) = jobSeq_at (jobSeq w) (m_currTaskIndx (ue w)) /\
  (chkComplete w = true -> m_currTaskIndx (ue w) = Z.of_nat (length (jobSeq w))).

(** What no handler changes: the fixed part of the session and of the
    scenario, and the balance of the session counters. *)
Definition keeps (w w' : World) : Prop :=
  staticView w' = staticView w /\ statsKept (stats w) (stats w').

(** A step that keeps the position in the scenario sound and moves it
    forward by at most [k] jobs. *)
Definition cursorStep (k : Z) (w w' : World) : Prop :=
  cursorInv w ->
  cursorInv w' /\
  m_currTaskIndx (ue w) <= m_currTaskIndx (ue w') <= m_currTaskIndx (ue w) + k.

End Session.

(** ** A small codec on which the handlers can be run

    A message is its header fields, an optional sender F-TEID and its bearer
    contexts (EBI and GTP-U TEID). The types 32 to 37 are Create Session,
    Modify Bearer and Delete Session requests and responses. *)

Record TestMsg := mkTestMsg {
  tm_type : GtpMsgType_t;
  tm_teid : GtpTeid_t;
  tm_seq : GtpSeqNumber_t;
  tm_fteid : option GtpTeid_t;
  tm_bearers : list (GtpEbi_t * GtpTeid_t)
}.

Fixpoint tm_encBearers (l : list (GtpEbi_t * GtpTeid_t)) : Buffer :=
  match l with
  | [] => []
  | (e, t) :: r => e :: t :: tm_encBearers r
  end.

Fixpoint tm_decBearers (fuel : nat) (b : Buffer) : list (GtpEbi_t * GtpTeid_t) :=
  match fuel, b with
  | S f, e :: t :: r => (e, t) :: tm_decBearers f r
  | _, _ => []
  end.

Definition tm_encode (m : TestMsg) : Buffer :=
  tm_type m :: tm_teid m :: tm_seq m ::
  match tm_fteid m with
  | Some t => 1 :: t :: tm_encBearers (tm_bearers m)
  | None => 0 :: tm_encBearers (tm_bearers m)
  end.

Definition tm_ofBuffer (b : Buffer) : TestMsg :=
  match b with
  | ty :: te :: sq :: 1 :: t :: r => mkTestMsg ty te sq (Some t) (tm_decBearers (length r) r)
  | ty :: te :: sq :: _ :: r => mkTestMsg ty te sq None (tm_decBearers (length r) r)
  | _ => mkTestMsg 0 0 0 None []
  end.

Definition tm_category (t : GtpMsgType_t) : GtpMsgCategory_t :=
  if (t =? 32) || (t =? 34) || (t =? 36) then GTP_MSG_CAT_REQ
  else if (t =? 33) || (t =? 35) || (t =? 37) then GTP_MSG_CAT_RSP
  else GTP_MSG_CAT_INV.

Fixpoint tm_setNth (i : nat) (t : GtpTeid_t) (l : list (GtpEbi_t * GtpTeid_t))
  : list (GtpEbi_t * GtpTeid_t) :=
  match i, l with
  | _, [] => []
  | O, x :: r => x :: r
  | S O, (e, _) :: r => (e, t) :: r
  | S j, x :: r => x :: tm_setNth j t r
  end.

#[global] Instance TestCodec : GtpCodec TestMsg := {|
  gtpGetMsgCategory := tm_category;
  msgOfBuffer := tm_ofBuffer;
  msgType := tm_type;
  msgSeqNumber := tm_seq;
  msgDecode := fun m => m;
  msgFteidTeid := tm_fteid;
  msgBearerEbis := fun m => map fst (tm_bearers m);
  msgSetMsgHdr := fun h m =>
    mkTestMsg (tm_type m) (hdr_teid h) (hdr_seqN h) (tm_fteid m) (tm_bearers m);
  msgSetImsi := fun _ m => m;
  msgSetSenderFteid := fun t _ m =>
    (ROK, mkTestMsg (tm_type m) (tm_teid m) (tm_seq m) (Some t) (tm_bearers m));
  msgSetGtpuTeid := fun i t m =>
    mkTestMsg (tm_type m) (tm_teid m) (tm_seq m) (tm_fteid m) (tm_setNth i t (tm_bearers m));
  msgEncode := tm_encode
|}.

Definition testJob (ty : JobType_t) (m : option TestMsg) (wait_ms : Time_t) : Job :=
  mkJob ty m wait_ms 0 0 0 0 0 0.

Definition sendJob (t : GtpMsgType_t) : Job :=
  testJob JOB_TYPE_SEND (Some (mkTestMsg t 0 0 None [])) 0.
Definition recvJob (t : GtpMsgType_t) : Job :=
  testJob JOB_TYPE_RECV (Some (mkTestMsg t 0 0 None [])) 0.
Definition waitJob (ms : Time_t) : Job := testJob JOB_TYPE_WAIT None ms.

Definition testEp (a : Z) : IPEndPoint := mkIPEndPoint (mkIpAddr IP_ADDR_TYPE_V4 a) 2123.

(** T3 = 1000 ms, N3 = 3, as in the end-to-end scenarios of the spec. *)
Definition testCfg : Config := mkConfig 3 1000 0 (testEp 2) (testEp 1) 5000.

Definition testImsi : GtpImsiKey := [1; 2; 3; 4; 5; 6; 7; 8].

(** A datagram from the peer: message type, sequence number, sender F-TEID. *)
Definition peerMsg (t : GtpMsgType_t) (sq : GtpSeqNumber_t) (ft : option GtpTeid_t)
  : UdpData_t :=
  mkUdpData (tm_encode (mkTestMsg t 0 sq ft [])) 0 (testEp 2).

(** The world after a run that is expected to go through. *)
Definition after (r : Res (RETVAL * World (GtpMsg := TestMsg))) (dflt : World)
  : World :=
  match r with
  | Ok (_, w) => w
  | _ => dflt
  end.

(** S1: outbound Create Session *)
Definition scnS1 : list Job := [sendJob 32; recvJob 33].
Definition s1_w0 : World := initWorld testCfg GTP_IF_S11_C_MME scnS1 testImsi.
Definition s1_w1 : World := after (run None 0 0 s1_w0) s1_w0.

(** S4: inbound Create Session, then Modify Bearer *)
Definition scnS4 : list Job := [recvJob 32; sendJob 33; recvJob 34; sendJob 35].
Definition s4_w0 : World := initWorld testCfg GTP_IF_S11_C_MME scnS4 testImsi.

(** S1 followed by a Wait job *)
Definition scnS1Wait : list Job := [sendJob 32; recvJob 33; waitJob 100].
Definition sw_w0 : World := initWorld testCfg GTP_IF_S11_C_MME scnS1Wait testImsi.

(** S1, the session waiting: T3 expires three times, at 1000, 2000 and
    3000 ms. *)
Definition s1_t1 : World := after (run None 1000 1000 s1_w1) s1_w0.
Definition s1_t2 : World := after (run None 2000 2000 s1_t1) s1_w0.
Definition s1_t3 : World := after (run None 3000 3000 s1_t2) s1_w0.

(** S4: the peer's Create Session Request with sequence number 10 has come
    in; [s4_mid] is the state in which [handleIncReqMsg] re-enters [run] for
    the Send job of the response, [s4_w1] the state after that run. *)
Definition csReq10 : UdpData_t := peerMsg 32 10 (Some 77).
Definition s4_mid : World :=
  match acceptReq (msgOfBuffer (buf csReq10)) csReq10 (run_enter 0 s4_w0) with
  | Ok w => run_enter 0 w
  | _ => s4_w0
  end.
Definition s4_w1 : World := after (run (Some csReq10) 0 0 s4_w0) s4_w0.

(** S4 with a Create Session Request that carries the largest 24-bit
    sequence number. *)
Definition s4_wrap : World :=
  after (run (Some (peerMsg 32 16777215 (Some 77))) 0 0 s4_w0) s4_w0.

(** S1 followed by a Wait job: the request is out ([sw_w1]), the response
    has been accepted ([sw_w2]), the Wait job has run ([sw_w3]). *)
Definition csRsp1 : UdpData_t := peerMsg 33 1 (Some 77).
Definition sw_w1 : World := after (run None 0 0 sw_w0) sw_w0.
Definition sw_w2 : World := after (run (Some csRsp1) 50 50 sw_w1) sw_w0.
Definition sw_w3 : World := after (run None 60 60 sw_w2) sw_w0.

(** S1 completed by the response of the peer. *)
Definition s1_done : World := after (run (Some csRsp1) 50 50 s1_w1) s1_w0.

(** The comparison of sequence numbers as the spec words it: [b] is later
    than [a] when it is ahead of it by less than half of the 24-bit space. *)
Definition seqLaterModular (a b : GtpSeqNumber_t) : bool :=
  let d := (b - a) mod 2 ^ 24 in (0 <? d) && (d <? 2 ^ 23).

(** The identity between the session counters, as the 32-bit counters can
    hold it: up to a multiple of [2 ^ 32]. *)
Definition statsBalanced (st : Stats) : Prop :=
  (NUM_SESSIONS_CREATED st
   - (NUM_SESSIONS_SUCC st + NUM_SESSIONS_FAIL st + NUM_SESSIONS st)) mod 2 ^ 32 = 0.


(** S1 and S4 taken one handler at a time: the request of S1 sent by
    [handleSend], its response accepted by [handleIncRspMsg] after one
    retransmission, the request of S4 answered by [handleIncReqMsg]. *)
Definition s1_sent : World := after (handleSend s1_w0) s1_w0.
Definition s1_t1_rsp : World :=
  after (handleIncRspMsg (msgOfBuffer (buf csRsp1)) csRsp1 s1_t1) s1_w0.
Definition s4_answered : World :=
  after (handleIncReqMsg (msgOfBuffer (buf csReq10)) csReq10 0 s4_w0) s4_w0.

(** S1 complete, the task woken by its timer after the dead-call wait. *)
Definition s1_dead : World := after (run None 6000 6000 s1_done) s1_w0.

(** S5: outbound Create Session, then an inbound Modify Bearer. [s5_w2] is
    the state after the Create Session Response has been accepted; [csReq1]
    is a Create Session Request of the peer with the sequence number of the
    session's own request. *)
Definition scnS5 : list Job := [sendJob 32; recvJob 33; recvJob 34; sendJob 35].
Definition s5_w0 : World := initWorld testCfg GTP_IF_S11_C_MME scnS5 testImsi.
Definition s5_w1 : World := after (run None 0 0 s5_w0) s5_w0.
Definition s5_w2 : World := after (run (Some csRsp1) 50 50 s5_w1) s5_w0.
Definition csReq1 : UdpData_t := peerMsg 32 1 (Some 77).

(** S6: inbound Create Session, then an outbound Modify Bearer. [s6_w1] is
    the state after the Create Session Response has gone out, the Modify
    Bearer Request not yet sent; [s6_w2] the state after the peer's Modify
    Bearer Response with sequence number 10 has come in. *)
Definition scnS6 : list Job := [recvJob 32; sendJob 33; sendJob 34; recvJob 35].
Definition s6_w0 : World := initWorld testCfg GTP_IF_S11_C_MME scnS6 testImsi.
Definition s6_w1 : World := after (run (Some csReq10) 0 0 s6_w0) s6_w0.
Definition mbRsp10 : UdpData_t := peerMsg 35 10 None.
Definition s6_w2 : World := after (run (Some mbRsp10) 10 10 s6_w1) s6_w0.

(** S7: outbound Create Session, two jobs with a Create Session Response
    as their message following. The request is out ([s7_w1]); a Create
    Session Request of the peer with sequence number 5 comes in ([s7_w2]);
    then a Create Session Response with sequence number 5 ([s7_w3]). *)
Definition scnS7 : list Job := [sendJob 32; recvJob 33; recvJob 33].
Definition s7_w0 : World := initWorld testCfg GTP_IF_S11_C_MME scnS7 testImsi.
Definition s7_w1 : World := after (run None 0 0 s7_w0) s7_w0.
Definition csReq5 : UdpData_t := peerMsg 32 5 (Some 77).
Definition csRsp5 : UdpData_t := peerMsg 33 5 (Some 77).
Definition s7_w2 : World := after (run (Some csReq5) 10 10 s7_w1) s7_w0.
Definition s7_w3 : World := after (run (Some csRsp5) 20 20 s7_w2) s7_w0.

(** The session map before any session, and with the session of
    [testImsi]. *)
Definition emptyReg : Registry := mkRegistry [] ∅ 0.
Definition oneReg : Registry :=
  snd (createUeSession testCfg scnS1 testImsi emptyReg).

Definition view (r : Res (RETVAL * World (GtpMsg := TestMsg))) :=
  match r with
  | Ok (ret, w) =>
      Some (ret, m_currTaskIndx (ue w), m_currTask (ue w), m_bitmask (ue w),
            m_wakeTime (ue w), m_taskState (ue w), m_retryCnt (ue w))
  | _ => None
  end.


(** * Properties *)

Section Properties.

Context {GtpMsg : Type} `{!GtpCodec GtpMsg}.

Implicit Types (w : World (GtpMsg := GtpMsg)) (job : Job (GtpMsg := GtpMsg)).

Lemma u32_small (x : Z) : 0 <= x < 2 ^ 32 -> u32 x = x.
Proof. intros Hx. unfold u32. apply Z.mod_small. exact Hx. Qed.

Lemma chk_unset (m b : Z) : GSIM_CHK_MASK (GSIM_UNSET_MASK m b) b = false.
Proof.
  unfold GSIM_CHK_MASK, GSIM_UNSET_MASK.
  rewrite Z.land_ldiff. reflexivity.
Qed.

Lemma udpData_eta (d : UdpData_t) : mkUdpData (buf d) (connId d) (peerEp d) = d.
Proof. destruct d; reflexivity. Qed.

Lemma sendMsg_verbatim (d : UdpData_t) w :
  sendMsg (connId d) (peerEp d) (buf d) w = set_netOut (netOut w ++ [d]) w.
Proof. unfold sendMsg. rewrite udpData_eta. reflexivity. Qed.

Lemma updJob_ok (f : Job -> Job) (n : nat) job w :
  jobSeq w !! n = Some job ->
  updJob f (Some n) w = Ok (set_jobSeq (alter f n (jobSeq w)) w).
Proof. intros Hn. unfold updJob. simpl. rewrite Hn. reflexivity. Qed.

(** The resend of the previous response, when there is one. An inbound
    request that is not the expected one but repeats the request of the
    previous procedure ([isPrevProcReq], tried only once [isExpectedReq] has
    said no) makes the session send the stored [m_prevUeProc.sentMsg] again as
    it is, on its own connection id and to its own peer, and count one more
    [m_numRcvRetrans] on the job that started that procedure; the session
    object, [m_currTaskIndx] included, the statistics and the tunnels are as
    before. The stored message is a hypothesis here: only [handleOutRspMsg]
    stores one. *)
Lemma handleIncReqMsg_prevProcReq
    (rcvdReq : GtpMsg) (rcvdData : UdpData_t) (now2 : Time_t) w
    (j : nat) job (d : UdpData_t) :
  isExpectedReq rcvdReq w = Ok false ->
  isPrevProcReq rcvdReq w = true ->
  proc_procTask (m_prevUeProc (ue w)) = Some j ->
  jobSeq w !! j = Some job ->
  proc_sentMsg (m_prevUeProc (ue w)) = Some d ->
  exists w',
    handleIncReqMsg rcvdReq rcvdData now2 w = Ok (ROK, w') /\
    netOut w' = netOut w ++ [d] /\
    jobSeq w' = alter inc_numRcvRetrans j (jobSeq w) /\
    jobSeq w' !! j = Some (inc_numRcvRetrans job) /\
    m_numRcvRetrans (inc_numRcvRetrans job) = u32 (m_numRcvRetrans job + 1) /\
    ue w' = ue w /\
    m_currTaskIndx (ue w') = m_currTaskIndx (ue w) /\
    stats w' = stats w /\ cTuns w' = cTuns w /\ teidCtr w' = teidCtr w /\
    seqCtr w' = seqCtr w /\ peerSeq w' = peerSeq w.
Proof.
  intros Hexp Hprev Htask Hjob Hsent.
  eexists. split.
  - unfold handleIncReqMsg. rewrite Hexp. simpl. rewrite Hprev.
    unfold resendPrevRsp. rewrite Htask, (updJob_ok _ _ _ _ Hjob). simpl.
    rewrite Hsent. simpl. rewrite sendMsg_verbatim. reflexivity.
  - simpl. repeat split; try reflexivity.
    rewrite list_lookup_alter_eq, Hjob. reflexivity.
Qed.

(** C6, as amended. An inbound request or response that is neither the
    expected one nor a repeat of the previous procedure adds one to
    [m_numUnexp] of the current job and is dropped; nothing is sent and the
    rest of the session is as before, except that [handleRecv] then sets
    [m_wakeTime] to 0. A session that was waiting for a response still has
    [WAITING_FOR_RSP] set, but the wake time of its T3 timer is not kept. *)
Theorem handleRecv_unexpected (data : UdpData_t) (now2 : Time_t) w (n : nat) job :
  m_currTask (ue w) = Some n ->
  jobSeq w !! n = Some job ->
  (gtpGetMsgCategory (msgType (msgOfBuffer (buf data))) = GTP_MSG_CAT_REQ /\
   isExpectedReq (msgOfBuffer (buf data)) w = Ok false /\
   isPrevProcReq (msgOfBuffer (buf data)) w = false) \/
  (gtpGetMsgCategory (msgType (msgOfBuffer (buf data))) = GTP_MSG_CAT_RSP /\
   isExpectedRsp (msgOfBuffer (buf data)) w = Ok false /\
   isPrevProcRsp (msgOfBuffer (buf data)) w = false) ->
  exists w',
    handleRecv data now2 w = Ok (ROK, w') /\
    jobSeq w' = alter inc_numUnexp n (jobSeq w) /\
    jobSeq w' !! n = Some (inc_numUnexp job) /\
    m_numUnexp (inc_numUnexp job) = u32 (m_numUnexp job + 1) /\
    ue w' = set_m_wakeTime 0 (ue w) /\
    m_wakeTime (ue w') = 0 /\
    chkWaiting w' = chkWaiting w /\
    m_currTaskIndx (ue w') = m_currTaskIndx (ue w) /\
    netOut w' = netOut w /\ stats w' = stats w /\ cTuns w' = cTuns w.
Proof.
  intros Htask Hjob Hcls.
  exists (modUe (set_m_wakeTime 0) (set_jobSeq (alter inc_numUnexp n (jobSeq w)) w)).
  split.
  - unfold handleRecv.
    destruct Hcls as [(Hcat & Hexp & Hprev) | (Hcat & Hexp & Hprev)]; rewrite Hcat.
    + unfold handleIncReqMsg. rewrite Hexp. simpl. rewrite Hprev, Htask.
      rewrite (updJob_ok _ _ _ _ Hjob). reflexivity.
    + unfold handleIncRspMsg. rewrite Hexp. simpl. rewrite Hprev, Htask.
      rewrite (updJob_ok _ _ _ _ Hjob). reflexivity.
  - simpl. repeat split; try reflexivity.
    rewrite list_lookup_alter_eq, Hjob. reflexivity.
Qed.

(** C4, as amended. An inbound request is classified as expected exactly
    when the message template of the current job, whatever the kind of that
    job, has the type of the request and [m_currUeProc.seqNumber] is smaller
    than the sequence number of the request as plain unsigned integers. *)
Theorem isExpectedReq_iff (reqMsg : GtpMsg) w :
  isExpectedReq reqMsg w = Ok true <->
  exists (n : nat) job (expectedReqMsg : GtpMsg),
    m_currTask (ue w) = Some n /\
    jobSeq w !! n = Some job /\
    job_gtpMsg job = Some expectedReqMsg /\
    msgType expectedReqMsg = msgType reqMsg /\
    proc_seqNumber (m_currUeProc (ue w)) < msgSeqNumber reqMsg.
Proof.
  unfold isExpectedReq, currGtpMsg, derefJob. split.
  - destruct (m_currTask (ue w)) as [n|]; simpl; [|discriminate].
    destruct (jobSeq w !! n) as [job|] eqn:Hjob; simpl; [|discriminate].
    destruct (job_gtpMsg job) as [m|] eqn:Hm; simpl; [|discriminate].
    intros [= Hb]. apply andb_true_iff in Hb as [Ht Hs].
    exists n, job, m. repeat split; trivial; [apply Z.eqb_eq, Ht | apply Z.ltb_lt, Hs].
  - intros (n & job & m & -> & Hjob & Hm & Ht & Hs). simpl.
    rewrite Hjob. simpl. rewrite Hm. simpl.
    apply Z.eqb_eq in Ht. apply Z.ltb_lt in Hs. rewrite Ht, Hs. reflexivity.
Qed.

Lemma chk_set_other (m : Z) :
  GSIM_CHK_MASK (GSIM_SET_MASK m GSIM_UE_SSN_SCN_COMPLETE) GSIM_UE_SSN_WAITING_FOR_RSP
  = GSIM_CHK_MASK m GSIM_UE_SSN_WAITING_FOR_RSP.
Proof.
  unfold GSIM_CHK_MASK, GSIM_SET_MASK.
  rewrite Z.land_lor_distr_l.
  change (Z.land GSIM_UE_SSN_SCN_COMPLETE GSIM_UE_SSN_WAITING_FOR_RSP) with 0.
  rewrite Z.lor_0_r. reflexivity.
Qed.

Lemma derefCTun_inv (pPdn : option nat) w (tun : GtpcTun) :
  derefCTun pPdn w = Ok tun ->
  exists (p : nat) (pdn : GtpcPdn) (t : nat),
    pPdn = Some p /\ m_pdnLst (ue w) !! p = Some pdn /\
    pCTun pdn = Some t /\ cTuns w !! t = Some tun.
Proof.
  unfold derefCTun, derefPdn.
  destruct pPdn as [p|]; simpl; [|discriminate].
  destruct (m_pdnLst (ue w) !! p) as [pdn|] eqn:Hp; simpl; [|discriminate].
  destruct (pCTun pdn) as [t|] eqn:Ht; simpl; [|discriminate].
  destruct (cTuns w !! t) as [tun'|] eqn:Htun; simpl; [|discriminate].
  intros [= <-]. exists p, pdn, t. auto.
Qed.

Lemma updCTun_ok (f : GtpcTun -> GtpcTun) (p t : nat) (pdn : GtpcPdn)
    (tun : GtpcTun) w :
  m_pdnLst (ue w) !! p = Some pdn ->
  pCTun pdn = Some t ->
  cTuns w !! t = Some tun ->
  updCTun f (Some p) w = Ok (set_cTuns (alter f t (cTuns w)) w).
Proof.
  intros Hp Ht Htun. unfold updCTun, derefPdn. simpl.
  rewrite Hp. simpl. rewrite Ht. simpl. rewrite Htun. reflexivity.
Qed.

(** What [decAndStoreGtpcIncMsg] does with a message that is not a Create
    Session Request: only the control tunnel of the PDN changes. *)
Lemma decAndStore_noCsReq (p t : nat) (pdn : GtpcPdn) (tun : GtpcTun)
    (m : GtpMsg) (ep : IPEndPoint) w :
  m_pdnLst (ue w) !! p = Some pdn ->
  pCTun pdn = Some t ->
  cTuns w !! t = Some tun ->
  msgType (msgDecode m) <> GTPC_MSG_CS_REQ ->
  (msgType (msgDecode m) = GTPC_MSG_CS_RSP -> is_Some (msgFteidTeid (msgDecode m))) ->
  exists tuns, decAndStoreGtpcIncMsg (Some p) m ep w = Ok (set_cTuns tuns w).
Proof.
  intros Hp Ht Htun Hreq Hrsp. unfold decAndStoreGtpcIncMsg.
  apply Z.eqb_neq in Hreq. rewrite Hreq. simpl.
  destruct (msgType (msgDecode m) =? GTPC_MSG_CS_RSP) eqn:Hty.
  - apply Z.eqb_eq in Hty. destruct (Hrsp Hty) as [teid Hteid].
    rewrite Hteid. simpl.
    rewrite (updCTun_ok _ p t pdn tun w Hp Ht Htun). simpl.
    erewrite (updCTun_ok _ p t pdn); [| exact Hp | exact Ht |].
    + simpl. eexists. reflexivity.
    + simpl. rewrite list_lookup_alter_eq, Htun. reflexivity.
  - simpl. rewrite (updCTun_ok _ p t pdn tun w Hp Ht Htun). simpl.
    eexists. reflexivity.
Qed.

Lemma isExpectedRsp_iff (rspMsg : GtpMsg) w :
  isExpectedRsp rspMsg w = Ok true <->
  exists (n : nat) job (expectedRspMsg : GtpMsg),
    jobSeq_at (jobSeq w) (u32 (m_currTaskIndx (ue w) + 1)) = Some n /\
    jobSeq w !! n = Some job /\
    job_gtpMsg job = Some expectedRspMsg /\
    msgType expectedRspMsg = msgType rspMsg /\
    proc_seqNumber (m_currUeProc (ue w)) = msgSeqNumber rspMsg.
Proof.
  unfold isExpectedRsp, derefJob. split.
  - destruct (jobSeq_at _ _) as [n|]; simpl; [|discriminate].
    destruct (jobSeq w !! n) as [job|] eqn:Hjob; simpl; [|discriminate].
    destruct (job_gtpMsg job) as [m|] eqn:Hm; simpl; [|discriminate].
    intros [= Hb]. apply andb_true_iff in Hb as [Ht Hs].
    exists n, job, m. repeat split; trivial; apply Z.eqb_eq; assumption.
  - intros (n & job & m & -> & Hjob & Hm & Ht & Hs). simpl.
    rewrite Hjob. simpl. rewrite Hm. simpl.
    rewrite Ht, Hs, !Z.eqb_refl. reflexivity.
Qed.

(** What [isExpectedRsp] tests and what its acceptance does. An inbound
    response is accepted as expected exactly when the message template of the
    job at [m_currTaskIndx + 1], whatever the kind of that job, has the type
    of the response and the sequence number of the response equals
    [m_currUeProc.seqNumber]. On acceptance (the session having a current PDN
    with a control tunnel, and a Create Session Response carrying its F-TEID)
    [WAITING_FOR_RSP] is cleared, [m_currUeProc.sentMsg] is freed, [m_numRcv]
    of the job at [m_currTaskIndx + 1] is incremented and [m_currTaskIndx] is
    advanced by two; the sequence number of the response is the one
    [m_currUeProc] holds, and [m_prevUeProc] keeps it. *)
Lemma handleIncRspMsg_accepts (rspMsg : GtpMsg) (rcvdData : UdpData_t) w :
  (isExpectedRsp rspMsg w = Ok true <->
   exists (n : nat) job (expectedRspMsg : GtpMsg),
     jobSeq_at (jobSeq w) (u32 (m_currTaskIndx (ue w) + 1)) = Some n /\
     jobSeq w !! n = Some job /\
     job_gtpMsg job = Some expectedRspMsg /\
     msgType expectedRspMsg = msgType rspMsg /\
     proc_seqNumber (m_currUeProc (ue w)) = msgSeqNumber rspMsg) /\
  (forall (n : nat) job (tun : GtpcTun),
     isExpectedRsp rspMsg w = Ok true ->
     jobSeq_at (jobSeq w) (u32 (m_currTaskIndx (ue w) + 1)) = Some n ->
     jobSeq w !! n = Some job ->
     derefCTun (m_pCurrPdn (ue w)) w = Ok tun ->
     msgType (msgDecode rspMsg) <> GTPC_MSG_CS_REQ ->
     (msgType (msgDecode rspMsg) = GTPC_MSG_CS_RSP ->
      is_Some (msgFteidTeid (msgDecode rspMsg))) ->
     exists w',
       handleIncRspMsg rspMsg rcvdData w = Ok (ROK, w') /\
       chkWaiting w' = false /\
       proc_sentMsg (m_currUeProc (ue w')) = None /\
       jobSeq w' !! n = Some (inc_numRcv job) /\
       m_numRcv (inc_numRcv job) = u32 (m_numRcv job + 1) /\
       m_currTaskIndx (ue w') = u32 (u32 (m_currTaskIndx (ue w) + 1) + 1) /\
       msgSeqNumber rspMsg = proc_seqNumber (m_currUeProc (ue w)) /\
       proc_seqNumber (m_prevUeProc (ue w')) = msgSeqNumber rspMsg).
Proof.
  split; [apply isExpectedRsp_iff|].
  intros n job tun Hexp Hn Hjob Htun Hreq Hrsp.
  pose proof (proj1 (isExpectedRsp_iff rspMsg w) Hexp)
    as (n' & job' & m & Hn' & _ & _ & _ & Hseq).
  apply derefCTun_inv in Htun as (p & pdn & t & Hcur & Hp & Ht & Htun).
  unfold handleIncRspMsg. rewrite Hexp. simpl. rewrite Hn.
  erewrite updJob_ok; [|simpl; exact Hjob]. simpl.
  rewrite Hcur.
  edestruct (decAndStore_noCsReq p t pdn tun rspMsg (peerEp rcvdData)) as [tuns Hdec];
    [| exact Ht | | exact Hreq | exact Hrsp |].
  3: { rewrite Hdec. simpl. eexists. split; [reflexivity|].
       destruct (IS_SCN_COMPLETED _); simpl;
         rewrite ?chk_set_other; unfold chkWaiting; simpl;
         rewrite ?chk_set_other, ?chk_unset, ?list_lookup_alter_eq, ?Hjob;
         repeat split; auto. }
  - simpl. exact Hp.
  - simpl. exact Htun.
Qed.

Lemma bind_Ok {A B : Type} (k : A -> Res B) (c : Res A) (b : B) :
  c ≫= k = Ok b -> exists a, c = Ok a /\ k a = Ok b.
Proof. destruct c as [a| |e]; simpl; intros Heq; try discriminate. eauto. Qed.

(** [encGtpcOutMsg] changes nothing but the template of the job it encodes. *)
Lemma encGtpcOutMsg_inv (pPdn : option nat) (n : nat) w (b : Buffer) w1 :
  encGtpcOutMsg pPdn (Some n) w = Ok (b, w1) ->
  exists job (m3 : GtpMsg),
    jobSeq w !! n = Some job /\
    b = msgEncode m3 /\
    w1 = set_jobSeq (alter (set_job_gtpMsg m3) n (jobSeq w)) w.
Proof.
  unfold encGtpcOutMsg. simpl. intros Henc.
  apply bind_Ok in Henc as (job & Hjob & Henc).
  apply bind_Ok in Henc as (m & _ & Henc).
  apply bind_Ok in Henc as (tun & _ & Henc).
  apply bind_Ok in Henc as (m2 & _ & Henc).
  apply bind_Ok in Henc as (m3 & _ & Henc).
  injection Henc as <- <-.
  exists job, m3. split; [|auto].
  destruct (jobSeq w !! n); [|discriminate].
  injection Hjob as ->. reflexivity.
Qed.

(** C1, as amended. When the current job has a message that is not of the
    request category and [WAITING_FOR_RSP] is clear, a send whose encoding
    goes through sends the datagram on [m_currUeProc.connId] to the peer of
    the control tunnel, adds one to [m_numSnd] of the job, stores the datagram
    as [m_prevUeProc.sentMsg] in place of the old one and its type as
    [m_prevUeProc.rspType], and advances [m_currTaskIndx]; [handleSend] then
    stops the task. When the scenario is not complete the flags, the
    statistics and [m_wakeTime] are left as they were. *)
Theorem handleSend_response w (n : nat) job (gtpMsg : GtpMsg) (tun : GtpcTun)
    (b : Buffer) w1 :
  chkWaiting w = false ->
  m_currTask (ue w) = Some n ->
  jobSeq w !! n = Some job ->
  job_gtpMsg job = Some gtpMsg ->
  gtpGetMsgCategory (msgType gtpMsg) <> GTP_MSG_CAT_REQ ->
  encGtpcOutMsg (m_pCurrPdn (ue w)) (Some n) w = Ok (b, w1) ->
  derefCTun (m_pCurrPdn (ue w)) w = Ok tun ->
  exists w' (sent : GtpMsg),
    handleSend w = Ok (ROK, w') /\
    netOut w' =
      netOut w ++ [mkUdpData b (proc_connId (m_currUeProc (ue w))) (ctun_peerEp tun)] /\
    jobSeq w' !! n = Some (inc_numSnd (set_job_gtpMsg sent job)) /\
    m_numSnd (inc_numSnd (set_job_gtpMsg sent job)) = u32 (m_numSnd job + 1) /\
    proc_sentMsg (m_prevUeProc (ue w')) =
      Some (mkUdpData b (proc_connId (m_currUeProc (ue w))) (ctun_peerEp tun)) /\
    proc_rspType (m_prevUeProc (ue w')) = msgType sent /\
    m_currUeProc (ue w') = m_currUeProc (ue w) /\
    m_currTaskIndx (ue w') = u32 (m_currTaskIndx (ue w) + 1) /\
    m_taskState (ue w') = TASK_STATE_STOPPED /\
    (u32 (m_currTaskIndx (ue w) + 1) <> Z.of_nat (length (jobSeq w)) ->
     m_wakeTime (ue w') = m_wakeTime (ue w) /\
     m_bitmask (ue w') = m_bitmask (ue w) /\
     stats w' = stats w).
Proof.
  intros Hwait Htask Hjob Hmsg Hcat Henc Htun.
  pose proof (encGtpcOutMsg_inv _ _ _ _ _ Henc) as (job' & m3 & Hjob' & -> & ->).
  rewrite Hjob in Hjob'. injection Hjob' as <-.
  assert (Hout : handleOutRspMsg w = Ok (ROK,
            let w5 := UE_SSN_FINISH_TASK
              (modUe (fun s =>
                 set_m_prevUeProc
                   (set_proc_rspType (msgType m3)
                      (set_proc_sentMsg
                         (Some (mkUdpData (msgEncode m3)
                                  (proc_connId (m_currUeProc (ue w))) (ctun_peerEp tun)))
                         (m_prevUeProc s))) s)
                 (set_jobSeq (alter inc_numSnd n (alter (set_job_gtpMsg m3) n (jobSeq w)))
                    (sendMsg (proc_connId (m_currUeProc (ue w))) (ctun_peerEp tun)
                       (msgEncode m3)
                       (set_jobSeq (alter (set_job_gtpMsg m3) n (jobSeq w)) w)))) in
            if IS_SCN_COMPLETED w5 then handleCompletedTask w5 else w5)).
  { unfold handleOutRspMsg. rewrite Htask, Henc. simpl.
    apply derefCTun_inv in Htun as (p & pdn & t & Hcur & Hp & Ht & Htun).
    unfold derefCTun, derefPdn. rewrite Hcur. simpl. rewrite Hp. simpl.
    rewrite Ht. simpl. rewrite Htun. simpl. rewrite Htask.
    unfold updJob. simpl. rewrite list_lookup_alter_eq, Hjob. simpl.
    unfold currGtpMsg, derefJob. simpl. rewrite Htask. simpl.
    rewrite !list_lookup_alter_eq, Hjob. simpl. reflexivity. }
  unfold handleSend. rewrite Hwait.
  unfold currGtpMsg, derefJob. rewrite Htask. simpl. rewrite Hjob. simpl.
  rewrite Hmsg. simpl.
  assert (Hsend : forall k : Res (RETVAL * World),
            match gtpGetMsgCategory (msgType gtpMsg) with
            | GTP_MSG_CAT_REQ => k
            | _ =>
                handleOutRspMsg w ≫= (fun x => let '(ret, w1) := x in
                  if RETVAL_eqb ROK ret then Ok (ret, stop w1) else Ok (ROK_OVER, w1))
            end =
            handleOutRspMsg w ≫= (fun x => let '(ret, w1) := x in
              if RETVAL_eqb ROK ret then Ok (ret, stop w1) else Ok (ROK_OVER, w1))).
  { intros k. destruct (gtpGetMsgCategory (msgType gtpMsg)); congruence. }
  rewrite Hsend, Hout. simpl.
  eexists. exists m3. split; [reflexivity|].
  unfold IS_SCN_COMPLETED. simpl.
  destruct (u32 (m_currTaskIndx (ue w) + 1) =? Z.of_nat (length (alter _ _ _))) eqn:Hc;
    simpl; rewrite ?list_lookup_alter_eq, ?Hjob; simpl;
    repeat split; auto;
    exfalso; apply Z.eqb_eq in Hc; rewrite !length_alter in Hc; contradiction.
Qed.

Lemma sameRetry_refl w : sameRetry w w.
Proof. split; reflexivity. Qed.

Lemma sameRetry_trans w1 w2 w3 : sameRetry w1 w2 -> sameRetry w2 w3 -> sameRetry w1 w3.
Proof. intros [H1 H2] [H3 H4]. split; congruence. Qed.

Lemma sameRetry_inv w w' : sameRetry w w' -> retryInv w -> retryInv w'.
Proof. intros [H1 H2]. unfold retryInv. rewrite H1, H2. trivial. Qed.

(** Steps through a hypothesis [H : c = Ok _], one bind or branch at a time. *)
Ltac res_inv H :=
  repeat first
    [ match type of H with
      | mbind _ _ = Ok _ =>
          let a := fresh "a" in
          let Ha := fresh "Ha" in
          apply bind_Ok in H as (a & Ha & H)
      | Fault = Ok _ => discriminate H
      | Throw _ = Ok _ => discriminate H
      | (let '(_, _) := ?p in _) = Ok _ => destruct p
      | (if ?c then _ else _) = Ok _ => destruct c eqn:?
      | match ?c with _ => _ end = Ok _ => destruct c eqn:?
      end
    | progress simpl in H ].

Lemma updJob_retry (f : Job -> Job) (p : option nat) w w' :
  updJob f p w = Ok w' -> sameRetry w w'.
Proof. unfold updJob. intros H. res_inv H. injection H as <-. split; reflexivity. Qed.

Lemma createCTun_retry (pPdn : nat) w (t : nat) w' :
  createCTun pPdn w = Ok (t, w') -> sameRetry w w'.
Proof.
  unfold createCTun, allocCTun. intros H. res_inv H;
    injection H as <- <-; split; reflexivity.
Qed.

Lemma createPdn_retry w (p : nat) w' : createPdn w = Ok (p, w') -> sameRetry w w'.
Proof.
  unfold createPdn. intros H. res_inv H. injection H as <- <-.
  apply createCTun_retry in Ha. destruct Ha as [H1 H2]. split; simpl; assumption.
Qed.

Lemma createBearer_retry (pPdn : option nat) (ebi : GtpEbi_t) w w' :
  createBearer pPdn ebi w = Ok w' -> sameRetry w w'.
Proof.
  unfold createBearer, GtpuTun_new. intros H. res_inv H. injection H as <-.
  split; reflexivity.
Qed.

Lemma createBearers_loop_retry (pPdn : option nat) (ebis : list GtpEbi_t) w w' :
  createBearers_loop pPdn ebis w = Ok w' -> sameRetry w w'.
Proof.
  revert w. induction ebis as [|ebi rest IH]; simpl; intros w H.
  - injection H as <-. apply sameRetry_refl.
  - apply bind_Ok in H as (w1 & H1 & H).
    eapply sameRetry_trans; [eapply createBearer_retry, H1 | apply IH, H].
Qed.

Lemma createBearers_retry (pPdn : option nat) (m : GtpMsg) w w' :
  createBearers pPdn m w = Ok w' -> sameRetry w w'.
Proof.
  unfold createBearers. destruct (_ =? _).
  - apply createBearers_loop_retry.
  - intros [= <-]. apply sameRetry_refl.
Qed.

Lemma updCTun_retry (f : GtpcTun -> GtpcTun) (pPdn : option nat) w w' :
  updCTun f pPdn w = Ok w' -> sameRetry w w'.
Proof.
  unfold updCTun, derefPdn. intros H. res_inv H. injection H as <-.
  split; reflexivity.
Qed.

Lemma decAndStore_retry (pPdn : option nat) (m : GtpMsg) (ep : IPEndPoint) w w' :
  decAndStoreGtpcIncMsg pPdn m ep w = Ok w' -> sameRetry w w'.
Proof.
  unfold decAndStoreGtpcIncMsg. intros H.
  apply bind_Ok in H as (w1 & H1 & H).
  apply bind_Ok in H as (w2 & H2 & H).
  assert (sameRetry w w1) as H01.
  { destruct (_ || _).
    - apply bind_Ok in H1 as (teid & _ & H1). eapply updCTun_retry, H1.
    - injection H1 as <-. apply sameRetry_refl. }
  apply updCTun_retry in H2.
  assert (sameRetry w2 w') as H23.
  { destruct (_ =? _).
    - eapply createBearers_retry, H.
    - injection H as <-. apply sameRetry_refl. }
  eauto using sameRetry_trans.
Qed.

Lemma encGtpcOutMsg_retry (pPdn pJob : option nat) w (b : Buffer) w' :
  encGtpcOutMsg pPdn pJob w = Ok (b, w') -> sameRetry w w'.
Proof.
  destruct pJob as [n|]; [|discriminate].
  intros H. apply encGtpcOutMsg_inv in H as (job & m3 & _ & _ & ->).
  split; reflexivity.
Qed.

Ltac retry_solve :=
  unfold sameRetry, retryInv in *; simpl in *; intuition congruence.

Lemma handleOutReqMsg_retry w (r : RETVAL) w' :
  handleOutReqMsg w = Ok (r, w') -> sameRetry w w'.
Proof.
  unfold handleOutReqMsg, generateSeqNum. intros H.
  apply bind_Ok in H as (gtpMsg & _ & H).
  apply bind_Ok in H as ([pPdn w1] & H1 & H).
  apply bind_Ok in H as (w2 & H2 & H). simpl in H.
  apply bind_Ok in H as ([b w5] & H5 & H).
  apply bind_Ok in H as (w7 & H7 & H).
  injection H as <- <-.
  apply createBearers_retry in H2. apply encGtpcOutMsg_retry in H5.
  apply updJob_retry in H7.
  assert (sameRetry w w1) as H01.
  { destruct (_ =? _).
    - apply bind_Ok in H1 as ([p w0] & Hp & H1). injection H1 as <- <-.
      apply createPdn_retry in Hp. retry_solve.
    - injection H1 as <- <-. apply sameRetry_refl. }
  retry_solve.
Qed.

Lemma handleOutRspMsg_retry w (r : RETVAL) w' :
  handleOutRspMsg w = Ok (r, w') -> sameRetry w w'.
Proof.
  unfold handleOutRspMsg. intros H.
  apply bind_Ok in H as ([b w1] & H1 & H).
  apply bind_Ok in H as (tun & _ & H).
  apply bind_Ok in H as (w3 & H3 & H).
  apply bind_Ok in H as (gtpMsg & _ & H).
  injection H as <- <-.
  apply encGtpcOutMsg_retry in H1. apply updJob_retry in H3.
  destruct (IS_SCN_COMPLETED _); retry_solve.
Qed.

Lemma handleOutReqTimeout_retry w (r : RETVAL) w' :
  handleOutReqTimeout w = Ok (r, w') -> retryInv w -> retryInv w'.
Proof.
  unfold handleOutReqTimeout. intros H Hinv.
  destruct (m_n3req (ue w) <=? m_retryCnt (ue w)) eqn:Hcmp.
  - injection H as <- <-. retry_solve.
  - apply bind_Ok in H as (d & _ & H).
    apply bind_Ok in H as (w2 & H2 & H).
    injection H as <- <-.
    apply updJob_retry in H2. apply Z.leb_gt in Hcmp.
    unfold sameRetry, retryInv in *. simpl in *.
    destruct H2 as [-> ->].
    rewrite u32_small; lia.
Qed.

Lemma handleSend_retry w (r : RETVAL) w' :
  handleSend w = Ok (r, w') -> retryInv w -> retryInv w'.
Proof.
  unfold handleSend. intros H Hinv.
  destruct (chkWaiting w).
  - apply bind_Ok in H as ([ret w1] & H1 & H).
    apply handleOutReqTimeout_retry in H1; [|exact Hinv].
    destruct (RETVAL_eqb _ _).
    + apply bind_Ok in H as (w2 & H2 & H). injection H as <- <-.
      apply updJob_retry in H2. retry_solve.
    + injection H as <- <-. exact H1.
  - apply bind_Ok in H as (gtpMsg & _ & H).
    destruct (gtpGetMsgCategory _);
      apply bind_Ok in H as ([ret w1] & H1 & H);
      first [apply handleOutReqMsg_retry in H1 | apply handleOutRspMsg_retry in H1];
      destruct (RETVAL_eqb _ _); injection H as <- <-; retry_solve.
Qed.

Lemma handleWait_retry w (r : RETVAL) w' :
  handleWait w = Ok (r, w') -> sameRetry w w'.
Proof.
  unfold handleWait. intros H. apply bind_Ok in H as (job & _ & H).
  injection H as <- <-. split; reflexivity.
Qed.

Lemma resendPrevRsp_retry w w' : resendPrevRsp w = Ok w' -> sameRetry w w'.
Proof.
  unfold resendPrevRsp. intros H.
  apply bind_Ok in H as (w1 & H1 & H).
  apply bind_Ok in H as (d & _ & H). injection H as <-.
  apply updJob_retry in H1. retry_solve.
Qed.

Lemma handleDeadCall_retry (arg : option UdpData_t) w (r : RETVAL) w' :
  handleDeadCall arg w = Ok (r, w') -> sameRetry w w'.
Proof.
  unfold handleDeadCall. intros H.
  destruct arg as [data|].
  - destruct (gtpGetMsgCategory _).
    + injection H as <- <-. apply sameRetry_refl.
    + destruct (isPrevProcReq _ _).
      * apply bind_Ok in H as (w1 & H1 & H). injection H as <- <-.
        apply resendPrevRsp_retry, H1.
      * injection H as <- <-. apply sameRetry_refl.
    + destruct (isPrevProcRsp _ _).
      * apply bind_Ok in H as (w1 & H1 & H). injection H as <- <-.
        eapply updJob_retry, H1.
      * injection H as <- <-. apply sameRetry_refl.
  - destruct (_ <=? _); injection H as <- <-; apply sameRetry_refl.
Qed.

Lemma run_timer_retry (now : Time_t) w (r : RETVAL) w' :
  run_timer now w = Ok (r, w') -> retryInv w -> retryInv w'.
Proof.
  unfold run_timer. intros H Hinv.
  assert (retryInv (run_enter now w)) as Hinv1 by retry_solve.
  destruct (chkComplete _).
  - apply bind_Ok in H as ([ret w2] & H2 & H). injection H as <- <-.
    apply handleDeadCall_retry in H2. eapply sameRetry_inv; eassumption.
  - apply bind_Ok in H as (job & _ & H).
    destruct (job_type job).
    + injection H as <- <-. exact Hinv1.
    + eapply handleSend_retry; eassumption.
    + injection H as <- <-. exact Hinv1.
    + apply handleWait_retry in H. eapply sameRetry_inv; eassumption.
Qed.

Lemma acceptReq_retry (m : GtpMsg) (data : UdpData_t) w w' :
  acceptReq m data w = Ok w' -> sameRetry w w'.
Proof.
  unfold acceptReq, updatePeerSeqNumber. intros H.
  apply bind_Ok in H as (w1 & H1 & H).
  apply bind_Ok in H as ([pdn w2] & H2 & H).
  apply bind_Ok in H as (w5 & H5 & H).
  injection H as <-.
  apply updJob_retry in H1. apply decAndStore_retry in H5.
  assert (sameRetry w1 w2) as H12.
  { destruct (_ =? _).
    - apply bind_Ok in H2 as ([p w0] & Hp & H2). injection H2 as <- <-.
      apply createPdn_retry in Hp. retry_solve.
    - injection H2 as <- <-. apply sameRetry_refl. }
  retry_solve.
Qed.

Lemma handleIncReqMsg_retry (m : GtpMsg) (data : UdpData_t) (now2 : Time_t) w
    (r : RETVAL) w' :
  handleIncReqMsg m data now2 w = Ok (r, w') -> retryInv w -> retryInv w'.
Proof.
  unfold handleIncReqMsg. intros H Hinv.
  apply bind_Ok in H as (expected & _ & H).
  destruct expected.
  - apply bind_Ok in H as (w6 & H6 & H).
    apply bind_Ok in H as ([ret w7] & H7 & H).
    injection H as <- <-.
    apply acceptReq_retry in H6.
    eapply run_timer_retry; [exact H7|]. eapply sameRetry_inv; eassumption.
  - destruct (isPrevProcReq _ _);
      apply bind_Ok in H as (w1 & H1 & H); injection H as <- <-.
    + apply resendPrevRsp_retry in H1. eapply sameRetry_inv; eassumption.
    + apply updJob_retry in H1. eapply sameRetry_inv; eassumption.
Qed.

Lemma handleIncRspMsg_retry (m : GtpMsg) (data : UdpData_t) w (r : RETVAL) w' :
  handleIncRspMsg m data w = Ok (r, w') -> sameRetry w w'.
Proof.
  unfold handleIncRspMsg. intros H.
  apply bind_Ok in H as (expected & _ & H).
  destruct expected.
  - apply bind_Ok in H as (w3 & H3 & H).
    apply bind_Ok in H as (w4 & H4 & H).
    injection H as <- <-.
    apply updJob_retry in H3. apply decAndStore_retry in H4.
    destruct (IS_SCN_COMPLETED _); retry_solve.
  - destruct (isPrevProcRsp _ _);
      apply bind_Ok in H as (w1 & H1 & H); injection H as <- <-;
      eapply updJob_retry, H1.
Qed.

Lemma handleRecv_retry (data : UdpData_t) (now2 : Time_t) w (r : RETVAL) w' :
  handleRecv data now2 w = Ok (r, w') -> retryInv w -> retryInv w'.
Proof.
  unfold handleRecv. intros H Hinv.
  apply bind_Ok in H as ([ret w1] & H1 & H). injection H as <- <-.
  assert (retryInv w1) as Hinv1.
  { destruct (gtpGetMsgCategory _).
    - injection H1 as <- <-. exact Hinv.
    - eapply handleIncReqMsg_retry; eassumption.
    - apply handleIncRspMsg_retry in H1. eapply sameRetry_inv; eassumption. }
  retry_solve.
Qed.

Lemma run_retry (arg : option UdpData_t) (now now2 : Time_t) w (r : RETVAL) w' :
  run arg now now2 w = Ok (r, w') -> retryInv w -> retryInv w'.
Proof.
  unfold run. intros H Hinv. destruct arg as [data|].
  - assert (retryInv (run_enter now w)) as Hinv1 by retry_solve.
    destruct (chkComplete _).
    + apply bind_Ok in H as ([ret w2] & H2 & H). injection H as <- <-.
      apply handleDeadCall_retry in H2. eapply sameRetry_inv; eassumption.
    + eapply handleRecv_retry; eassumption.
  - eapply run_timer_retry; eassumption.
Qed.

Lemma initWorld_retry (cfg : Config) (ift : GtpIfType_t)
    (jobs : list (Job (GtpMsg := GtpMsg))) (imsi : GtpImsiKey) :
  0 <= cfgN3Requests cfg < 2 ^ 32 -> retryInv (initWorld cfg ift jobs imsi).
Proof. intros Hn3. unfold retryInv. simpl. lia. Qed.

Lemma reachable_retry w0 w :
  retryInv w0 -> reachable w0 w -> retryInv w.
Proof.
  intros H0 Hreach. induction Hreach as [|w arg now now2 w' _ IH Hrun].
  - exact H0.
  - eapply run_retry; eassumption.
Qed.

(** C2. In a session that waits for a response, [handleSend] is the expiry
    of the T3 timer. With [m_retryCnt >= m_n3req] it adds one to
    [m_numTimeOut] of the current job and to [SESSIONS_FAIL], frees
    [m_currUeProc.sentMsg] and ends the session ([ROK_OVER]). Otherwise it
    sends the stored datagram again as it is, on its connection id and to its
    peer, adds one to [m_numSndRetrans] and to [m_retryCnt], sets [m_wakeTime]
    to [m_lastRunTime + m_t3time] and pauses. So [m_retryCnt] is at most
    [m_n3req + 1] (indeed at most [m_n3req]) in every state the session
    reaches and after every run from such a state. *)
Theorem handleSend_timeout (cfg : Config) (ift : GtpIfType_t) (jobs : list Job)
    (imsi : GtpImsiKey) w (n : nat) job :
  0 <= cfgN3Requests cfg < 2 ^ 32 ->
  reachable (initWorld cfg ift jobs imsi) w ->
  chkWaiting w = true ->
  m_currTask (ue w) = Some n ->
  jobSeq w !! n = Some job ->
  (m_n3req (ue w) <= m_retryCnt (ue w) ->
   exists w',
     handleSend w = Ok (ROK_OVER, w') /\
     jobSeq w' !! n = Some (inc_numTimeOut job) /\
     m_numTimeOut (inc_numTimeOut job) = u32 (m_numTimeOut job + 1) /\
     NUM_SESSIONS_FAIL (stats w') = u32 (NUM_SESSIONS_FAIL (stats w) + 1) /\
     proc_sentMsg (m_currUeProc (ue w')) = None) /\
  (m_retryCnt (ue w) < m_n3req (ue w) ->
   forall d : UdpData_t,
     proc_sentMsg (m_currUeProc (ue w)) = Some d ->
     exists w',
       handleSend w = Ok (ROK, w') /\
       netOut w' = netOut w ++ [d] /\
       jobSeq w' !! n = Some (inc_numSndRetrans job) /\
       m_numSndRetrans (inc_numSndRetrans job) = u32 (m_numSndRetrans job + 1) /\
       m_retryCnt (ue w') = m_retryCnt (ue w) + 1 /\
       m_wakeTime (ue w') = u64 (m_lastRunTime (ue w) + m_t3time (ue w)) /\
       m_taskState (ue w') = TASK_STATE_PAUSED) /\
  m_retryCnt (ue w) <= m_n3req (ue w) + 1 /\
  (forall (arg : option UdpData_t) (now now2 : Time_t) (r : RETVAL) w',
     run arg now now2 w = Ok (r, w') ->
     m_retryCnt (ue w') <= m_n3req (ue w') + 1).
Proof.
  intros Hn3 Hreach Hwait Htask Hjob.
  pose proof (reachable_retry _ _ (initWorld_retry cfg ift jobs imsi Hn3) Hreach)
    as Hinv.
  split; [|split; [|split]].
  - intros Hmax. apply Z.leb_le in Hmax.
    unfold handleSend, handleOutReqTimeout. rewrite Hwait, Hmax. simpl.
    rewrite Htask. erewrite updJob_ok; [|simpl; exact Hjob]. simpl.
    eexists. split; [reflexivity|]. simpl.
    rewrite list_lookup_alter_eq, Hjob. repeat split; reflexivity.
  - intros Hlt d Hsent. apply Z.leb_gt in Hlt.
    unfold handleSend, handleOutReqTimeout. rewrite Hwait, Hlt, Hsent. simpl.
    rewrite Htask. erewrite updJob_ok; [|simpl; exact Hjob]. simpl.
    eexists. split; [reflexivity|]. simpl.
    rewrite list_lookup_alter_eq, Hjob, udpData_eta.
    repeat split; try reflexivity.
    apply Z.leb_gt in Hlt. apply u32_small. unfold retryInv in Hinv. lia.
  - unfold retryInv in Hinv. lia.
  - intros arg now now2 r w' Hrun.
    pose proof (run_retry _ _ _ _ _ _ Hrun Hinv) as Hinv'.
    unfold retryInv in Hinv'. lia.
Qed.

(** ** Reads of the job sequence *)

(** [jobSeq_at] yields a job exactly when the index is within the vector. *)
Lemma jobSeq_at_None (jobs : list (Job (GtpMsg := GtpMsg))) (i : Z) :
  jobSeq_at jobs i = None <-> ~ (0 <= i < Z.of_nat (length jobs)).
Proof.
  unfold jobSeq_at.
  destruct (0 <=? i) eqn:H0; destruct (i <? Z.of_nat (length jobs)) eqn:H1; simpl;
    try apply Z.leb_le in H0; try apply Z.leb_gt in H0;
    try apply Z.ltb_lt in H1; try apply Z.ltb_ge in H1;
    split; intros H; try discriminate; try reflexivity; try lia.
Qed.

(** The advance that completes the scenario leaves [m_currTask] with what
    was read at the length of the vector, past its last element. *)
Lemma completing_advance_out_of_range w :
  IS_SCN_COMPLETED (UE_SSN_FINISH_TASK w) = true ->
  m_currTask (ue (UE_SSN_FINISH_TASK w)) = None /\
  ~ m_currTaskIndx (ue (UE_SSN_FINISH_TASK w)) < Z.of_nat (length (jobSeq w)).
Proof.
  unfold IS_SCN_COMPLETED. simpl. intros Hc. apply Z.eqb_eq in Hc.
  split; [apply jobSeq_at_None|]; lia.
Qed.

End Properties.

(** ** The scenarios of the spec, run on the test codec *)

(** S1: the request goes out with sequence number 1 and the session waits. *)
Example s1_first_run :
  view (run None 0 0 s1_w0)
  = Some (ROK, 0, Some 0%nat, 1, 1000, TASK_STATE_PAUSED, 0).
Proof. vm_compute. reflexivity. Qed.

Lemma s1_w1_reachable : reachable s1_w0 s1_w1.
Proof.
  apply (reach_run s1_w0 s1_w0 None 0 0 s1_w1); [apply reach_init|].
  vm_compute. reflexivity.
Qed.

Lemma handleSend_timeout_witness :
  m_retryCnt (ue s1_w1) <= m_n3req (ue s1_w1) + 1 /\
  exists w',
    handleSend s1_w1 = Ok (ROK, w') /\
    m_retryCnt (ue w') = 1 /\ m_wakeTime (ue w') = 1000.
Proof.
  destruct (handleSend_timeout testCfg GTP_IF_S11_C_MME scnS1 testImsi s1_w1 0%nat
              (default (waitJob 0) (jobSeq s1_w1 !! 0%nat)))
    as (_ & Hresend & Hle & _).
  - vm_compute. split; [discriminate | reflexivity].
  - exact s1_w1_reachable.
  - vm_compute. reflexivity.
  - vm_compute. reflexivity.
  - vm_compute. reflexivity.
  - split; [exact Hle|].
    destruct (Hresend ltac:(vm_compute; reflexivity)
                (default (mkUdpData [] 0 (testEp 0))
                   (proc_sentMsg (m_currUeProc (ue s1_w1))))
                ltac:(vm_compute; reflexivity))
      as (w' & Hrun & _ & _ & _ & Hretry & Hwake & _).
    exists w'. split; [exact Hrun|]. split; [exact Hretry | exact Hwake].
Defined.

(** S4: the response to the Create Session Request goes out in the same
    pass; the task is then stopped, before the Recv job of index 2. *)
Example s4_first_run :
  view (run (Some csReq10) 0 0 s4_w0)
  = Some (ROK, 2, Some 2%nat, 0, 0, TASK_STATE_STOPPED, 0).
Proof. vm_compute. reflexivity. Qed.

Lemma s4_w1_reachable : reachable s4_w0 s4_w1.
Proof.
  apply (reach_run s4_w0 s4_w0 (Some csReq10) 0 0 s4_w1); [apply reach_init|].
  vm_compute. reflexivity.
Qed.

(** [s4_mid] is the state in which the run of S4 enters [handleSend]. *)
Example s4_mid_on_path :
  handleRecv csReq10 0 (run_enter 0 s4_w0)
  = (handleSend s4_mid ≫= fun '(_, w) => Ok (ROK, modUe (set_m_wakeTime 0) w)).
Proof. vm_compute. reflexivity. Qed.

(** C1 fails as stated: in S4 the session is about to send the Create
    Session Response, [WAITING_FOR_RSP] is clear and the send goes through
    without completing the scenario; the session is then stopped, not
    paused. *)
Lemma handleSend_response_stops :
  chkWaiting s4_mid = false /\
  (exists job m,
     derefJob (m_currTask (ue s4_mid)) s4_mid = Ok job /\
     job_type job = JOB_TYPE_SEND /\
     job_gtpMsg job = Some m /\
     gtpGetMsgCategory (msgType m) = GTP_MSG_CAT_RSP) /\
  exists w',
    handleSend s4_mid = Ok (ROK, w') /\
    IS_SCN_COMPLETED w' = false /\
    m_taskState (ue w') = TASK_STATE_STOPPED /\
    ~ (m_taskState (ue w') = TASK_STATE_PAUSED /\ m_wakeTime (ue w') = 0).
Proof.
  split; [vm_compute; reflexivity|]. split.
  - eexists. eexists. vm_compute. repeat split; reflexivity.
  - eexists. split; [vm_compute; reflexivity|].
    split; [vm_compute; reflexivity|]. split; [vm_compute; reflexivity|].
    intros [Hp _]. vm_compute in Hp. discriminate Hp.
Qed.

Lemma handleSend_response_witness :
  exists w',
    handleSend s4_mid = Ok (ROK, w') /\
    m_currTaskIndx (ue w') = 2 /\
    m_taskState (ue w') = TASK_STATE_STOPPED.
Proof.
  destruct (handleSend_response s4_mid 1%nat (sendJob 33)
              (mkTestMsg 33 0 0 None [])
              (default (mkGtpcTun 0 0 (testEp 0) (testEp 0) 0 0) (cTuns s4_mid !! 0%nat))
              (tm_encode (mkTestMsg 33 77 10 (Some 1) []))
              (set_jobSeq
                 (alter (set_job_gtpMsg (mkTestMsg 33 77 10 (Some 1) [])) 1%nat
                    (jobSeq s4_mid)) s4_mid))
    as (w' & sent & Hrun & _ & _ & _ & _ & _ & _ & Hidx & Hstate & _).
  - vm_compute. reflexivity.
  - vm_compute. reflexivity.
  - vm_compute. reflexivity.
  - vm_compute. reflexivity.
  - vm_compute. discriminate.
  - vm_compute. reflexivity.
  - vm_compute. reflexivity.
  - exists w'. split; [exact Hrun|]. split; [exact Hidx | exact Hstate].
Defined.

(** In S4, after the first procedure, the job at [m_currTaskIndx + 1] is the
    Send job of the Modify Bearer Response; a Modify Bearer Response of the
    peer with sequence number 10 is accepted as the expected response although
    that job is not a Recv. *)
Lemma isExpectedRsp_accepts_send_job :
  let rspMsg := msgOfBuffer (buf (peerMsg 35 10 None)) in
  ~ (isExpectedRsp rspMsg s4_w1 = Ok true <->
     exists (n : nat) job (expectedRspMsg : TestMsg),
       jobSeq_at (jobSeq s4_w1) (u32 (m_currTaskIndx (ue s4_w1) + 1)) = Some n /\
       jobSeq s4_w1 !! n = Some job /\
       job_type job = JOB_TYPE_RECV /\
       job_gtpMsg job = Some expectedRspMsg /\
       msgType expectedRspMsg = msgType rspMsg /\
       proc_seqNumber (m_currUeProc (ue s4_w1)) = msgSeqNumber rspMsg).
Proof.
  intros rspMsg [Hcode _].
  destruct Hcode as (n & job & m & Hn & Hjob & Hty & _); [vm_compute; reflexivity|].
  vm_compute in Hn. injection Hn as <-.
  vm_compute in Hjob. injection Hjob as <-.
  discriminate Hty.
Qed.

Lemma s6_w1_reachable : reachable s6_w0 s6_w1.
Proof.
  apply (reach_run s6_w0 s6_w0 (Some csReq10) 0 0 s6_w1); [apply reach_init|].
  vm_compute. reflexivity.
Qed.

Lemma s7_w2_reachable : reachable s7_w0 s7_w2.
Proof.
  apply (reach_run s7_w0 s7_w1 (Some csReq5) 10 10 s7_w2).
  - apply (reach_run s7_w0 s7_w0 None 0 0 s7_w1); [apply reach_init|].
    vm_compute. reflexivity.
  - vm_compute. reflexivity.
Qed.

(** C3 fails as stated, in three ways.

    The job at [m_currTaskIndx + 1] need not be a Recv: in S4, after the
    first procedure, a Modify Bearer Response with sequence number 10 is
    accepted against the Send job of the Modify Bearer Response.

    A pair is completed without a request: in S6 the Create Session Response
    has gone out and the current job is the Send job of the Modify Bearer
    Request; the session is not waiting and has never taken a sequence number
    of its own. A Modify Bearer Response of the peer with sequence number 10,
    the number of the peer's Create Session Request, is accepted: the Send
    and Recv jobs of Modify Bearer are passed, the scenario is complete, and
    the only datagram the session ever sent is the Create Session Response.

    A response is accepted with another sequence number than the request's:
    in S7 the Create Session Request is out with sequence number 1. A Create
    Session Request of the peer with sequence number 5 is taken for the
    expected request, the current job having that type, and leaves 5 in
    [m_currUeProc.seqNumber]. The Create Session Response with sequence number
    1 is then refused, the one with sequence number 5 is accepted and
    completes the scenario. *)
Lemma accepted_response_not_the_requests :
  (let rspMsg := msgOfBuffer (buf (peerMsg 35 10 None)) in
   ~ (isExpectedRsp rspMsg s4_w1 = Ok true <->
      exists (n : nat) job (expectedRspMsg : TestMsg),
        jobSeq_at (jobSeq s4_w1) (u32 (m_currTaskIndx (ue s4_w1) + 1)) = Some n /\
        jobSeq s4_w1 !! n = Some job /\
        job_type job = JOB_TYPE_RECV /\
        job_gtpMsg job = Some expectedRspMsg /\
        msgType expectedRspMsg = msgType rspMsg /\
        proc_seqNumber (m_currUeProc (ue s4_w1)) = msgSeqNumber rspMsg)) /\
  (reachable s6_w0 s6_w1 /\
   chkWaiting s6_w1 = false /\
   m_currTask (ue s6_w1) = Some 2%nat /\
   seqCtr s6_w1 = 0 /\
   isExpectedRsp (msgOfBuffer (buf mbRsp10)) (run_enter 10 s6_w1) = Ok true /\
   run (Some mbRsp10) 10 10 s6_w1 = Ok (ROK, s6_w2) /\
   m_currTaskIndx (ue s6_w2) = 4 /\
   chkComplete s6_w2 = true /\
   seqCtr s6_w2 = 0 /\
   map (fun d => msgType (msgOfBuffer (buf d))) (netOut s6_w2) = [33] /\
   map m_numSnd (jobSeq s6_w2) = [0; 1; 0; 0]) /\
  (reachable s7_w0 s7_w2 /\
   map (fun d => (msgType (msgOfBuffer (buf d)), msgSeqNumber (msgOfBuffer (buf d))))
     (netOut s7_w2) = [(32, 1)] /\
   chkWaiting s7_w2 = true /\
   proc_seqNumber (m_currUeProc (ue s7_w2)) = 5 /\
   isExpectedRsp (msgOfBuffer (buf csRsp1)) (run_enter 20 s7_w2) = Ok false /\
   isExpectedRsp (msgOfBuffer (buf csRsp5)) (run_enter 20 s7_w2) = Ok true /\
   msgSeqNumber (msgOfBuffer (buf csRsp5)) = 5 /\
   run (Some csRsp5) 20 20 s7_w2 = Ok (ROK, s7_w3) /\
   chkWaiting s7_w3 = false /\
   chkComplete s7_w3 = true /\
   netOut s7_w3 = netOut s7_w2).
Proof.
  split; [exact isExpectedRsp_accepts_send_job|]. split.
  - split; [exact s6_w1_reachable|].
    split; [vm_compute; reflexivity|].
    split; [vm_compute; reflexivity|].
    split; [vm_compute; reflexivity|].
    split; [vm_compute; reflexivity|].
    split; [vm_compute; reflexivity|].
    split; [vm_compute; reflexivity|].
    split; [vm_compute; reflexivity|].
    split; [vm_compute; reflexivity|].
    split; vm_compute; reflexivity.
  - split; [exact s7_w2_reachable|].
    split; [vm_compute; reflexivity|].
    split; [vm_compute; reflexivity|].
    split; [vm_compute; reflexivity|].
    split; [vm_compute; reflexivity|].
    split; [vm_compute; reflexivity|].
    split; [vm_compute; reflexivity|].
    split; [vm_compute; reflexivity|].
    split; [vm_compute; reflexivity|].
    split; vm_compute; reflexivity.
Qed.

(** C4 fails as stated, in two ways. In S4 the peer's sequence numbers wrap
    from the largest 24-bit value to 0: the Modify Bearer Request is later in
    the modular sense, the current job is a Recv of its type, and it is not
    classified as expected. In S1 the session waits on its Send job: a Create
    Session Request of the peer is classified as expected although the
    current job is not a Recv. *)
Lemma isExpectedReq_not_modular_not_recv :
  (let reqMsg := msgOfBuffer (buf (peerMsg 34 0 None)) in
   ~ (isExpectedReq reqMsg s4_wrap = Ok true <->
      exists (n : nat) job (expectedReqMsg : TestMsg),
        m_currTask (ue s4_wrap) = Some n /\
        jobSeq s4_wrap !! n = Some job /\
        job_type job = JOB_TYPE_RECV /\
        job_gtpMsg job = Some expectedReqMsg /\
        msgType expectedReqMsg = msgType reqMsg /\
        seqLaterModular (proc_seqNumber (m_currUeProc (ue s4_wrap)))
          (msgSeqNumber reqMsg) = true)) /\
  (let reqMsg := msgOfBuffer (buf (peerMsg 32 5 (Some 77))) in
   ~ (isExpectedReq reqMsg s1_w1 = Ok true <->
      exists (n : nat) job (expectedReqMsg : TestMsg),
        m_currTask (ue s1_w1) = Some n /\
        jobSeq s1_w1 !! n = Some job /\
        job_type job = JOB_TYPE_RECV /\
        job_gtpMsg job = Some expectedReqMsg /\
        msgType expectedReqMsg = msgType reqMsg /\
        seqLaterModular (proc_seqNumber (m_currUeProc (ue s1_w1)))
          (msgSeqNumber reqMsg) = true)).
Proof.
  split.
  - intros reqMsg [_ Hspec].
    assert (isExpectedReq reqMsg s4_wrap = Ok true) as Hcode.
    { apply Hspec. exists 2%nat. eexists. eexists.
      vm_compute. repeat split; reflexivity. }
    vm_compute in Hcode. discriminate Hcode.
  - intros reqMsg [Hcode _].
    destruct Hcode as (n & job & m & Hn & Hjob & Hty & _); [vm_compute; reflexivity|].
    vm_compute in Hn. injection Hn as <-.
    vm_compute in Hjob. injection Hjob as <-.
    discriminate Hty.
Qed.

Lemma handleIncReqMsg_prevProcReq_witness :
  exists w',
    handleIncReqMsg (msgOfBuffer (buf csReq10)) csReq10 500 s4_w1 = Ok (ROK, w') /\
    length (netOut w') = 2%nat /\
    m_currTaskIndx (ue w') = 2.
Proof.
  destruct (handleIncReqMsg_prevProcReq (msgOfBuffer (buf csReq10)) csReq10 500 s4_w1
              0%nat (default (waitJob 0) (jobSeq s4_w1 !! 0%nat))
              (default (mkUdpData [] 0 (testEp 0))
                 (proc_sentMsg (m_prevUeProc (ue s4_w1)))))
    as (w' & Hrun & Hout & _ & _ & _ & _ & Hidx & _).
  - vm_compute. reflexivity.
  - vm_compute. reflexivity.
  - vm_compute. reflexivity.
  - vm_compute. reflexivity.
  - vm_compute. reflexivity.
  - exists w'. split; [exact Hrun|]. split; [rewrite Hout; reflexivity | exact Hidx].
Defined.

Lemma s5_w2_reachable : reachable s5_w0 s5_w2.
Proof.
  apply (reach_run s5_w0 s5_w1 (Some csRsp1) 50 50 s5_w2).
  - apply (reach_run s5_w0 s5_w0 None 0 0 s5_w1); [apply reach_init|].
    vm_compute. reflexivity.
  - vm_compute. reflexivity.
Qed.

(** C5 on the scenario Send CS_REQ, Recv CS_RSP, Recv MB_REQ, Send MB_RSP:
    the session has sent its Create Session Request with sequence number 1
    and accepted the response, so the previous procedure is its own, of
    request type CS_REQ and sequence number 1, and [m_prevUeProc.sentMsg] is
    NULL (only [handleOutRspMsg] stores a message there). A Create Session
    Request of the peer with sequence number 1 is not the expected request
    and repeats the previous procedure: [handleIncReqMsg] counts it on the
    job of that procedure and then reads [m_prevUeProc.sentMsg->buf] through
    the NULL pointer; nothing is sent again. *)
Theorem prevProcReq_null_sentMsg :
  reachable s5_w0 s5_w2 /\
  chkComplete s5_w2 = false /\
  isExpectedReq (msgOfBuffer (buf csReq1)) (run_enter 60 s5_w2) = Ok false /\
  isPrevProcReq (msgOfBuffer (buf csReq1)) (run_enter 60 s5_w2) = true /\
  proc_procTask (m_prevUeProc (ue s5_w2)) = Some 0%nat /\
  proc_sentMsg (m_prevUeProc (ue s5_w2)) = None /\
  resendPrevRsp (run_enter 60 s5_w2) = Fault /\
  handleIncReqMsg (msgOfBuffer (buf csReq1)) csReq1 60 (run_enter 60 s5_w2) = Fault /\
  run (Some csReq1) 60 60 s5_w2 = Fault.
Proof.
  split; [exact s5_w2_reachable|].
  split; [vm_compute; reflexivity|].
  split; [vm_compute; reflexivity|].
  split; [vm_compute; reflexivity|].
  split; [vm_compute; reflexivity|].
  split; [vm_compute; reflexivity|].
  split; [vm_compute; reflexivity|].
  split; vm_compute; reflexivity.
Qed.

(** C6 fails as stated: in S1 the session waits for the Create Session
    Response, to wake at 1000 ms for the retransmission; a Modify Bearer
    Response that comes in at 500 ms is unexpected, and after it the session
    still waits but its wake time is 0. *)
Lemma unexpected_rsp_resets_wake :
  let data := peerMsg 35 1 None in
  chkWaiting s1_w1 = true /\
  m_wakeTime (ue s1_w1) = 1000 /\
  isExpectedRsp (msgOfBuffer (buf data)) (run_enter 500 s1_w1) = Ok false /\
  isPrevProcRsp (msgOfBuffer (buf data)) (run_enter 500 s1_w1) = false /\
  exists w',
    run (Some data) 500 500 s1_w1 = Ok (ROK, w') /\
    chkWaiting w' = true /\
    m_wakeTime (ue w') = 0 /\
    m_wakeTime (ue w') <> m_wakeTime (ue s1_w1).
Proof.
  intros data. repeat split; try (vm_compute; reflexivity).
  eexists. split; [vm_compute; reflexivity|].
  repeat split; try (vm_compute; reflexivity).
  vm_compute. discriminate.
Qed.

Lemma handleRecv_unexpected_witness :
  exists w',
    handleRecv (peerMsg 35 1 None) 500 s1_w1 = Ok (ROK, w') /\
    m_wakeTime (ue w') = 0 /\
    chkWaiting w' = true.
Proof.
  destruct (handleRecv_unexpected (peerMsg 35 1 None) 500 s1_w1 0%nat
              (default (waitJob 0) (jobSeq s1_w1 !! 0%nat)))
    as (w' & Hrun & _ & _ & _ & _ & Hwake & Hwait & _).
  - vm_compute. reflexivity.
  - vm_compute. reflexivity.
  - right. vm_compute. repeat split; reflexivity.
  - exists w'. split; [exact Hrun|]. split; [exact Hwake|].
    rewrite Hwait. vm_compute. reflexivity.
Defined.

Lemma sw_w2_reachable : reachable sw_w0 sw_w2.
Proof.
  apply (reach_run sw_w0 sw_w1 (Some csRsp1) 50 50 sw_w2).
  - apply (reach_run sw_w0 sw_w0 None 0 0 sw_w1); [apply reach_init|].
    vm_compute. reflexivity.
  - vm_compute. reflexivity.
Qed.

Lemma s1_t3_reachable : reachable s1_w0 s1_t3.
Proof.
  apply (reach_run s1_w0 s1_t2 None 3000 3000 s1_t3); [|vm_compute; reflexivity].
  apply (reach_run s1_w0 s1_t1 None 2000 2000 s1_t2); [|vm_compute; reflexivity].
  apply (reach_run s1_w0 s1_w1 None 1000 1000 s1_t1); [|vm_compute; reflexivity].
  exact s1_w1_reachable.
Qed.

(** S2 and S3: the request is sent again at 1000, 2000 and 3000 ms. *)
Example s1_retransmissions :
  view (Ok (ROK, s1_t3)) = Some (ROK, 0, Some 0%nat, 1, 4000, TASK_STATE_PAUSED, 3)
  /\ length (netOut s1_t3) = 4%nat.
Proof. vm_compute. split; reflexivity. Qed.

(** C7 on the scenario Send CS_REQ, Recv CS_RSP, Wait 100: once the Wait job
    has run, [m_currTaskIndx] equals the length of the job sequence and
    [SCENARIO_COMPLETE] is not set. [handleWait] finishes the job without the
    completion check that [handleOutRspMsg] and [handleIncRspMsg] make. *)
Theorem wait_last_job_not_completed :
  reachable sw_w0 sw_w2 /\
  run None 60 60 sw_w2 = Ok (ROK, sw_w3) /\
  m_currTaskIndx (ue sw_w3) = Z.of_nat (length (jobSeq sw_w3)) /\
  chkComplete sw_w3 = false.
Proof.
  split; [exact sw_w2_reachable|].
  split; [vm_compute; reflexivity|].
  split; vm_compute; reflexivity.
Qed.

(** The session counters: creating a PDN and completing a scenario keep
    them balanced, counting a failure does not. *)

Lemma u32_eq (x : Z) : exists k, u32 x = x + k * 2 ^ 32.
Proof. exists (- (x / 2 ^ 32)). unfold u32. rewrite Z.mod_eq by lia. lia. Qed.

Lemma mod_shift (a k : Z) : (a + k * 2 ^ 32) mod 2 ^ 32 = a mod 2 ^ 32.
Proof. apply Z_mod_plus_full. Qed.

Lemma created_balanced (st : Stats) :
  statsBalanced st ->
  statsBalanced (updStats 1 GSIM_STAT_NUM_SESSIONS
                   (updStats 1 GSIM_STAT_NUM_SESSIONS_CREATED st)).
Proof.
  unfold statsBalanced. simpl. intros Hb.
  destruct (u32_eq (NUM_SESSIONS_CREATED st + 1)) as [k ->].
  destruct (u32_eq (NUM_SESSIONS st + 1)) as [k' ->].
  rewrite <- Hb. symmetry. rewrite <- (mod_shift _ (k - k')). f_equal.
  change (2 ^ 32) with 4294967296. lia.
Qed.

Lemma completed_balanced (st : Stats) :
  statsBalanced st ->
  statsBalanced (updStats (-1) GSIM_STAT_NUM_SESSIONS
                   (updStats 1 GSIM_STAT_NUM_SESSIONS_SUCC st)).
Proof.
  unfold statsBalanced. simpl. intros Hb.
  destruct (u32_eq (NUM_SESSIONS_SUCC st + 1)) as [k ->].
  destruct (u32_eq (NUM_SESSIONS st + -1)) as [k' ->].
  rewrite <- Hb. symmetry. rewrite <- (mod_shift _ (- k - k')). f_equal.
  change (2 ^ 32) with 4294967296. lia.
Qed.

Lemma failed_unbalanced (st : Stats) :
  statsBalanced st -> ~ statsBalanced (updStats 1 GSIM_STAT_NUM_SESSIONS_FAIL st).
Proof.
  unfold statsBalanced. simpl. intros Hb Hb'.
  destruct (u32_eq (NUM_SESSIONS_FAIL st + 1)) as [k Hk]. rewrite Hk in Hb'.
  apply Z.mod_divide in Hb; [|lia]. apply Z.mod_divide in Hb'; [|lia].
  destruct Hb as [q Hq]. destruct Hb' as [q' Hq'].
  change (2 ^ 32) with 4294967296 in *. lia.
Qed.

Lemma handleCompletedTask_balanced {GtpMsg : Type} (w : World (GtpMsg := GtpMsg)) :
  statsBalanced (stats w) -> statsBalanced (stats (handleCompletedTask w)).
Proof. apply completed_balanced. Qed.

(** C8 on scenario S3: the request is never answered; at 4000 ms the retries
    are used up and the session fails. One session was created, none
    succeeded, one failed, and one is still counted as in flight:
    [handleSend] counts the failure without taking the session off
    [NUM_SESSIONS], as [handleCompletedTask] does on success. *)
Theorem retry_exhausted_stats :
  reachable s1_w0 s1_t3 /\
  exists w',
    run None 4000 4000 s1_t3 = Ok (ROK_OVER, w') /\
    stats w' = mkStats 1 1 0 1 0 /\
    NUM_SESSIONS_CREATED (stats w') <>
      NUM_SESSIONS_SUCC (stats w') + NUM_SESSIONS_FAIL (stats w') + NUM_SESSIONS (stats w').
Proof.
  split; [exact s1_t3_reachable|].
  eexists. split; [vm_compute; reflexivity|].
  split; [vm_compute; reflexivity|]. vm_compute. discriminate.
Qed.

(** C9 on scenario S1: the response that completes the scenario makes
    [UE_SSN_FINISH_TASK] advance [m_currTaskIndx] to 2, the length of the job
    sequence, and read [m_jobSeq] there, past its last element. *)
Theorem completing_advance_reads_past_end :
  reachable s1_w0 s1_w1 /\
  run (Some csRsp1) 50 50 s1_w1 = Ok (ROK, s1_done) /\
  chkComplete s1_done = true /\
  m_currTaskIndx (ue s1_done) = Z.of_nat (length (jobSeq s1_done)) /\
  ~ m_currTaskIndx (ue s1_done) < Z.of_nat (length (jobSeq s1_done)) /\
  jobSeq_at (jobSeq s1_done) (m_currTaskIndx (ue s1_done)) = None /\
  m_currTask (ue s1_done) = None.
Proof.
  split; [exact s1_w1_reachable|].
  split; [vm_compute; reflexivity|].
  split; [vm_compute; reflexivity|].
  split; [vm_compute; reflexivity|].
  split; [vm_compute; intros Hlt; discriminate Hlt|].
  split; vm_compute; reflexivity.
Qed.

(** C10 on the scenario Send CS_REQ, Recv CS_RSP, Wait 100: the response
    has been accepted and the current job is the Wait job, the last one; the
    scenario is not complete. When the peer sends its response again,
    [isExpectedRsp] reads [m_jobSeq] at [m_currTaskIndx + 1], which is the
    length of the sequence, and goes through what it finds there. *)
Theorem isExpectedRsp_reads_past_end :
  reachable sw_w0 sw_w2 /\
  chkComplete sw_w2 = false /\
  ~ m_currTaskIndx (ue sw_w2) + 1 < Z.of_nat (length (jobSeq sw_w2)) /\
  jobSeq_at (jobSeq sw_w2) (u32 (m_currTaskIndx (ue sw_w2) + 1)) = None /\
  isExpectedRsp (msgOfBuffer (buf csRsp1)) (run_enter 60 sw_w2) = Fault /\
  run (Some csRsp1) 60 60 sw_w2 = Fault.
Proof.
  split; [exact sw_w2_reachable|].
  split; [vm_compute; reflexivity|].
  split; [vm_compute; intros Hlt; discriminate Hlt|].
  split; [vm_compute; reflexivity|].
  split; vm_compute; reflexivity.
Qed.

(** * More of the session code *)

(** Steps through a hypothesis [H : c = Ok _], one bind or branch at a time. *)
Ltac ok_inv H :=
  repeat first
    [ match type of H with
      | mbind _ _ = Ok _ =>
          let a := fresh "a" in
          let Ha := fresh "Ha" in
          apply bind_Ok in H as (a & Ha & H)
      | Fault = Ok _ => discriminate H
      | Throw _ = Ok _ => discriminate H
      | (let '(_, _) := ?p in _) = Ok _ => destruct p
      | (if ?c then _ else _) = Ok _ => destruct c eqn:?
      | match ?c with _ => _ end = Ok _ => destruct c eqn:?
      end
    | progress simpl in H ].

Section Coverage.

Context {GtpMsg : Type} `{!GtpCodec GtpMsg}.

Implicit Types (w : World (GtpMsg := GtpMsg)) (job : Job (GtpMsg := GtpMsg)).

(** ** What the helpers leave alone *)

Lemma helperFrame_refl w : helperFrame w w.
Proof. repeat split; reflexivity. Qed.

Lemma helperFrame_trans w1 w2 w3 :
  helperFrame w1 w2 -> helperFrame w2 w3 -> helperFrame w1 w3.
Proof.
  unfold helperFrame. intros H12 H23.
  destruct H12 as (? & ? & ? & ? & ? & ? & ? & ? & ?).
  destruct H23 as (? & ? & ? & ? & ? & ? & ? & ? & ?).
  repeat split; congruence.
Qed.

Lemma jobShape_alter (f : Job -> Job) (n : nat) (jobs : list (Job (GtpMsg := GtpMsg))) :
  (forall j, job_type (f j) = job_type j /\ job_wait (f j) = job_wait j) ->
  jobShape (alter f n jobs) = jobShape jobs.
Proof.
  intros Hf. unfold jobShape. revert n.
  induction jobs as [|j jobs IH]; intros [|n]; simpl; try reflexivity.
  - destruct (Hf j) as [-> ->]. reflexivity.
  - f_equal. apply IH.
Qed.

Lemma jobShape_length (jobs jobs' : list (Job (GtpMsg := GtpMsg))) :
  jobShape jobs' = jobShape jobs -> length jobs' = length jobs.
Proof.
  unfold jobShape. intros Hs. apply (f_equal length) in Hs.
  rewrite !length_map in Hs. exact Hs.
Qed.

Lemma updJob_frame (f : Job -> Job) (p : option nat) w w' :
  (forall j, job_type (f j) = job_type j /\ job_wait (f j) = job_wait j) ->
  updJob f p w = Ok w' -> helperFrame w w'.
Proof.
  intros Hf. unfold updJob. intros H. ok_inv H. injection H as <-.
  repeat split; try reflexivity. simpl. apply jobShape_alter, Hf.
Qed.

Lemma createCTun_frame (pPdn : nat) w (t : nat) w' :
  createCTun pPdn w = Ok (t, w') -> helperFrame w w'.
Proof.
  unfold createCTun, allocCTun. intros H. ok_inv H;
    injection H as <- <-; repeat split; reflexivity.
Qed.

Lemma createPdn_frame w (p : nat) w' : createPdn w = Ok (p, w') -> helperFrame w w'.
Proof.
  unfold createPdn. intros H. ok_inv H. injection H as <- <-.
  apply createCTun_frame in Ha.
  destruct Ha as (Hb & ? & ? & ? & ? & ? & ? & ? & ?).
  repeat split; simpl;
    first [assumption | unfold blankPdn in *; simpl in *; congruence].
Qed.

Lemma createBearer_frame (pPdn : option nat) (ebi : GtpEbi_t) w w' :
  createBearer pPdn ebi w = Ok w' -> helperFrame w w'.
Proof.
  unfold createBearer, GtpuTun_new. intros H. ok_inv H. injection H as <-.
  repeat split; try reflexivity. simpl. apply length_insert.
Qed.

Lemma createBearers_loop_frame (pPdn : option nat) (ebis : list GtpEbi_t) w w' :
  createBearers_loop pPdn ebis w = Ok w' -> helperFrame w w'.
Proof.
  revert w. induction ebis as [|ebi rest IH]; simpl; intros w H.
  - injection H as <-. apply helperFrame_refl.
  - apply bind_Ok in H as (w1 & H1 & H).
    eapply helperFrame_trans; [eapply createBearer_frame, H1 | apply IH, H].
Qed.

Lemma createBearers_frame (pPdn : option nat) (m : GtpMsg) w w' :
  createBearers pPdn m w = Ok w' -> helperFrame w w'.
Proof.
  unfold createBearers. destruct (_ =? _).
  - apply createBearers_loop_frame.
  - intros [= <-]. apply helperFrame_refl.
Qed.

Lemma updCTun_frame (f : GtpcTun -> GtpcTun) (pPdn : option nat) w w' :
  updCTun f pPdn w = Ok w' -> helperFrame w w'.
Proof.
  unfold updCTun, derefPdn. intros H. ok_inv H. injection H as <-.
  repeat split; reflexivity.
Qed.

Lemma decAndStore_frame (pPdn : option nat) (m : GtpMsg) (ep : IPEndPoint) w w' :
  decAndStoreGtpcIncMsg pPdn m ep w = Ok w' -> helperFrame w w'.
Proof.
  unfold decAndStoreGtpcIncMsg. intros H.
  apply bind_Ok in H as (w1 & H1 & H).
  apply bind_Ok in H as (w2 & H2 & H).
  assert (helperFrame w w1) as H01.
  { destruct (_ || _).
    - apply bind_Ok in H1 as (teid & _ & H1). eapply updCTun_frame, H1.
    - injection H1 as <-. apply helperFrame_refl. }
  apply updCTun_frame in H2.
  assert (helperFrame w2 w') as H23.
  { destruct (_ =? _).
    - eapply createBearers_frame, H.
    - injection H as <-. apply helperFrame_refl. }
  eauto using helperFrame_trans.
Qed.

Lemma encGtpcOutMsg_frame (pPdn pJob : option nat) w (b : Buffer) w' :
  encGtpcOutMsg pPdn pJob w = Ok (b, w') -> helperFrame w w'.
Proof.
  destruct pJob as [n|]; [|discriminate].
  intros H. apply encGtpcOutMsg_inv in H as (job & m3 & _ & _ & ->).
  repeat split; try reflexivity. simpl. apply jobShape_alter.
  intros j. split; reflexivity.
Qed.

Lemma inc_shape (f : Job (GtpMsg := GtpMsg) -> Job) :
  f = inc_numSnd \/ f = inc_numSndRetrans \/ f = inc_numRcv \/
  f = inc_numRcvRetrans \/ f = inc_numTimeOut \/ f = inc_numUnexp ->
  forall j, job_type (f j) = job_type j /\ job_wait (f j) = job_wait j.
Proof. intros Hf j. intuition (subst; split; reflexivity). Qed.

(** ** What no handler changes *)

Lemma statsKept_refl (st : Stats) : statsKept st st.
Proof. split; reflexivity. Qed.

Lemma statsKept_trans (a b c : Stats) : statsKept a b -> statsKept b c -> statsKept a c.
Proof. intros [H1 H2] [H3 H4]. split; congruence. Qed.

Lemma statsKept_created (st : Stats) :
  statsKept st (updStats 1 GSIM_STAT_NUM_SESSIONS
                  (updStats 1 GSIM_STAT_NUM_SESSIONS_CREATED st)).
Proof.
  split; [|reflexivity]. simpl.
  destruct (u32_eq (NUM_SESSIONS_CREATED st + 1)) as [k ->].
  destruct (u32_eq (NUM_SESSIONS st + 1)) as [k' ->].
  rewrite <- (mod_shift (_ - _ - NUM_SESSIONS st) (k - k')). f_equal.
  change (2 ^ 32) with 4294967296. lia.
Qed.

Lemma statsKept_completed (st : Stats) :
  statsKept st (updStats (-1) GSIM_STAT_NUM_SESSIONS
                  (updStats 1 GSIM_STAT_NUM_SESSIONS_SUCC st)).
Proof.
  split; [|reflexivity]. simpl.
  destruct (u32_eq (NUM_SESSIONS_SUCC st + 1)) as [k ->].
  destruct (u32_eq (NUM_SESSIONS st + -1)) as [k' ->].
  rewrite <- (mod_shift (_ - _ - NUM_SESSIONS st) (- k - k')). f_equal.
  change (2 ^ 32) with 4294967296. lia.
Qed.

Lemma statsKept_failed (st : Stats) :
  statsKept st (updStats 1 GSIM_STAT_NUM_SESSIONS_FAIL st).
Proof. split; reflexivity. Qed.

Lemma keeps_refl w : keeps w w.
Proof. split; [reflexivity | apply statsKept_refl]. Qed.

Lemma keeps_trans w1 w2 w3 : keeps w1 w2 -> keeps w2 w3 -> keeps w1 w3.
Proof.
  intros [H1 H2] [H3 H4]. split; [congruence | eapply statsKept_trans; eassumption].
Qed.

Lemma blankPdn_static (s s' : UeSession) :
  blankPdn s' = blankPdn s ->
  (m_n3req s', m_t3time s', m_sessionId s', m_nodeType s', m_peerEp s',
   m_imsiKey s', m_deadCallWait s')
  = (m_n3req s, m_t3time s, m_sessionId s, m_nodeType s, m_peerEp s,
     m_imsiKey s, m_deadCallWait s).
Proof. unfold blankPdn. simpl. intros H. injection H. intros. subst. congruence. Qed.

Lemma helperFrame_keeps w w' : helperFrame w w' -> keeps w w'.
Proof.
  intros (Hb & Hs & Hl & Hst & _ & _ & _ & Hc & Hi).
  apply blankPdn_static in Hb. injection Hb. intros.
  split; [|rewrite Hst; apply statsKept_refl].
  unfold staticView. congruence.
Qed.

(** A change of the session object that leaves its fixed fields, and of the
    world that leaves statistics, scenario and configuration. *)
Ltac keeps_solve :=
  unfold keeps, staticView, statsKept in *; simpl in *; intuition congruence.

Lemma keeps_created w :
  keeps w (incStats GSIM_STAT_NUM_SESSIONS (incStats GSIM_STAT_NUM_SESSIONS_CREATED w)).
Proof. split; [reflexivity | apply statsKept_created]. Qed.

Lemma handleCompletedTask_keeps w : keeps w (handleCompletedTask w).
Proof. split; [reflexivity | apply statsKept_completed]. Qed.

Lemma finish_keeps w : keeps w (UE_SSN_FINISH_TASK w).
Proof. split; [reflexivity | apply statsKept_refl]. Qed.

Lemma handleOutReqMsg_keeps w (r : RETVAL) w' :
  handleOutReqMsg w = Ok (r, w') -> keeps w w'.
Proof.
  unfold handleOutReqMsg, generateSeqNum. intros H.
  apply bind_Ok in H as (gtpMsg & _ & H).
  apply bind_Ok in H as ([pPdn w1] & H1 & H).
  apply bind_Ok in H as (w2 & H2 & H). simpl in H.
  apply bind_Ok in H as ([b w5] & H5 & H).
  apply bind_Ok in H as (w7 & H7 & H).
  injection H as <- <-.
  apply createBearers_frame, helperFrame_keeps in H2.
  apply encGtpcOutMsg_frame, helperFrame_keeps in H5.
  apply updJob_frame, helperFrame_keeps in H7;
    [|apply inc_shape; tauto].
  assert (keeps w w1) as H01.
  { destruct (_ =? _).
    - apply bind_Ok in H1 as ([p w0] & Hp & H1). injection H1 as <- <-.
      apply createPdn_frame, helperFrame_keeps in Hp.
      eapply keeps_trans; [apply keeps_created | exact Hp].
    - injection H1 as <- <-. apply keeps_refl. }
  eapply keeps_trans; [exact H01|].
  eapply keeps_trans; [exact H2|].
  eapply keeps_trans; [|eapply keeps_trans; [exact H5|]].
  - keeps_solve.
  - eapply keeps_trans; [|eapply keeps_trans; [exact H7|]]; keeps_solve.
Qed.

Lemma handleOutRspMsg_keeps w (r : RETVAL) w' :
  handleOutRspMsg w = Ok (r, w') -> keeps w w'.
Proof.
  unfold handleOutRspMsg. intros H.
  apply bind_Ok in H as ([b w1] & H1 & H).
  apply bind_Ok in H as (tun & _ & H).
  apply bind_Ok in H as (w3 & H3 & H).
  apply bind_Ok in H as (gtpMsg & _ & H).
  injection H as <- <-.
  apply encGtpcOutMsg_frame, helperFrame_keeps in H1.
  apply updJob_frame, helperFrame_keeps in H3; [|apply inc_shape; tauto].
  eapply keeps_trans; [exact H1|].
  eapply keeps_trans; [|eapply keeps_trans; [exact H3|]]; [keeps_solve|].
  destruct (IS_SCN_COMPLETED _).
  - eapply keeps_trans; [|apply handleCompletedTask_keeps]. keeps_solve.
  - keeps_solve.
Qed.

Lemma handleOutReqTimeout_keeps w (r : RETVAL) w' :
  handleOutReqTimeout w = Ok (r, w') -> keeps w w'.
Proof.
  unfold handleOutReqTimeout. intros H.
  destruct (_ <=? _).
  - injection H as <- <-. keeps_solve.
  - apply bind_Ok in H as (d & _ & H).
    apply bind_Ok in H as (w2 & H2 & H).
    injection H as <- <-.
    apply updJob_frame, helperFrame_keeps in H2; [|apply inc_shape; tauto].
    eapply keeps_trans; [|eapply keeps_trans; [exact H2|]]; keeps_solve.
Qed.

Lemma keeps_failed w : keeps w (incStats GSIM_STAT_NUM_SESSIONS_FAIL w).
Proof. split; [reflexivity | apply statsKept_failed]. Qed.

Lemma handleSend_keeps w (r : RETVAL) w' :
  handleSend w = Ok (r, w') -> keeps w w'.
Proof.
  unfold handleSend. intros H.
  destruct (chkWaiting w).
  - apply bind_Ok in H as ([ret w1] & H1 & H).
    apply handleOutReqTimeout_keeps in H1.
    destruct (RETVAL_eqb _ _).
    + apply bind_Ok in H as (w2 & H2 & H). injection H as <- <-.
      apply updJob_frame, helperFrame_keeps in H2; [|apply inc_shape; tauto].
      eapply keeps_trans; [exact H1|].
      eapply keeps_trans; [exact H2|].
      eapply keeps_trans; [apply keeps_failed|]. keeps_solve.
    + injection H as <- <-. exact H1.
  - apply bind_Ok in H as (gtpMsg & _ & H).
    destruct (gtpGetMsgCategory _);
      apply bind_Ok in H as ([ret w1] & H1 & H);
      first [apply handleOutReqMsg_keeps in H1 | apply handleOutRspMsg_keeps in H1];
      destruct (RETVAL_eqb _ _); injection H as <- <-;
      first [exact H1 | eapply keeps_trans; [exact H1|]; keeps_solve].
Qed.

Lemma handleWait_keeps w (r : RETVAL) w' :
  handleWait w = Ok (r, w') -> keeps w w'.
Proof.
  unfold handleWait. intros H. apply bind_Ok in H as (job & _ & H).
  injection H as <- <-. split; [reflexivity | apply statsKept_refl].
Qed.

Lemma resendPrevRsp_keeps w w' : resendPrevRsp w = Ok w' -> keeps w w'.
Proof.
  unfold resendPrevRsp. intros H.
  apply bind_Ok in H as (w1 & H1 & H).
  apply bind_Ok in H as (d & _ & H). injection H as <-.
  apply updJob_frame, helperFrame_keeps in H1; [|apply inc_shape; tauto].
  eapply keeps_trans; [exact H1|]. keeps_solve.
Qed.

Lemma handleDeadCall_keeps (arg : option UdpData_t) w (r : RETVAL) w' :
  handleDeadCall arg w = Ok (r, w') -> keeps w w'.
Proof.
  unfold handleDeadCall. intros H.
  destruct arg as [data|].
  - destruct (gtpGetMsgCategory _).
    + injection H as <- <-. apply keeps_refl.
    + destruct (isPrevProcReq _ _).
      * apply bind_Ok in H as (w1 & H1 & H). injection H as <- <-.
        apply resendPrevRsp_keeps, H1.
      * injection H as <- <-. apply keeps_refl.
    + destruct (isPrevProcRsp _ _).
      * apply bind_Ok in H as (w1 & H1 & H). injection H as <- <-.
        eapply helperFrame_keeps, updJob_frame, H1. apply inc_shape; tauto.
      * injection H as <- <-. apply keeps_refl.
  - destruct (_ <=? _); injection H as <- <-; apply keeps_refl.
Qed.

Lemma run_enter_keeps (now : Time_t) w : keeps w (run_enter now w).
Proof. split; [reflexivity | apply statsKept_refl]. Qed.

Lemma run_timer_keeps (now : Time_t) w (r : RETVAL) w' :
  run_timer now w = Ok (r, w') -> keeps w w'.
Proof.
  unfold run_timer. intros H.
  eapply keeps_trans; [apply (run_enter_keeps now)|].
  destruct (chkComplete _).
  - apply bind_Ok in H as ([ret w2] & H2 & H). injection H as <- <-.
    eapply handleDeadCall_keeps, H2.
  - apply bind_Ok in H as (job & _ & H).
    destruct (job_type job).
    + injection H as <- <-. apply keeps_refl.
    + eapply handleSend_keeps, H.
    + injection H as <- <-. apply keeps_refl.
    + eapply handleWait_keeps, H.
Qed.

Lemma acceptReq_keeps (m : GtpMsg) (data : UdpData_t) w w' :
  acceptReq m data w = Ok w' -> keeps w w'.
Proof.
  unfold acceptReq, updatePeerSeqNumber. intros H.
  apply bind_Ok in H as (w1 & H1 & H).
  apply bind_Ok in H as ([pdn w2] & H2 & H).
  apply bind_Ok in H as (w5 & H5 & H).
  injection H as <-.
  apply updJob_frame, helperFrame_keeps in H1; [|apply inc_shape; tauto].
  apply decAndStore_frame, helperFrame_keeps in H5.
  assert (keeps w1 w2) as H12.
  { destruct (_ =? _).
    - apply bind_Ok in H2 as ([p w0] & Hp & H2). injection H2 as <- <-.
      apply createPdn_frame, helperFrame_keeps in Hp.
      eapply keeps_trans; [apply keeps_created | exact Hp].
    - injection H2 as <- <-. apply keeps_refl. }
  eapply keeps_trans; [exact H1|].
  eapply keeps_trans; [exact H12|].
  eapply keeps_trans; [|eapply keeps_trans; [exact H5|]]; keeps_solve.
Qed.

Lemma handleIncReqMsg_keeps (m : GtpMsg) (data : UdpData_t) (now2 : Time_t) w
    (r : RETVAL) w' :
  handleIncReqMsg m data now2 w = Ok (r, w') -> keeps w w'.
Proof.
  unfold handleIncReqMsg. intros H.
  apply bind_Ok in H as (expected & _ & H).
  destruct expected.
  - apply bind_Ok in H as (w6 & H6 & H).
    apply bind_Ok in H as ([ret w7] & H7 & H).
    injection H as <- <-.
    eapply keeps_trans; [eapply acceptReq_keeps, H6 | eapply run_timer_keeps, H7].
  - destruct (isPrevProcReq _ _);
      apply bind_Ok in H as (w1 & H1 & H); injection H as <- <-.
    + apply resendPrevRsp_keeps, H1.
    + eapply helperFrame_keeps, updJob_frame, H1. apply inc_shape; tauto.
Qed.

Lemma handleIncRspMsg_keeps (m : GtpMsg) (data : UdpData_t) w (r : RETVAL) w' :
  handleIncRspMsg m data w = Ok (r, w') -> keeps w w'.
Proof.
  unfold handleIncRspMsg. intros H.
  apply bind_Ok in H as (expected & _ & H).
  destruct expected.
  - apply bind_Ok in H as (w3 & H3 & H).
    apply bind_Ok in H as (w4 & H4 & H).
    injection H as <- <-.
    apply updJob_frame, helperFrame_keeps in H3; [|apply inc_shape; tauto].
    apply decAndStore_frame, helperFrame_keeps in H4.
    eapply keeps_trans; [|eapply keeps_trans; [exact H3|]]; [keeps_solve|].
    eapply keeps_trans; [exact H4|].
    destruct (IS_SCN_COMPLETED _).
    + eapply keeps_trans; [|apply handleCompletedTask_keeps]. keeps_solve.
    + keeps_solve.
  - destruct (isPrevProcRsp _ _);
      apply bind_Ok in H as (w1 & H1 & H); injection H as <- <-;
      (eapply helperFrame_keeps, updJob_frame; [|exact H1]); apply inc_shape; tauto.
Qed.

Lemma handleRecv_keeps (data : UdpData_t) (now2 : Time_t) w (r : RETVAL) w' :
  handleRecv data now2 w = Ok (r, w') -> keeps w w'.
Proof.
  unfold handleRecv. intros H.
  apply bind_Ok in H as ([ret w1] & H1 & H). injection H as <- <-.
  assert (keeps w w1) as H01.
  { destruct (gtpGetMsgCategory _).
    - injection H1 as <- <-. apply keeps_refl.
    - eapply handleIncReqMsg_keeps, H1.
    - eapply handleIncRspMsg_keeps, H1. }
  eapply keeps_trans; [exact H01|]. keeps_solve.
Qed.

Lemma run_keeps (arg : option UdpData_t) (now now2 : Time_t) w (r : RETVAL) w' :
  run arg now now2 w = Ok (r, w') -> keeps w w'.
Proof.
  unfold run. intros H. destruct arg as [data|].
  - eapply keeps_trans; [apply (run_enter_keeps now)|].
    destruct (chkComplete _).
    + apply bind_Ok in H as ([ret w2] & H2 & H). injection H as <- <-.
      eapply handleDeadCall_keeps, H2.
    + eapply handleRecv_keeps, H.
  - eapply run_timer_keeps, H.
Qed.

Lemma reachable_keeps w0 w : reachable w0 w -> keeps w0 w.
Proof.
  intros Hreach. induction Hreach as [|w arg now now2 w' _ IH Hrun].
  - apply keeps_refl.
  - eapply keeps_trans; [exact IH | eapply run_keeps, Hrun].
Qed.

(** ** The position in the scenario *)

Lemma chk_set_same (m b : Z) : 0 < b -> GSIM_CHK_MASK (GSIM_SET_MASK m b) b = true.
Proof.
  intros Hb. unfold GSIM_CHK_MASK, GSIM_SET_MASK.
  rewrite Z.land_lor_distr_l, Z.land_diag.
  apply negb_true_iff, Z.eqb_neq. intros H0.
  apply Z.lor_eq_0_iff in H0. lia.
Qed.

Lemma chkComplete_setWaiting (m : Z) :
  GSIM_CHK_MASK (GSIM_SET_MASK m GSIM_UE_SSN_WAITING_FOR_RSP) GSIM_UE_SSN_SCN_COMPLETE
  = GSIM_CHK_MASK m GSIM_UE_SSN_SCN_COMPLETE.
Proof.
  unfold GSIM_CHK_MASK, GSIM_SET_MASK.
  rewrite Z.land_lor_distr_l.
  change (Z.land GSIM_UE_SSN_WAITING_FOR_RSP GSIM_UE_SSN_SCN_COMPLETE) with 0.
  rewrite Z.lor_0_r. reflexivity.
Qed.

Lemma chkComplete_unsetWaiting (m : Z) :
  GSIM_CHK_MASK (GSIM_UNSET_MASK m GSIM_UE_SSN_WAITING_FOR_RSP) GSIM_UE_SSN_SCN_COMPLETE
  = GSIM_CHK_MASK m GSIM_UE_SSN_SCN_COMPLETE.
Proof.
  unfold GSIM_CHK_MASK, GSIM_UNSET_MASK.
  rewrite Z.ldiff_land, <- Z.land_assoc.
  change (Z.land (Z.lnot GSIM_UE_SSN_WAITING_FOR_RSP) GSIM_UE_SSN_SCN_COMPLETE)
    with GSIM_UE_SSN_SCN_COMPLETE.
  reflexivity.
Qed.

Lemma jobSeq_at_length (l l' : list (Job (GtpMsg := GtpMsg))) (i : Z) :
  length l' = length l -> jobSeq_at l' i = jobSeq_at l i.
Proof. unfold jobSeq_at. intros ->. reflexivity. Qed.

Lemma jobSeq_at_Some (l : list (Job (GtpMsg := GtpMsg))) (i : Z) (n : nat) :
  jobSeq_at l i = Some n -> 0 <= i < Z.of_nat (length l) /\ n = Z.to_nat i.
Proof.
  unfold jobSeq_at.
  destruct (0 <=? i) eqn:H0; destruct (i <? Z.of_nat (length l)) eqn:H1;
    simpl; intros H; try discriminate.
  injection H as <-. apply Z.leb_le in H0. apply Z.ltb_lt in H1. lia.
Qed.

Lemma cursorStep_refl w : cursorStep 0 w w.
Proof. intros Hinv. split; [exact Hinv | lia]. Qed.

Lemma cursorStep_trans (a b : Z) w1 w2 w3 :
  cursorStep a w1 w2 -> cursorStep b w2 w3 -> cursorStep (a + b) w1 w3.
Proof.
  intros H12 H23 Hinv. destruct (H12 Hinv) as [Hinv2 Hb2].
  destruct (H23 Hinv2) as [Hinv3 Hb3]. split; [exact Hinv3 | lia].
Qed.

Lemma cursorStep_weaken (a b : Z) w w' : a <= b -> cursorStep a w w' -> cursorStep b w w'.
Proof. intros Hab H Hinv. destruct (H Hinv) as [Hinv' Hb]. split; [exact Hinv' | lia]. Qed.

(** A step that touches neither the position nor the completion flag. *)
Lemma cursorStep_same w w' :
  length (jobSeq w') = length (jobSeq w) ->
  m_currTaskIndx (ue w') = m_currTaskIndx (ue w) ->
  m_currTask (ue w') = m_currTask (ue w) ->
  chkComplete w' = chkComplete w ->
  cursorStep 0 w w'.
Proof.
  intros Hl Hi Ht Hc (Hlen & Hidx & Htask & Hcompl).
  unfold cursorInv. rewrite Hl, Hi, Ht, Hc, (jobSeq_at_length _ _ _ Hl).
  split; [auto | lia].
Qed.

Lemma helperFrame_cursor w w' : helperFrame w w' -> cursorStep 0 w w'.
Proof.
  intros (Hb & Hs & _). apply jobShape_length in Hs.
  apply cursorStep_same; try exact Hs.
  - apply (f_equal m_currTaskIndx) in Hb. exact Hb.
  - apply (f_equal m_currTask) in Hb. exact Hb.
  - unfold chkComplete. apply (f_equal m_bitmask) in Hb. simpl in Hb.
    rewrite Hb. reflexivity.
Qed.

Lemma finish_cursor w :
  m_currTaskIndx (ue w) < Z.of_nat (length (jobSeq w)) ->
  cursorStep 1 w (UE_SSN_FINISH_TASK w).
Proof.
  intros Hlt (Hlen & Hidx & Htask & Hcompl).
  assert (u32 (m_currTaskIndx (ue w) + 1) = m_currTaskIndx (ue w) + 1) as Hu.
  { apply u32_small. lia. }
  unfold cursorInv, chkComplete in *. simpl. rewrite Hu.
  repeat split; try lia.
  intros Hc. apply Hcompl in Hc. lia.
Qed.

(** A job pointer that can be dereferenced is below the end of the sequence. *)
Lemma cursor_valid w (n : nat) :
  cursorInv w -> m_currTask (ue w) = Some n ->
  m_currTaskIndx (ue w) < Z.of_nat (length (jobSeq w)).
Proof.
  intros (_ & _ & Htask & _) Hn. rewrite Htask in Hn.
  apply jobSeq_at_Some in Hn. lia.
Qed.

Lemma completed_cursor w :
  IS_SCN_COMPLETED w = true -> cursorStep 0 w (handleCompletedTask w).
Proof.
  unfold IS_SCN_COMPLETED. intros Hc (Hlen & Hidx & Htask & Hcompl).
  apply Z.eqb_eq in Hc.
  unfold cursorInv. simpl. repeat split; try lia; try exact Htask.
Qed.

Lemma updJob_Some (f : Job -> Job) (p : option nat) w w' :
  updJob f p w = Ok w' -> exists n : nat, p = Some n.
Proof. destruct p as [n|]; [eauto | discriminate]. Qed.

Ltac cursor_same :=
  apply cursorStep_same; try reflexivity;
  unfold chkComplete; simpl;
  rewrite ?chkComplete_setWaiting, ?chkComplete_unsetWaiting; reflexivity.

Ltac cursor_helper H :=
  first
    [ apply updJob_frame, helperFrame_cursor in H; [|apply inc_shape; tauto]
    | apply createPdn_frame, helperFrame_cursor in H
    | apply createBearers_frame, helperFrame_cursor in H
    | apply decAndStore_frame, helperFrame_cursor in H
    | apply encGtpcOutMsg_frame, helperFrame_cursor in H ].

Lemma handleOutReqMsg_cursor w (r : RETVAL) w' :
  handleOutReqMsg w = Ok (r, w') -> cursorStep 0 w w'.
Proof.
  unfold handleOutReqMsg, generateSeqNum. intros H.
  apply bind_Ok in H as (gtpMsg & _ & H).
  apply bind_Ok in H as ([pPdn w1] & H1 & H).
  apply bind_Ok in H as (w2 & H2 & H). simpl in H.
  apply bind_Ok in H as ([b w5] & H5 & H).
  apply bind_Ok in H as (w7 & H7 & H).
  injection H as <- <-.
  cursor_helper H2. cursor_helper H5. cursor_helper H7.
  assert (cursorStep 0 w w1) as H01.
  { destruct (_ =? _).
    - apply bind_Ok in H1 as ([p w0] & Hp & H1). injection H1 as <- <-.
      cursor_helper Hp.
      apply (cursorStep_trans 0 0 _ _ _ ltac:(cursor_same) Hp).
    - injection H1 as <- <-. apply cursorStep_refl. }
  apply (cursorStep_trans 0 0 _ _ _ H01).
  apply (cursorStep_trans 0 0 _ _ _ H2).
  apply (cursorStep_trans 0 0 _ _ _ ltac:(cursor_same)).
  apply (cursorStep_trans 0 0 _ _ _ H5).
  apply (cursorStep_trans 0 0 _ _ _ ltac:(cursor_same)).
  apply (cursorStep_trans 0 0 _ _ _ H7).
  cursor_same.
Qed.

Lemma handleOutReqTimeout_cursor w (r : RETVAL) w' :
  handleOutReqTimeout w = Ok (r, w') -> cursorStep 0 w w'.
Proof.
  unfold handleOutReqTimeout. intros H.
  destruct (_ <=? _).
  - injection H as <- <-. cursor_same.
  - apply bind_Ok in H as (d & _ & H).
    apply bind_Ok in H as (w2 & H2 & H).
    injection H as <- <-. cursor_helper H2.
    apply (cursorStep_trans 0 0 _ _ _ ltac:(cursor_same)).
    apply (cursorStep_trans 0 0 _ _ _ H2).
    cursor_same.
Qed.

Lemma helperFrame_task w w' : helperFrame w w' -> m_currTask (ue w') = m_currTask (ue w).
Proof. intros (Hb & _). apply (f_equal m_currTask) in Hb. exact Hb. Qed.

Lemma finish_cursor_task w (n : nat) :
  m_currTask (ue w) = Some n -> cursorStep 1 w (UE_SSN_FINISH_TASK w).
Proof.
  intros Hn Hinv. apply finish_cursor; [|exact Hinv].
  eapply cursor_valid; eassumption.
Qed.

Lemma finish_completed_cursor w (n : nat) :
  m_currTask (ue w) = Some n ->
  cursorStep 1 w
    (if IS_SCN_COMPLETED (UE_SSN_FINISH_TASK w)
     then handleCompletedTask (UE_SSN_FINISH_TASK w)
     else UE_SSN_FINISH_TASK w).
Proof.
  intros Hn. destruct (IS_SCN_COMPLETED _) eqn:Hc.
  - apply (cursorStep_trans 1 0 _ _ _ (finish_cursor_task _ _ Hn)).
    apply completed_cursor, Hc.
  - eapply finish_cursor_task, Hn.
Qed.

Lemma handleOutRspMsg_cursor w (r : RETVAL) w' :
  handleOutRspMsg w = Ok (r, w') -> cursorStep 1 w w'.
Proof.
  unfold handleOutRspMsg. intros H.
  apply bind_Ok in H as ([b w1] & H1 & H).
  apply bind_Ok in H as (tun & _ & H).
  apply bind_Ok in H as (w3 & H3 & H).
  apply bind_Ok in H as (gtpMsg & _ & H).
  injection H as <- <-.
  destruct (updJob_Some _ _ _ _ H3) as [n Hn]. simpl in Hn.
  apply encGtpcOutMsg_frame in H1.
  apply updJob_frame in H3; [|apply inc_shape; tauto].
  pose proof (helperFrame_task _ _ H3) as Ht3. simpl in Ht3.
  apply helperFrame_cursor in H1, H3.
  apply (cursorStep_trans 0 1 _ _ _ H1).
  eapply (cursorStep_trans 0 1); [|eapply (cursorStep_trans 0 1); [exact H3|]];
    [cursor_same|].
  eapply (cursorStep_trans 0 1);
    [|eapply (finish_completed_cursor _ n); simpl; congruence].
  cursor_same.
Qed.

Lemma handleSend_cursor w (r : RETVAL) w' :
  handleSend w = Ok (r, w') -> cursorStep 1 w w'.
Proof.
  unfold handleSend. intros H.
  destruct (chkWaiting w).
  - apply bind_Ok in H as ([ret w1] & H1 & H).
    apply handleOutReqTimeout_cursor in H1.
    apply (cursorStep_weaken 0 1); [lia|].
    destruct (RETVAL_eqb _ _).
    + apply bind_Ok in H as (w2 & H2 & H). injection H as <- <-.
      cursor_helper H2.
      apply (cursorStep_trans 0 0 _ _ _ H1).
      apply (cursorStep_trans 0 0 _ _ _ H2).
      cursor_same.
    + injection H as <- <-. exact H1.
  - apply bind_Ok in H as (gtpMsg & _ & H).
    destruct (gtpGetMsgCategory _);
      apply bind_Ok in H as ([ret w1] & H1 & H);
      first [ apply handleOutReqMsg_cursor, (cursorStep_weaken 0 1) in H1; [|lia]
            | apply handleOutRspMsg_cursor in H1 ];
      destruct (RETVAL_eqb _ _); injection H as <- <-;
      first [ exact H1
            | apply (cursorStep_trans 1 0 _ _ _ H1); cursor_same ].
Qed.

Lemma handleWait_cursor w (r : RETVAL) w' :
  handleWait w = Ok (r, w') -> cursorStep 1 w w'.
Proof.
  unfold handleWait, derefJob. intros H.
  apply bind_Ok in H as (job & Hjob & H). injection H as <- <-.
  destruct (m_currTask (ue w)) as [n|] eqn:Hn; [|discriminate].
  eapply (cursorStep_trans 0 1); [|eapply (cursorStep_trans 1 0);
    [eapply (finish_cursor_task _ n)|]]; [cursor_same | exact Hn | cursor_same].
Qed.

Lemma resendPrevRsp_cursor w w' : resendPrevRsp w = Ok w' -> cursorStep 0 w w'.
Proof.
  unfold resendPrevRsp. intros H.
  apply bind_Ok in H as (w1 & H1 & H).
  apply bind_Ok in H as (d & _ & H). injection H as <-.
  cursor_helper H1.
  apply (cursorStep_trans 0 0 _ _ _ H1). cursor_same.
Qed.

Lemma handleDeadCall_cursor (arg : option UdpData_t) w (r : RETVAL) w' :
  handleDeadCall arg w = Ok (r, w') -> cursorStep 0 w w'.
Proof.
  unfold handleDeadCall. intros H.
  destruct arg as [data|].
  - destruct (gtpGetMsgCategory _).
    + injection H as <- <-. apply cursorStep_refl.
    + destruct (isPrevProcReq _ _).
      * apply bind_Ok in H as (w1 & H1 & H). injection H as <- <-.
        apply resendPrevRsp_cursor, H1.
      * injection H as <- <-. apply cursorStep_refl.
    + destruct (isPrevProcRsp _ _).
      * apply bind_Ok in H as (w1 & H1 & H). injection H as <- <-.
        cursor_helper H1. exact H1.
      * injection H as <- <-. apply cursorStep_refl.
  - destruct (_ <=? _); injection H as <- <-; apply cursorStep_refl.
Qed.

Lemma run_enter_cursor (now : Time_t) w : cursorStep 0 w (run_enter now w).
Proof. cursor_same. Qed.

Lemma run_timer_cursor (now : Time_t) w (r : RETVAL) w' :
  run_timer now w = Ok (r, w') -> cursorStep 1 w w'.
Proof.
  unfold run_timer. intros H.
  apply (cursorStep_trans 0 1 _ _ _ (run_enter_cursor now w)).
  destruct (chkComplete _).
  - apply bind_Ok in H as ([ret w2] & H2 & H). injection H as <- <-.
    apply (cursorStep_weaken 0 1); [lia|]. eapply handleDeadCall_cursor, H2.
  - apply bind_Ok in H as (job & _ & H).
    destruct (job_type job).
    + injection H as <- <-. apply (cursorStep_weaken 0 1); [lia|]. apply cursorStep_refl.
    + eapply handleSend_cursor, H.
    + injection H as <- <-. apply (cursorStep_weaken 0 1); [lia|]. apply cursorStep_refl.
    + eapply handleWait_cursor, H.
Qed.

Lemma acceptReq_cursor (m : GtpMsg) (data : UdpData_t) w w' :
  acceptReq m data w = Ok w' -> cursorStep 1 w w'.
Proof.
  unfold acceptReq, updatePeerSeqNumber. intros H.
  apply bind_Ok in H as (w1 & H1 & H).
  apply bind_Ok in H as ([pdn w2] & H2 & H).
  apply bind_Ok in H as (w5 & H5 & H).
  injection H as <-.
  destruct (updJob_Some _ _ _ _ H1) as [n Hn].
  apply updJob_frame in H1; [|apply inc_shape; tauto].
  apply decAndStore_frame in H5.
  pose proof (helperFrame_task _ _ H1) as Ht1.
  pose proof (helperFrame_task _ _ H5) as Ht5. simpl in Ht5.
  assert (cursorStep 0 w1 w2 /\ m_currTask (ue w2) = m_currTask (ue w1))
    as [H12 Ht2].
  { destruct (_ =? _).
    - apply bind_Ok in H2 as ([p w0] & Hp & H2). injection H2 as <- <-.
      apply createPdn_frame in Hp. split.
      + eapply (cursorStep_trans 0 0); [|apply helperFrame_cursor, Hp].
        cursor_same.
      + apply helperFrame_task in Hp. exact Hp.
    - injection H2 as <- <-. split; [apply cursorStep_refl | reflexivity]. }
  apply helperFrame_cursor in H1, H5.
  apply (cursorStep_trans 0 1 _ _ _ H1).
  apply (cursorStep_trans 0 1 _ _ _ H12).
  eapply (cursorStep_trans 0 1); [|eapply (cursorStep_trans 0 1); [exact H5|]];
    [cursor_same|].
  eapply (cursorStep_trans 0 1); [|eapply (finish_cursor_task _ n); simpl; congruence].
  cursor_same.
Qed.

Lemma handleIncReqMsg_cursor (m : GtpMsg) (data : UdpData_t) (now2 : Time_t) w
    (r : RETVAL) w' :
  handleIncReqMsg m data now2 w = Ok (r, w') -> cursorStep 2 w w'.
Proof.
  unfold handleIncReqMsg. intros H.
  apply bind_Ok in H as (expected & _ & H).
  destruct expected.
  - apply bind_Ok in H as (w6 & H6 & H).
    apply bind_Ok in H as ([ret w7] & H7 & H).
    injection H as <- <-.
    apply (cursorStep_trans 1 1 _ w6); [eapply acceptReq_cursor, H6|].
    eapply run_timer_cursor, H7.
  - apply (cursorStep_weaken 0 2); [lia|].
    destruct (isPrevProcReq _ _);
      apply bind_Ok in H as (w1 & H1 & H); injection H as <- <-.
    + apply resendPrevRsp_cursor, H1.
    + cursor_helper H1. exact H1.
Qed.

Lemma finish_cursor_next w (n : nat) :
  jobSeq_at (jobSeq w) (u32 (m_currTaskIndx (ue w) + 1)) = Some n ->
  cursorStep 1 w (UE_SSN_FINISH_TASK w).
Proof.
  intros Hn Hinv. apply finish_cursor; [|exact Hinv].
  destruct Hinv as (Hlen & Hidx & _). apply jobSeq_at_Some in Hn.
  rewrite u32_small in Hn by lia. lia.
Qed.

Lemma isExpectedRsp_next (m : GtpMsg) w :
  isExpectedRsp m w = Ok true ->
  exists n : nat, jobSeq_at (jobSeq w) (u32 (m_currTaskIndx (ue w) + 1)) = Some n.
Proof.
  intros H. apply isExpectedRsp_iff in H as (n & _ & _ & Hn & _). eauto.
Qed.

Lemma handleIncRspMsg_cursor (m : GtpMsg) (data : UdpData_t) w (r : RETVAL) w' :
  handleIncRspMsg m data w = Ok (r, w') -> cursorStep 2 w w'.
Proof.
  unfold handleIncRspMsg. intros H.
  apply bind_Ok in H as (expected & Hexp & H).
  destruct expected.
  - apply isExpectedRsp_next in Hexp as [n1 Hn1].
    apply bind_Ok in H as (w3 & H3 & H).
    apply bind_Ok in H as (w4 & H4 & H).
    injection H as <- <-.
    destruct (updJob_Some _ _ _ _ H3) as [n Hn]. simpl in Hn.
    apply updJob_frame in H3; [|apply inc_shape; tauto].
    apply decAndStore_frame in H4.
    pose proof (helperFrame_task _ _ H3) as Ht3. simpl in Ht3.
    pose proof (helperFrame_task _ _ H4) as Ht4.
    apply helperFrame_cursor in H3, H4.
    eapply (cursorStep_trans 0 2); [|eapply (cursorStep_trans 1 1);
      [eapply (finish_cursor_next _ n1); exact Hn1|]]; [cursor_same|].
    apply (cursorStep_trans 0 1 _ _ _ H3).
    apply (cursorStep_trans 0 1 _ _ _ H4).
    eapply (cursorStep_trans 0 1);
      [|eapply (finish_completed_cursor _ n); simpl; congruence].
    cursor_same.
  - apply (cursorStep_weaken 0 2); [lia|].
    destruct (isPrevProcRsp _ _);
      apply bind_Ok in H as (w1 & H1 & H); injection H as <- <-;
      cursor_helper H1; exact H1.
Qed.

Lemma handleRecv_cursor (data : UdpData_t) (now2 : Time_t) w (r : RETVAL) w' :
  handleRecv data now2 w = Ok (r, w') -> cursorStep 2 w w'.
Proof.
  unfold handleRecv. intros H.
  apply bind_Ok in H as ([ret w1] & H1 & H). injection H as <- <-.
  assert (cursorStep 2 w w1) as H01.
  { destruct (gtpGetMsgCategory _).
    - injection H1 as <- <-. apply (cursorStep_weaken 0 2); [lia|].
      apply cursorStep_refl.
    - eapply handleIncReqMsg_cursor, H1.
    - eapply handleIncRspMsg_cursor, H1. }
  apply (cursorStep_trans 2 0 _ _ _ H01). cursor_same.
Qed.

Lemma run_cursor (arg : option UdpData_t) (now now2 : Time_t) w (r : RETVAL) w' :
  run arg now now2 w = Ok (r, w') -> cursorStep 2 w w'.
Proof.
  unfold run. intros H. destruct arg as [data|].
  - apply (cursorStep_trans 0 2 _ _ _ (run_enter_cursor now w)).
    destruct (chkComplete _).
    + apply bind_Ok in H as ([ret w2] & H2 & H). injection H as <- <-.
      apply (cursorStep_weaken 0 2); [lia|]. eapply handleDeadCall_cursor, H2.
    + eapply handleRecv_cursor, H.
  - apply (cursorStep_weaken 1 2); [lia|]. eapply run_timer_cursor, H.
Qed.

Lemma initWorld_cursor (cfg : Config) (ift : GtpIfType_t)
    (jobs : list (Job (GtpMsg := GtpMsg))) (imsi : GtpImsiKey) :
  Z.of_nat (length jobs) + 2 < 2 ^ 32 -> cursorInv (initWorld cfg ift jobs imsi).
Proof.
  intros Hlen. unfold cursorInv. simpl. repeat split; try lia.
  discriminate.
Qed.

Lemma reachable_cursor w0 w : cursorInv w0 -> reachable w0 w -> cursorInv w.
Proof.
  intros H0 Hreach. induction Hreach as [|w arg now now2 w' _ IH Hrun].
  - exact H0.
  - apply (run_cursor _ _ _ _ _ _ Hrun), IH.
Qed.

(** ** Datagrams sent *)

Lemma helperFrame_netOut w w' : helperFrame w w' -> netOut w' = netOut w.
Proof. intros (_ & _ & _ & _ & Hn & _). exact Hn. Qed.

Lemma sends_none w w' : netOut w' = netOut w -> sendsAtMostOne w w'.
Proof. intros Hn. left. exact Hn. Qed.

Lemma sends_none_l w w1 w' :
  netOut w1 = netOut w -> sendsAtMostOne w1 w' -> sendsAtMostOne w w'.
Proof. unfold sendsAtMostOne. intros ->. trivial. Qed.

Lemma sends_none_r w w1 w' :
  sendsAtMostOne w w1 -> netOut w' = netOut w1 -> sendsAtMostOne w w'.
Proof. unfold sendsAtMostOne. intros H ->. exact H. Qed.

Lemma handleOutReqMsg_sends w (r : RETVAL) w' :
  handleOutReqMsg w = Ok (r, w') ->
  exists b : Buffer,
    netOut w' = netOut w ++ [mkUdpData b 0 (m_peerEp (ue w'))] /\
    proc_sentMsg (m_currUeProc (ue w')) = Some (mkUdpData b 0 (m_peerEp (ue w'))).
Proof.
  unfold handleOutReqMsg, generateSeqNum. intros H.
  apply bind_Ok in H as (gtpMsg & _ & H).
  apply bind_Ok in H as ([pPdn w1] & H1 & H).
  apply bind_Ok in H as (w2 & H2 & H). simpl in H.
  apply bind_Ok in H as ([b w5] & H5 & H).
  apply bind_Ok in H as (w7 & H7 & H).
  injection H as <- <-.
  apply createBearers_frame in H2. apply encGtpcOutMsg_frame in H5.
  apply updJob_frame in H7; [|apply inc_shape; tauto].
  assert (netOut w1 = netOut w) as H01.
  { destruct (_ =? _).
    - apply bind_Ok in H1 as ([p w0] & Hp & H1). injection H1 as <- <-.
      apply createPdn_frame, helperFrame_netOut in Hp. exact Hp.
    - injection H1 as <- <-. reflexivity. }
  pose proof (f_equal m_peerEp (proj1 H7)) as Hep. simpl in Hep.
  apply helperFrame_netOut in H2, H5, H7. simpl in *.
  exists b. rewrite Hep, H7, H5, H2, H01. split; reflexivity.
Qed.

Lemma handleOutReqTimeout_sends w (r : RETVAL) w' :
  handleOutReqTimeout w = Ok (r, w') -> sendsAtMostOne w w'.
Proof.
  unfold handleOutReqTimeout. intros H.
  destruct (_ <=? _).
  - injection H as <- <-. left. reflexivity.
  - apply bind_Ok in H as (d & _ & H).
    apply bind_Ok in H as (w2 & H2 & H).
    injection H as <- <-.
    apply updJob_frame, helperFrame_netOut in H2; [|apply inc_shape; tauto].
    right. eexists. simpl. rewrite H2. reflexivity.
Qed.

Lemma handleCompletedTask_netOut w : netOut (handleCompletedTask w) = netOut w.
Proof. reflexivity. Qed.

Lemma handleOutRspMsg_sends w (r : RETVAL) w' :
  handleOutRspMsg w = Ok (r, w') ->
  exists (b : Buffer) (tun : GtpcTun),
    derefCTun (m_pCurrPdn (ue w)) w = Ok tun /\
    netOut w' =
      netOut w ++ [mkUdpData b (proc_connId (m_currUeProc (ue w))) (ctun_peerEp tun)] /\
    proc_sentMsg (m_prevUeProc (ue w')) =
      Some (mkUdpData b (proc_connId (m_currUeProc (ue w))) (ctun_peerEp tun)).
Proof.
  unfold handleOutRspMsg. intros H.
  apply bind_Ok in H as ([b w1] & H1 & H).
  apply bind_Ok in H as (tun & Htun & H).
  apply bind_Ok in H as (w3 & H3 & H).
  apply bind_Ok in H as (gtpMsg & _ & H).
  injection H as <- <-.
  destruct (m_currTask (ue w)) as [n|] eqn:Hn; [|discriminate].
  apply encGtpcOutMsg_inv in H1 as (job & m3 & _ & -> & ->).
  apply updJob_frame in H3; [|apply inc_shape; tauto].
  apply helperFrame_netOut in H3. simpl in *.
  exists (msgEncode m3), tun. split; [exact Htun|].
  destruct (IS_SCN_COMPLETED _); simpl; rewrite H3; split; reflexivity.
Qed.

Lemma handleSend_sends w (r : RETVAL) w' :
  handleSend w = Ok (r, w') -> sendsAtMostOne w w'.
Proof.
  unfold handleSend. intros H.
  destruct (chkWaiting w).
  - apply bind_Ok in H as ([ret w1] & H1 & H).
    apply handleOutReqTimeout_sends in H1.
    destruct (RETVAL_eqb _ _).
    + apply bind_Ok in H as (w2 & H2 & H). injection H as <- <-.
      apply updJob_frame, helperFrame_netOut in H2; [|apply inc_shape; tauto].
      eapply sends_none_r; [exact H1|]. simpl. exact H2.
    + injection H as <- <-. exact H1.
  - apply bind_Ok in H as (gtpMsg & _ & H).
    destruct (gtpGetMsgCategory _);
      apply bind_Ok in H as ([ret w1] & H1 & H);
      first [ apply handleOutReqMsg_sends in H1 as (b & H1 & _)
            | apply handleOutRspMsg_sends in H1 as (b & tun & _ & H1 & _) ];
      destruct (RETVAL_eqb _ _); injection H as <- <-;
      right; eexists; simpl; exact H1.
Qed.

Lemma handleWait_netOut w (r : RETVAL) w' :
  handleWait w = Ok (r, w') -> netOut w' = netOut w.
Proof.
  unfold handleWait. intros H. apply bind_Ok in H as (job & _ & H).
  injection H as <- <-. reflexivity.
Qed.

Lemma resendPrevRsp_sends w w' : resendPrevRsp w = Ok w' -> sendsAtMostOne w w'.
Proof.
  unfold resendPrevRsp. intros H.
  apply bind_Ok in H as (w1 & H1 & H).
  apply bind_Ok in H as (d & _ & H). injection H as <-.
  apply updJob_frame, helperFrame_netOut in H1; [|apply inc_shape; tauto].
  right. eexists. simpl. rewrite H1. reflexivity.
Qed.

Lemma handleDeadCall_sends (arg : option UdpData_t) w (r : RETVAL) w' :
  handleDeadCall arg w = Ok (r, w') -> sendsAtMostOne w w'.
Proof.
  unfold handleDeadCall. intros H.
  destruct arg as [data|].
  - destruct (gtpGetMsgCategory _).
    + injection H as <- <-. left. reflexivity.
    + destruct (isPrevProcReq _ _).
      * apply bind_Ok in H as (w1 & H1 & H). injection H as <- <-.
        apply resendPrevRsp_sends, H1.
      * injection H as <- <-. left. reflexivity.
    + destruct (isPrevProcRsp _ _).
      * apply bind_Ok in H as (w1 & H1 & H). injection H as <- <-.
        left. eapply helperFrame_netOut, updJob_frame, H1. apply inc_shape; tauto.
      * injection H as <- <-. left. reflexivity.
  - destruct (_ <=? _); injection H as <- <-; left; reflexivity.
Qed.

Lemma run_timer_sends (now : Time_t) w (r : RETVAL) w' :
  run_timer now w = Ok (r, w') -> sendsAtMostOne w w'.
Proof.
  unfold run_timer. intros H.
  apply (sends_none_l w (run_enter now w)); [reflexivity|].
  destruct (chkComplete _).
  - apply bind_Ok in H as ([ret w2] & H2 & H). injection H as <- <-.
    eapply handleDeadCall_sends, H2.
  - apply bind_Ok in H as (job & _ & H).
    destruct (job_type job).
    + injection H as <- <-. left. reflexivity.
    + eapply handleSend_sends, H.
    + injection H as <- <-. left. reflexivity.
    + left. eapply handleWait_netOut, H.
Qed.

Lemma acceptReq_netOut (m : GtpMsg) (data : UdpData_t) w w' :
  acceptReq m data w = Ok w' -> netOut w' = netOut w.
Proof.
  unfold acceptReq, updatePeerSeqNumber. intros H.
  apply bind_Ok in H as (w1 & H1 & H).
  apply bind_Ok in H as ([pdn w2] & H2 & H).
  apply bind_Ok in H as (w5 & H5 & H).
  injection H as <-.
  apply updJob_frame, helperFrame_netOut in H1; [|apply inc_shape; tauto].
  apply decAndStore_frame, helperFrame_netOut in H5.
  assert (netOut w2 = netOut w1) as H12.
  { destruct (_ =? _).
    - apply bind_Ok in H2 as ([p w0] & Hp & H2). injection H2 as <- <-.
      apply createPdn_frame, helperFrame_netOut in Hp. exact Hp.
    - injection H2 as <- <-. reflexivity. }
  simpl in *. congruence.
Qed.

Lemma handleIncReqMsg_sends (m : GtpMsg) (data : UdpData_t) (now2 : Time_t) w
    (r : RETVAL) w' :
  handleIncReqMsg m data now2 w = Ok (r, w') -> sendsAtMostOne w w'.
Proof.
  unfold handleIncReqMsg. intros H.
  apply bind_Ok in H as (expected & _ & H).
  destruct expected.
  - apply bind_Ok in H as (w6 & H6 & H).
    apply bind_Ok in H as ([ret w7] & H7 & H).
    injection H as <- <-.
    eapply sends_none_l; [eapply acceptReq_netOut, H6 | eapply run_timer_sends, H7].
  - destruct (isPrevProcReq _ _);
      apply bind_Ok in H as (w1 & H1 & H); injection H as <- <-.
    + apply resendPrevRsp_sends, H1.
    + left. eapply helperFrame_netOut, updJob_frame, H1. apply inc_shape; tauto.
Qed.

Lemma handleIncRspMsg_netOut (m : GtpMsg) (data : UdpData_t) w (r : RETVAL) w' :
  handleIncRspMsg m data w = Ok (r, w') -> netOut w' = netOut w.
Proof.
  unfold handleIncRspMsg. intros H.
  apply bind_Ok in H as (expected & _ & H).
  destruct expected.
  - apply bind_Ok in H as (w3 & H3 & H).
    apply bind_Ok in H as (w4 & H4 & H).
    injection H as <- <-.
    apply updJob_frame, helperFrame_netOut in H3; [|apply inc_shape; tauto].
    apply decAndStore_frame, helperFrame_netOut in H4.
    destruct (IS_SCN_COMPLETED _); simpl in *; congruence.
  - destruct (isPrevProcRsp _ _);
      apply bind_Ok in H as (w1 & H1 & H); injection H as <- <-;
      (eapply helperFrame_netOut, updJob_frame; [|exact H1]); apply inc_shape; tauto.
Qed.

Lemma handleRecv_sends (data : UdpData_t) (now2 : Time_t) w (r : RETVAL) w' :
  handleRecv data now2 w = Ok (r, w') -> sendsAtMostOne w w'.
Proof.
  unfold handleRecv. intros H.
  apply bind_Ok in H as ([ret w1] & H1 & H). injection H as <- <-.
  apply (sends_none_r w w1); [|reflexivity].
  destruct (gtpGetMsgCategory _).
  - injection H1 as <- <-. left. reflexivity.
  - eapply handleIncReqMsg_sends, H1.
  - left. eapply handleIncRspMsg_netOut, H1.
Qed.

(** X1. A run of the session, with a datagram or on its timer, hands
    at most one datagram to the transport, and takes nothing back from what
    was sent. *)
Theorem run_sends_at_most_one (arg : option UdpData_t) (now now2 : Time_t) w
    (r : RETVAL) w' :
  run arg now now2 w = Ok (r, w') ->
  netOut w' = netOut w \/ exists d : UdpData_t, netOut w' = netOut w ++ [d].
Proof.
  unfold run. intros H. destruct arg as [data|].
  - apply (sends_none_l w (run_enter now w)); [reflexivity|].
    destruct (chkComplete _).
    + apply bind_Ok in H as ([ret w2] & H2 & H). injection H as <- <-.
      eapply handleDeadCall_sends, H2.
    + eapply handleRecv_sends, H.
  - eapply run_timer_sends, H.
Qed.

Lemma jobShape_types (jobs jobs' : list (Job (GtpMsg := GtpMsg))) :
  jobShape jobs' = jobShape jobs ->
  map job_type jobs' = map job_type jobs /\ map job_wait jobs' = map job_wait jobs.
Proof.
  unfold jobShape. intros Hs. split.
  - apply (f_equal (map fst)) in Hs. rewrite !map_map in Hs. exact Hs.
  - apply (f_equal (map snd)) in Hs. rewrite !map_map in Hs. exact Hs.
Qed.

(** X2. Whatever a run does, it leaves what was fixed when the session
    was made: the retry limit, the T3 and dead-call durations, the IMSI, the
    session id, the default peer, the configuration and the interface type;
    and it leaves the scenario its shape: the number of jobs, their kinds
    and the durations of the Wait jobs (counters and message templates are
    all it writes to in a job). *)
Theorem run_keeps_static (arg : option UdpData_t) (now now2 : Time_t) w
    (r : RETVAL) w' :
  run arg now now2 w = Ok (r, w') ->
  m_n3req (ue w') = m_n3req (ue w) /\
  m_t3time (ue w') = m_t3time (ue w) /\
  m_deadCallWait (ue w') = m_deadCallWait (ue w) /\
  m_imsiKey (ue w') = m_imsiKey (ue w) /\
  m_sessionId (ue w') = m_sessionId (ue w) /\
  m_peerEp (ue w') = m_peerEp (ue w) /\
  config w' = config w /\ ifType w' = ifType w /\
  length (jobSeq w') = length (jobSeq w) /\
  map job_type (jobSeq w') = map job_type (jobSeq w) /\
  map job_wait (jobSeq w') = map job_wait (jobSeq w).
Proof.
  intros H. apply run_keeps in H as [Hs _].
  unfold staticView in Hs. injection Hs. intros _ Hshape. intros.
  destruct (jobShape_types _ _ Hshape) as [Ht Hw].
  apply jobShape_length in Hshape. auto 12.
Qed.

(** X3. In every state a fresh session reaches, and after every run from
    such a state, whether it ends the session or not, the sessions created
    equal the sessions completed plus the sessions in flight, as 32-bit
    values; failed sessions are not in this balance. The counter of dead
    calls is never written. *)
Theorem session_counters_balance (cfg : Config) (ift : GtpIfType_t)
    (jobs : list Job) (imsi : GtpImsiKey) w (arg : option UdpData_t)
    (now now2 : Time_t) (r : RETVAL) w' :
  reachable (initWorld cfg ift jobs imsi) w ->
  run arg now now2 w = Ok (r, w') ->
  ((NUM_SESSIONS_CREATED (stats w) - NUM_SESSIONS_SUCC (stats w)
    - NUM_SESSIONS (stats w)) mod 2 ^ 32 = 0 /\
   NUM_DEADCALLS (stats w) = 0) /\
  ((NUM_SESSIONS_CREATED (stats w') - NUM_SESSIONS_SUCC (stats w')
    - NUM_SESSIONS (stats w')) mod 2 ^ 32 = 0 /\
   NUM_DEADCALLS (stats w') = 0).
Proof.
  intros Hreach Hrun.
  apply reachable_keeps in Hreach as [_ [Hb Hd]].
  apply run_keeps in Hrun as [_ [Hb' Hd']].
  simpl in Hb, Hd. rewrite Hb', Hd', Hb, Hd. auto.
Qed.

(** X4. With a scenario of fewer than [2 ^ 32 - 2] jobs, in every state a
    fresh session reaches [m_currTaskIndx] is between 0 and the number of
    jobs, [m_currTask] is the job at that index (or what is read at the end of
    the vector), and [SCENARIO_COMPLETE] is set only at the end of the
    scenario. A run moves [m_currTaskIndx] forward by at most two jobs and
    never back. *)
Theorem cursor_in_range (cfg : Config) (ift : GtpIfType_t) (jobs : list Job)
    (imsi : GtpImsiKey) w :
  Z.of_nat (length jobs) + 2 < 2 ^ 32 ->
  reachable (initWorld cfg ift jobs imsi) w ->
  0 <= m_currTaskIndx (ue w) <= Z.of_nat (length (jobSeq w)) /\
  length (jobSeq w) = length jobs /\
  m_currTask (ue w) = jobSeq_at (jobSeq w) (m_currTaskIndx (ue w)) /\
  (chkComplete w = true -> m_currTaskIndx (ue w) = Z.of_nat (length (jobSeq w))) /\
  (forall (arg : option UdpData_t) (now now2 : Time_t) (r : RETVAL) w',
     run arg now now2 w = Ok (r, w') ->
     m_currTaskIndx (ue w) <= m_currTaskIndx (ue w') <= m_currTaskIndx (ue w) + 2 /\
     m_currTaskIndx (ue w') <= Z.of_nat (length (jobSeq w'))).
Proof.
  intros Hlen Hreach.
  pose proof (reachable_cursor _ _ (initWorld_cursor cfg ift jobs imsi Hlen) Hreach)
    as Hinv.
  pose proof (reachable_keeps _ _ Hreach) as [Hs _].
  assert (length (jobSeq w) = length jobs) as Hshape.
  { unfold staticView in Hs. injection Hs. intros _ Hshape _ _ _ _ _ _ _ _ _.
    apply jobShape_length in Hshape. exact Hshape. }
  pose proof Hinv as (Hl & Hidx & Htask & Hcompl).
  split; [exact Hidx|]. split; [exact Hshape|]. split; [exact Htask|].
  split; [exact Hcompl|].
  intros arg now now2 r w' Hrun.
  destruct (run_cursor _ _ _ _ _ _ Hrun Hinv) as [(_ & Hi' & _) Hb].
  split; lia.
Qed.

(** ** Dead calls, datagrams, Wait jobs *)

Lemma updJob_inv (f : Job -> Job) (p : option nat) w w' :
  updJob f p w = Ok w' ->
  exists n : nat, p = Some n /\ w' = set_jobSeq (alter f n (jobSeq w)) w.
Proof.
  unfold updJob. destruct p as [n|]; simpl; [|discriminate].
  destruct (jobSeq w !! n); simpl; [|discriminate].
  intros [= <-]. eauto.
Qed.

Lemma handleDeadCall_inv (arg : option UdpData_t) w (r : RETVAL) w' :
  handleDeadCall arg w = Ok (r, w') ->
  ue w' = ue w /\ stats w' = stats w /\ cTuns w' = cTuns w /\
  (arg = None -> w' = w).
Proof.
  unfold handleDeadCall, resendPrevRsp. intros H.
  destruct arg as [data|].
  - destruct (gtpGetMsgCategory _).
    + injection H as <- <-. repeat split; discriminate.
    + destruct (isPrevProcReq _ _).
      * apply bind_Ok in H as (w1 & H1 & H). injection H as <- <-.
        apply bind_Ok in H1 as (w2 & H2 & H1).
        apply bind_Ok in H1 as (d & _ & H1). injection H1 as <-.
        apply updJob_inv in H2 as (n & _ & ->). repeat split; discriminate.
      * injection H as <- <-. repeat split; discriminate.
    + destruct (isPrevProcRsp _ _).
      * apply bind_Ok in H as (w1 & H1 & H). injection H as <- <-.
        apply updJob_inv in H1 as (n & _ & ->). repeat split; discriminate.
      * injection H as <- <-. repeat split; discriminate.
  - destruct (_ <=? _); injection H as <- <-; repeat split; reflexivity.
Qed.

(** X5. Once [SCENARIO_COMPLETE] is set, a run returns [ROK] whatever
    [handleDeadCall] found, also when the dead-call time has passed: it never
    asks for the session to be ended. It records the time of the run and
    marks the task running; the position in the scenario, the flags, the wake
    time, the procedures, the statistics and the tunnels stay as they are, and
    a run on the timer changes nothing else at all. *)
Theorem run_dead_call (arg : option UdpData_t) (now now2 : Time_t) w
    (r : RETVAL) w' :
  chkComplete w = true ->
  run arg now now2 w = Ok (r, w') ->
  r = ROK /\
  ue w' = set_m_taskState TASK_STATE_RUNNING (set_m_lastRunTime now (ue w)) /\
  chkComplete w' = true /\
  m_currTaskIndx (ue w') = m_currTaskIndx (ue w) /\
  m_wakeTime (ue w') = m_wakeTime (ue w) /\
  stats w' = stats w /\ cTuns w' = cTuns w /\
  (arg = None -> w' = run_enter now w).
Proof.
  intros Hc H.
  assert (chkComplete (run_enter now w) = true) as Hc1 by exact Hc.
  assert (handleDeadCall arg (run_enter now w) ≫=
            (fun '(_, w2) => Ok (ROK, w2)) = Ok (r, w')) as Hd.
  { unfold run, run_timer in H. destruct arg as [data|]; rewrite Hc1 in H; exact H. }
  apply bind_Ok in Hd as ([ret w2] & H2 & Hd). injection Hd as <- <-.
  apply handleDeadCall_inv in H2 as (Hue & Hst & Htun & Hnone).
  split; [reflexivity|]. split; [exact Hue|].
  unfold chkComplete in *. rewrite Hue. simpl.
  repeat split; try assumption.
Qed.

Lemma handleIncReqMsg_ret (m : GtpMsg) (data : UdpData_t) (now2 : Time_t) w
    (r : RETVAL) w' :
  handleIncReqMsg m data now2 w = Ok (r, w') -> r = ROK.
Proof.
  unfold handleIncReqMsg. intros H.
  apply bind_Ok in H as (expected & _ & H).
  destruct expected.
  - apply bind_Ok in H as (w6 & _ & H).
    apply bind_Ok in H as ([ret w7] & _ & H). injection H as <- _. reflexivity.
  - destruct (isPrevProcReq _ _);
      apply bind_Ok in H as (w1 & _ & H); injection H as <- _; reflexivity.
Qed.

Lemma handleIncRspMsg_ret (m : GtpMsg) (data : UdpData_t) w (r : RETVAL) w' :
  handleIncRspMsg m data w = Ok (r, w') -> r = ROK.
Proof.
  unfold handleIncRspMsg. intros H.
  apply bind_Ok in H as (expected & _ & H).
  destruct expected.
  - apply bind_Ok in H as (w3 & _ & H).
    apply bind_Ok in H as (w4 & _ & H). injection H as <- _. reflexivity.
  - destruct (isPrevProcRsp _ _);
      apply bind_Ok in H as (w1 & _ & H); injection H as <- _; reflexivity.
Qed.

(** X6. A run on a datagram returns [ROK]: no datagram, expected or not,
    makes the session ask to be ended, not even a request whose response
    fails to go out in the re-entered [run]. While the scenario is not
    complete such a run leaves [m_wakeTime] at 0. *)
Theorem run_datagram_returns_ROK (data : UdpData_t) (now now2 : Time_t) w
    (r : RETVAL) w' :
  run (Some data) now now2 w = Ok (r, w') ->
  r = ROK /\ (chkComplete w = false -> m_wakeTime (ue w') = 0).
Proof.
  intros H. destruct (chkComplete w) eqn:Hc.
  - unfold run in H.
    assert (chkComplete (run_enter now w) = true) as Hc1 by exact Hc.
    rewrite Hc1 in H.
    apply bind_Ok in H as ([ret w2] & _ & H). injection H as <- _.
    split; [reflexivity | discriminate].
  - unfold run in H.
    assert (chkComplete (run_enter now w) = false) as Hc1 by exact Hc.
    rewrite Hc1 in H. unfold handleRecv in H.
    apply bind_Ok in H as ([ret w1] & H1 & H). injection H as <- <-.
    split; [|reflexivity].
    destruct (gtpGetMsgCategory _).
    + injection H1 as <- _. reflexivity.
    + eapply handleIncReqMsg_ret, H1.
    + eapply handleIncRspMsg_ret, H1.
Qed.

(** X7. A response, the expected one included, leaves [m_retryCnt] as it
    is: the retransmissions of one request are not given back when its
    response comes in, and count against the next request of the session. *)
Theorem response_keeps_retry_count (rspMsg : GtpMsg) (rcvdData : UdpData_t) w
    (r : RETVAL) w' :
  handleIncRspMsg rspMsg rcvdData w = Ok (r, w') ->
  m_retryCnt (ue w') = m_retryCnt (ue w).
Proof. intros H. apply handleIncRspMsg_retry in H as [Hr _]. exact Hr. Qed.

(** X8. A run on the timer with a Wait job as the current job, the
    scenario not being complete, sets [m_wakeTime] to the time of the run plus
    the duration of the job, moves to the next job and pauses the task. It
    sends nothing and does not look whether the scenario is complete: the
    flags and the statistics are as before, also when the Wait job is the
    last job. *)
Theorem run_timer_wait_job (now now2 : Time_t) w (n : nat) job :
  chkComplete w = false ->
  m_currTask (ue w) = Some n ->
  jobSeq w !! n = Some job ->
  job_type job = JOB_TYPE_WAIT ->
  exists w',
    run None now now2 w = Ok (ROK, w') /\
    m_wakeTime (ue w') = u64 (now + job_wait job) /\
    m_lastRunTime (ue w') = now /\
    m_currTaskIndx (ue w') = u32 (m_currTaskIndx (ue w) + 1) /\
    m_taskState (ue w') = TASK_STATE_PAUSED /\
    m_bitmask (ue w') = m_bitmask (ue w) /\
    chkComplete w' = false /\
    netOut w' = netOut w /\ stats w' = stats w /\ jobSeq w' = jobSeq w.
Proof.
  intros Hc Hn Hjob Hty.
  assert (chkComplete (run_enter now w) = false) as Hc1 by exact Hc.
  eexists. split.
  - unfold run, run_timer. rewrite Hc1. unfold derefJob. simpl.
    rewrite Hn. simpl. rewrite Hjob. simpl. rewrite Hty.
    unfold handleWait, derefJob. simpl. rewrite Hn. simpl. rewrite Hjob. simpl.
    reflexivity.
  - simpl. repeat split; try reflexivity. exact Hc.
Qed.

(** ** PDNs, tunnels, bearers *)

(** X9. On the S11 interface, when the session already has a PDN, a new
    PDN gets the control tunnel of the last PDN of the list: the PDN is added
    at the end of the list and becomes the current one, the reference count of
    that tunnel goes up by one, no tunnel is made and no TEID is taken; the
    tunnel keeps pointing back to the PDN it was made for. *)
Theorem createPdn_S11_shares_tunnel w (pdn : GtpcPdn) (t : nat) (tun : GtpcTun) :
  ifType w = GTP_IF_S11_C_MME ->
  last (m_pdnLst (ue w)) = Some pdn ->
  pCTun pdn = Some t ->
  cTuns w !! t = Some tun ->
  exists w',
    createPdn w = Ok (length (m_pdnLst (ue w)), w') /\
    m_pdnLst (ue w') = m_pdnLst (ue w) ++ [mkGtpcPdn (Some t) 0] /\
    m_pCurrPdn (ue w') = Some (length (m_pdnLst (ue w))) /\
    cTuns w' !! t = Some (inc_refCount tun) /\
    ctun_refCount (inc_refCount tun) = u32 (ctun_refCount tun + 1) /\
    ctun_pPdn (inc_refCount tun) = ctun_pPdn tun /\
    length (cTuns w') = length (cTuns w) /\
    (forall i : nat, i <> t -> cTuns w' !! i = cTuns w !! i) /\
    teidCtr w' = teidCtr w.
Proof.
  intros Hif Hlast Ht Htun. eexists. split.
  - unfold createPdn, createCTun, getS11S4CTun.
    rewrite Hif, Hlast, Ht, Htun. simpl. reflexivity.
  - simpl. rewrite list_lookup_alter_eq, Htun, length_alter.
    repeat split; try reflexivity.
    intros i Hi. apply list_lookup_alter_ne. congruence.
Qed.

(** X10. On an interface other than S11, or for the first PDN of the
    session, a new PDN gets a tunnel of its own: the tunnel is new, points
    back to the new PDN, and the tunnels there were are untouched. The PDN is
    added at the end of the list and becomes the current one. *)
Theorem createPdn_own_tunnel w :
  ifType w = GTP_IF_OTHER \/ m_pdnLst (ue w) = [] ->
  exists w' (tun : GtpcTun),
    createPdn w = Ok (length (m_pdnLst (ue w)), w') /\
    m_pdnLst (ue w') = m_pdnLst (ue w) ++ [mkGtpcPdn (Some (length (cTuns w))) 0] /\
    m_pCurrPdn (ue w') = Some (length (m_pdnLst (ue w))) /\
    cTuns w' = cTuns w ++ [tun] /\
    ctun_pPdn tun = length (m_pdnLst (ue w)) /\
    (forall i : nat, (i < length (cTuns w))%nat -> cTuns w' !! i = cTuns w !! i).
Proof.
  intros Hcase.
  assert (createCTun (length (m_pdnLst (ue w))) w
          = Ok (allocCTun (length (m_pdnLst (ue w))) w)) as Hc.
  { unfold createCTun, getS11S4CTun. destruct Hcase as [-> | ->]; [reflexivity|].
    destruct (ifType w); reflexivity. }
  eexists. eexists. split.
  - unfold createPdn. rewrite Hc. unfold allocCTun, GtpcTun_new. simpl. reflexivity.
  - simpl. repeat split; try reflexivity.
    intros i Hi. apply lookup_app_l. exact Hi.
Qed.









(** ** The job after the current one *)

Lemma jobSeq_at_u32_None (jobs : list (Job (GtpMsg := GtpMsg))) (x : Z) :
  Z.of_nat (length jobs) <= u32 x -> jobSeq_at jobs (u32 x) = None.
Proof. intros Hge. apply jobSeq_at_None. lia. Qed.

(** X12. When no job follows the current one, [nextTaskType], which
    compares the index with the size of the vector first, answers
    [JOB_TYPE_INV]; [isExpectedRsp] reads the vector at the same index
    without that test, so the handling of any response datagram in such a
    state goes through a pointer read past the end of the job sequence. *)
Theorem no_next_job (rspMsg : GtpMsg) (data : UdpData_t) (now2 : Time_t) w :
  Z.of_nat (length (jobSeq w)) <= u32 (m_currTaskIndx (ue w) + 1) ->
  nextTaskType w = JOB_TYPE_INV /\
  isExpectedRsp rspMsg w = Fault /\
  handleIncRspMsg rspMsg data w = Fault /\
  (gtpGetMsgCategory (msgType (msgOfBuffer (buf data))) = GTP_MSG_CAT_RSP ->
   handleRecv data now2 w = Fault).
Proof.
  intros Hge.
  assert (isExpectedRsp rspMsg w = Fault) as Hexp.
  { unfold isExpectedRsp. rewrite (jobSeq_at_u32_None _ _ Hge). reflexivity. }
  assert (forall m, handleIncRspMsg m data w = Fault) as Hrsp.
  { intros m. unfold handleIncRspMsg, isExpectedRsp.
    rewrite (jobSeq_at_u32_None _ _ Hge). reflexivity. }
  split; [|split; [exact Hexp | split; [apply Hrsp|]]].
  - unfold nextTaskType. apply Z.ltb_ge in Hge. rewrite Hge. reflexivity.
  - intros Hcat. unfold handleRecv. rewrite Hcat, Hrsp. reflexivity.
Qed.

(** When a job follows, [nextTaskType] is its kind. *)
Lemma nextTaskType_next w (n : nat) job :
  jobSeq_at (jobSeq w) (u32 (m_currTaskIndx (ue w) + 1)) = Some n ->
  jobSeq w !! n = Some job ->
  nextTaskType w = job_type job.
Proof.
  intros Hn Hjob. apply jobSeq_at_Some in Hn as [Hr ->].
  unfold nextTaskType. destruct Hr as [_ Hlt]. apply Z.ltb_lt in Hlt.
  rewrite Hlt, Hjob. reflexivity.
Qed.

End Coverage.

(** ** The session map *)

Section SessionMap.

Context {GtpMsg : Type}.

Implicit Types (reg : Registry) (jobs : list (Job (GtpMsg := GtpMsg))).

(** X13. A session made for an IMSI that is not in the session map is
    found under that IMSI afterwards; it has that IMSI and the next session
    id, and the sessions found under other IMSIs are the same as before. *)
Theorem createUeSession_lookup (cfg : Config) jobs (imsi : GtpImsiKey) reg :
  s_ueSessionMap reg !! imsi = None ->
  let '(p, reg') := createUeSession cfg jobs imsi reg in
  getUeSession imsi reg' = Some p /\
  ssnHeap reg' !! p = Some (Some (UeSession_new cfg jobs (u32 (g_sessionId reg + 1)) imsi)) /\
  m_imsiKey (UeSession_new cfg jobs (u32 (g_sessionId reg + 1)) imsi) = imsi /\
  g_sessionId reg' = u32 (g_sessionId reg + 1) /\
  (forall k : GtpImsiKey, k <> imsi -> getUeSession k reg' = getUeSession k reg) /\
  (forall q : nat, (q < length (ssnHeap reg))%nat -> ssnHeap reg' !! q = ssnHeap reg !! q).
Proof.
  intros Hfresh. unfold createUeSession, getUeSession. simpl. rewrite Hfresh.
  split; [apply lookup_insert_eq|].
  split; [apply list_lookup_middle; reflexivity|].
  split; [reflexivity|]. split; [reflexivity|]. split.
  - intros k Hk. apply lookup_insert_ne. congruence.
  - intros q Hq. apply lookup_app_l. exact Hq.
Qed.

(** X14. Making and then deleting a session for an IMSI that was not in
    the session map leaves the map as it was; the session id that was taken
    is not given back. *)
Theorem create_delete_roundtrip (cfg : Config) jobs (imsi : GtpImsiKey) reg :
  s_ueSessionMap reg !! imsi = None ->
  let '(p, reg') := createUeSession cfg jobs imsi reg in
  exists reg'',
    deleteUeSession p reg' = Ok reg'' /\
    s_ueSessionMap reg'' = s_ueSessionMap reg /\
    getUeSession imsi reg'' = None /\
    ssnHeap reg'' !! p = Some None /\
    g_sessionId reg'' = u32 (g_sessionId reg + 1).
Proof.
  intros Hfresh. unfold createUeSession, deleteUeSession, getUeSession. simpl.
  rewrite Hfresh, list_lookup_middle by reflexivity. simpl.
  eexists. split; [reflexivity|]. simpl.
  rewrite delete_insert_id by exact Hfresh.
  split; [reflexivity|]. split; [exact Hfresh|]. split; [|reflexivity].
  apply list_lookup_insert_eq. rewrite length_app. simpl. lia.
Qed.

(** X15. A session made for an IMSI that is already in the session map
    is not entered in it: the IMSI still leads to the session that was there.
    Deleting the new session then takes that entry out of the map, although
    the session it led to is still alive: it can no longer be found by its
    IMSI. *)
Theorem createUeSession_registered (cfg : Config) jobs (imsi : GtpImsiKey) reg (q : nat)
    (old : UeSession) :
  s_ueSessionMap reg !! imsi = Some q ->
  ssnHeap reg !! q = Some (Some old) ->
  let '(p, reg') := createUeSession cfg jobs imsi reg in
  p <> q /\
  getUeSession imsi reg' = Some q /\
  s_ueSessionMap reg' = s_ueSessionMap reg /\
  exists reg'',
    deleteUeSession p reg' = Ok reg'' /\
    getUeSession imsi reg'' = None /\
    ssnHeap reg'' !! q = Some (Some old).
Proof.
  intros Hreg Hold. unfold createUeSession, deleteUeSession, getUeSession. simpl.
  rewrite Hreg.
  assert (q < length (ssnHeap reg))%nat as Hq by (eapply lookup_lt_Some, Hold).
  split; [lia|]. split; [exact Hreg|]. split; [reflexivity|].
  rewrite list_lookup_middle by reflexivity. simpl.
  eexists. split; [reflexivity|]. simpl.
  split; [apply lookup_delete_eq|].
  rewrite list_lookup_insert_ne by lia.
  rewrite lookup_app_l by exact Hq. exact Hold.
Qed.

End SessionMap.

(** ** Requests going out, responses going back *)

Section Procedures.

Context {GtpMsg : Type} `{!GtpCodec GtpMsg}.

Implicit Types (w : World (GtpMsg := GtpMsg)) (job : Job (GtpMsg := GtpMsg)).

(** The fields of the session that the helpers leave alone, one by one. *)
Ltac blank_fields H :=
  let Hb := fresh "Hb" in
  pose proof (proj1 H) as Hb;
  pose proof (f_equal m_bitmask Hb);
  pose proof (f_equal m_currTaskIndx Hb);
  pose proof (f_equal m_currTask Hb);
  pose proof (f_equal m_lastRunTime Hb);
  pose proof (f_equal m_t3time Hb);
  pose proof (f_equal m_retryCnt Hb);
  pose proof (f_equal m_prevUeProc Hb);
  pose proof (f_equal m_currUeProc Hb);
  pose proof (f_equal m_peerEp Hb);
  pose proof (f_equal m_taskState Hb);
  pose proof (f_equal m_wakeTime Hb);
  pose proof (f_equal m_currReqType Hb);
  pose proof (proj1 (proj2 (proj2 (proj2 H))));
  pose proof (proj1 (proj2 (proj2 (proj2 (proj2 H)))));
  clear Hb.

Lemma handleOutReqMsg_spec w (gtpMsg : GtpMsg) (r : RETVAL) w' :
  currGtpMsg w = Ok gtpMsg ->
  handleOutReqMsg w = Ok (r, w') ->
  r = ROK /\
  m_bitmask (ue w') = GSIM_SET_MASK (m_bitmask (ue w)) GSIM_UE_SSN_WAITING_FOR_RSP /\
  m_taskState (ue w') = m_taskState (ue w) /\
  m_currTaskIndx (ue w') = m_currTaskIndx (ue w) /\
  m_currTask (ue w') = m_currTask (ue w) /\
  m_wakeTime (ue w') = u64 (m_lastRunTime (ue w) + m_t3time (ue w)) /\
  m_currReqType (ue w') = msgType gtpMsg /\
  m_retryCnt (ue w') = m_retryCnt (ue w) /\
  m_prevUeProc (ue w') = m_prevUeProc (ue w) /\
  (exists b : Buffer,
     netOut w' = netOut w ++ [mkUdpData b 0 (m_peerEp (ue w))] /\
     proc_sentMsg (m_currUeProc (ue w')) = Some (mkUdpData b 0 (m_peerEp (ue w)))) /\
  stats w' =
    (if msgType gtpMsg =? GTPC_MSG_CS_REQ
     then updStats 1 GSIM_STAT_NUM_SESSIONS
            (updStats 1 GSIM_STAT_NUM_SESSIONS_CREATED (stats w))
     else stats w).
Proof.
  unfold handleOutReqMsg, generateSeqNum. intros Hmsg H. rewrite Hmsg in H.
  simpl in H.
  apply bind_Ok in H as ([pPdn w1] & H1 & H).
  apply bind_Ok in H as (w2 & H2 & H). simpl in H.
  apply bind_Ok in H as ([b w5] & H5 & H).
  apply bind_Ok in H as (w7 & H7 & H).
  injection H as <- <-.
  apply createBearers_frame in H2. apply encGtpcOutMsg_frame in H5.
  apply updJob_frame in H7; [|apply inc_shape; tauto].
  assert (blankPdn (ue w1) = blankPdn (ue w) /\ netOut w1 = netOut w /\
          stats w1 = (if msgType gtpMsg =? GTPC_MSG_CS_REQ
                      then updStats 1 GSIM_STAT_NUM_SESSIONS
                             (updStats 1 GSIM_STAT_NUM_SESSIONS_CREATED (stats w))
                      else stats w)) as (B1 & N1 & S1).
  { destruct (_ =? _).
    - apply bind_Ok in H1 as ([p w0] & Hp & H1). injection H1 as <- <-.
      apply createPdn_frame in Hp.
      destruct Hp as (Hb & _ & _ & Hs & Hn & _). auto.
    - injection H1 as <- <-. auto. }
  blank_fields H2. blank_fields H5. blank_fields H7.
  pose proof (f_equal m_bitmask B1). pose proof (f_equal m_currTaskIndx B1).
  pose proof (f_equal m_currTask B1). pose proof (f_equal m_lastRunTime B1).
  pose proof (f_equal m_t3time B1). pose proof (f_equal m_retryCnt B1).
  pose proof (f_equal m_prevUeProc B1). pose proof (f_equal m_peerEp B1).
  pose proof (f_equal m_taskState B1).
  simpl in *.
  split; [reflexivity|].
  repeat (split; [congruence|]).
  split; [|congruence].
  exists b. split; congruence.
Qed.

(** X16. When the session is not waiting and the message of the current
    job is a request, [handleSend], if the message can be built and encoded,
    sends it on connection 0 to the default peer, keeps the datagram in
    [m_currUeProc.sentMsg], sets [WAITING_FOR_RSP], schedules the wake-up one
    T3 after this run and pauses the task. The job is not finished:
    [m_currTaskIndx] stays where it is. A Create Session Request counts one
    more session created and one more in flight; any other request leaves the
    statistics alone. *)
Theorem handleSend_request w (gtpMsg : GtpMsg) (r : RETVAL) w' :
  chkWaiting w = false ->
  currGtpMsg w = Ok gtpMsg ->
  gtpGetMsgCategory (msgType gtpMsg) = GTP_MSG_CAT_REQ ->
  handleSend w = Ok (r, w') ->
  r = ROK /\
  chkWaiting w' = true /\
  m_taskState (ue w') = TASK_STATE_PAUSED /\
  m_currTaskIndx (ue w') = m_currTaskIndx (ue w) /\
  m_currTask (ue w') = m_currTask (ue w) /\
  m_wakeTime (ue w') = u64 (m_lastRunTime (ue w) + m_t3time (ue w)) /\
  m_currReqType (ue w') = msgType gtpMsg /\
  m_retryCnt (ue w') = m_retryCnt (ue w) /\
  (exists b : Buffer,
     netOut w' = netOut w ++ [mkUdpData b 0 (m_peerEp (ue w))] /\
     proc_sentMsg (m_currUeProc (ue w')) = Some (mkUdpData b 0 (m_peerEp (ue w)))) /\
  (msgType gtpMsg = GTPC_MSG_CS_REQ ->
   NUM_SESSIONS_CREATED (stats w') = u32 (NUM_SESSIONS_CREATED (stats w) + 1) /\
   NUM_SESSIONS (stats w') = u32 (NUM_SESSIONS (stats w) + 1)) /\
  (msgType gtpMsg <> GTPC_MSG_CS_REQ -> stats w' = stats w).
Proof.
  intros Hwait Hmsg Hcat H. unfold handleSend in H.
  rewrite Hwait, Hmsg in H. simpl in H. rewrite Hcat in H.
  apply bind_Ok in H as ([ret w1] & H1 & H).
  apply (handleOutReqMsg_spec _ _ _ _ Hmsg) in H1
    as (-> & Hbit & Hst & Hidx & Htask & Hwake & Hty & Hretry & _ & Hsent & Hstats).
  simpl in H. injection H as <- <-. simpl.
  split; [reflexivity|]. split.
  { unfold chkWaiting. simpl. rewrite Hbit. apply chk_set_same. reflexivity. }
  split; [reflexivity|].
  repeat (split; [assumption|]). split.
  - intros Hcs. rewrite Hstats, Hcs. simpl. split; reflexivity.
  - intros Hcs. rewrite Hstats. apply Z.eqb_neq in Hcs. rewrite Hcs. reflexivity.
Qed.

(** *** Where a response goes *)

Lemma deref_Some {A : Type} (o : option A) (a : A) : deref o = Ok a -> o = Some a.
Proof. destruct o; simpl; congruence. Qed.

Lemma lookup_map {A B : Type} (f : A -> B) (l : list A) (n : nat) :
  map f l !! n = f <$> l !! n.
Proof. revert n. induction l as [|a l IH]; intros [|n]; simpl; auto. Qed.

(** The control tunnel of a PDN is found through the [pCTun] pointers of the
    PDN list and the tunnels alone. *)
Lemma derefCTun_ext w w' (q : option nat) :
  pCTun <$> m_pdnLst (ue w') = pCTun <$> m_pdnLst (ue w) ->
  cTuns w' = cTuns w ->
  derefCTun q w' = derefCTun q w.
Proof.
  intros Hp Hc. unfold derefCTun, derefPdn. destruct q as [p|]; [|reflexivity].
  simpl. pose proof (f_equal (fun l => l !! p) Hp) as Hl. simpl in Hl.
  rewrite !list_lookup_fmap in Hl.
  destruct (m_pdnLst (ue w') !! p) as [pdn'|], (m_pdnLst (ue w) !! p) as [pdn|];
    simpl in *; try discriminate; [|reflexivity].
  injection Hl as ->. rewrite Hc. reflexivity.
Qed.

Lemma updJob_route (f : Job -> Job) (p : option nat) w w' :
  (forall j, job_gtpMsg (f j) = job_gtpMsg j) ->
  updJob f p w = Ok w' ->
  ue w' = ue w /\ cTuns w' = cTuns w /\
  job_gtpMsg <$> jobSeq w' = job_gtpMsg <$> jobSeq w.
Proof.
  intros Hf H. apply updJob_inv in H as (n & _ & ->). simpl.
  repeat split. apply list_eq. intros i.
  rewrite !list_lookup_fmap. destruct (decide (i = n)) as [->|Hne].
  - rewrite list_lookup_alter_eq. destruct (jobSeq w !! n); simpl; [|reflexivity].
    rewrite Hf. reflexivity.
  - rewrite list_lookup_alter_ne by congruence. reflexivity.
Qed.

Lemma createBearer_route (pPdn : option nat) (ebi : GtpEbi_t) w w' :
  createBearer pPdn ebi w = Ok w' ->
  m_pCurrPdn (ue w') = m_pCurrPdn (ue w) /\ jobSeq w' = jobSeq w /\
  cTuns w' = cTuns w /\
  pCTun <$> m_pdnLst (ue w') = pCTun <$> m_pdnLst (ue w).
Proof.
  unfold createBearer, GtpuTun_new. intros H.
  apply bind_Ok in H as (p & _ & H).
  apply bind_Ok in H as (pdn & Hpdn & H). simpl in H.
  apply bind_Ok in H as (i & _ & H). injection H as <-. simpl.
  repeat split. apply deref_Some in Hpdn.
  rewrite list_fmap_insert. simpl. apply list_insert_id.
  rewrite list_lookup_fmap, Hpdn. reflexivity.
Qed.

Lemma createBearers_loop_route (pPdn : option nat) (ebis : list GtpEbi_t) w w' :
  createBearers_loop pPdn ebis w = Ok w' ->
  m_pCurrPdn (ue w') = m_pCurrPdn (ue w) /\ jobSeq w' = jobSeq w /\
  cTuns w' = cTuns w /\
  pCTun <$> m_pdnLst (ue w') = pCTun <$> m_pdnLst (ue w).
Proof.
  revert w. induction ebis as [|ebi rest IH]; simpl; intros w H.
  - injection H as <-. repeat split.
  - apply bind_Ok in H as (w1 & H1 & H).
    apply createBearer_route in H1 as (? & ? & ? & ?).
    apply IH in H as (? & ? & ? & ?). repeat split; congruence.
Qed.

Lemma createBearers_route (pPdn : option nat) (m : GtpMsg) w w' :
  createBearers pPdn m w = Ok w' ->
  m_pCurrPdn (ue w') = m_pCurrPdn (ue w) /\ jobSeq w' = jobSeq w /\
  cTuns w' = cTuns w /\
  pCTun <$> m_pdnLst (ue w') = pCTun <$> m_pdnLst (ue w).
Proof.
  unfold createBearers. destruct (_ =? _).
  - apply createBearers_loop_route.
  - intros [= <-]. repeat split.
Qed.

Lemma updCTun_route (f : GtpcTun -> GtpcTun) (pPdn : option nat) w w' :
  updCTun f pPdn w = Ok w' ->
  ue w' = ue w /\ jobSeq w' = jobSeq w /\
  exists tun : GtpcTun, derefCTun pPdn w = Ok tun /\ derefCTun pPdn w' = Ok (f tun).
Proof.
  unfold updCTun, derefCTun. intros H.
  apply bind_Ok in H as (pdn & Hpdn & H).
  apply bind_Ok in H as (t & Ht & H).
  apply bind_Ok in H as (tun & Htun & H). injection H as <-.
  repeat split. exists tun.
  assert (derefPdn pPdn (set_cTuns (alter f t (cTuns w)) w) = Ok pdn) as Hpdn'
    by exact Hpdn.
  rewrite Hpdn, Hpdn'. simpl. rewrite Ht. simpl.
  apply deref_Some in Htun. rewrite Htun, list_lookup_alter_eq, Htun. split; reflexivity.
Qed.

(** After [decAndStoreGtpcIncMsg] the control tunnel of the PDN points at the
    sender of the message. *)
Lemma decAndStore_route (pPdn : option nat) (m : GtpMsg) (ep : IPEndPoint) w w' :
  decAndStoreGtpcIncMsg pPdn m ep w = Ok w' ->
  m_pCurrPdn (ue w') = m_pCurrPdn (ue w) /\ jobSeq w' = jobSeq w /\
  exists tun : GtpcTun, derefCTun pPdn w' = Ok tun /\ ctun_peerEp tun = ep.
Proof.
  unfold decAndStoreGtpcIncMsg. intros H.
  apply bind_Ok in H as (w1 & H1 & H).
  apply bind_Ok in H as (w2 & H2 & H).
  assert (ue w1 = ue w /\ jobSeq w1 = jobSeq w) as (U1 & J1).
  { destruct (_ || _).
    - apply bind_Ok in H1 as (teid & _ & H1).
      apply updCTun_route in H1 as (? & ? & _). auto.
    - injection H1 as <-. auto. }
  apply updCTun_route in H2 as (U2 & J2 & tun & _ & Htun).
  assert (m_pCurrPdn (ue w') = m_pCurrPdn (ue w2) /\ jobSeq w' = jobSeq w2 /\
          derefCTun pPdn w' = derefCTun pPdn w2) as (P3 & J3 & D3).
  { destruct (_ =? _).
    - apply createBearers_route in H as (? & ? & ? & ?).
      repeat split; try assumption. apply derefCTun_ext; assumption.
    - injection H as <-. auto. }
  repeat split; [congruence | congruence |].
  eexists. split; [rewrite D3; exact Htun|]. simpl. destruct ep; reflexivity.
Qed.

Lemma createPdn_route w (p : nat) w' :
  createPdn w = Ok (p, w') ->
  m_pCurrPdn (ue w') = Some p /\ jobSeq w' = jobSeq w.
Proof.
  unfold createPdn. intros H.
  apply bind_Ok in H as ([t w1] & H1 & H). injection H as <- <-.
  split; [reflexivity|]. simpl.
  unfold createCTun, allocCTun in H1. ok_inv H1; injection H1 as <- <-; reflexivity.
Qed.

(** What accepting a request leaves for the response that follows. *)
Lemma acceptReq_route (m : GtpMsg) (data : UdpData_t) w w' :
  acceptReq m data w = Ok w' ->
  m_currTask (ue w') = jobSeq_at (jobSeq w) (u32 (m_currTaskIndx (ue w) + 1)) /\
  m_bitmask (ue w') = m_bitmask (ue w) /\
  jobShape (jobSeq w') = jobShape (jobSeq w) /\
  job_gtpMsg <$> jobSeq w' = job_gtpMsg <$> jobSeq w /\
  proc_connId (m_currUeProc (ue w')) = connId data /\
  exists tun : GtpcTun,
    derefCTun (m_pCurrPdn (ue w')) w' = Ok tun /\ ctun_peerEp tun = peerEp data.
Proof.
  unfold acceptReq, updatePeerSeqNumber. intros H.
  apply bind_Ok in H as (w1 & H1 & H).
  apply bind_Ok in H as ([pdn w2] & H2 & H).
  apply bind_Ok in H as (w5 & H5 & H).
  injection H as <-.
  pose proof (updJob_frame _ _ _ _ (inc_shape inc_numRcv ltac:(tauto)) H1) as F1.
  apply updJob_route in H1 as (U1 & _ & M1); [|reflexivity].
  assert (blankPdn (ue w2) = blankPdn (ue w1) /\ jobSeq w2 = jobSeq w1 /\
          pdn = m_pCurrPdn (ue w2)) as (B2 & J2 & P2).
  { destruct (_ =? _).
    - apply bind_Ok in H2 as ([p w0] & Hp & H2). injection H2 as <- <-.
      pose proof (createPdn_frame _ _ _ Hp) as (Hb & _).
      apply createPdn_route in Hp as (-> & ->). auto.
    - injection H2 as <- <-. auto. }
  pose proof (decAndStore_frame _ _ _ _ _ H5) as (B5 & _).
  apply decAndStore_route in H5 as (P5 & J5 & tun & Htun & Hep).
  simpl in *.
  pose proof (f_equal m_currTaskIndx B2). pose proof (f_equal m_bitmask B2).
  pose proof (f_equal m_currTaskIndx B5). pose proof (f_equal m_bitmask B5).
  pose proof (f_equal m_currUeProc B5).
  pose proof (jobShape_length _ _ (proj1 (proj2 F1))) as L1.
  simpl in *.
  split.
  { rewrite (jobSeq_at_length (jobSeq w) (jobSeq w5)) by congruence. congruence. }
  split; [congruence|]. split; [rewrite J5, J2; apply F1|].
  split; [congruence|]. split; [rewrite H4; reflexivity|].
  exists tun. split; [|exact Hep]. rewrite P5, <- P2. exact Htun.
Qed.

(** X17. A request that is expected, and is followed in the scenario by
    the sending of a message that is not a request, is answered in the same
    run: if [handleIncReqMsg] returns, exactly one datagram has gone out, on
    the connection the request came in on and to the endpoint it came from,
    and it is kept in [m_prevUeProc.sentMsg] for a retransmitted request. *)
Theorem response_goes_back (rcvdReq : GtpMsg) (data : UdpData_t) (now2 : Time_t) w
    (n : nat) job (m : GtpMsg) (r : RETVAL) w' :
  chkComplete w = false ->
  chkWaiting w = false ->
  isExpectedReq rcvdReq w = Ok true ->
  jobSeq_at (jobSeq w) (u32 (m_currTaskIndx (ue w) + 1)) = Some n ->
  jobSeq w !! n = Some job ->
  job_type job = JOB_TYPE_SEND ->
  job_gtpMsg job = Some m ->
  gtpGetMsgCategory (msgType m) <> GTP_MSG_CAT_REQ ->
  handleIncReqMsg rcvdReq data now2 w = Ok (r, w') ->
  r = ROK /\
  exists b : Buffer,
    netOut w' = netOut w ++ [mkUdpData b (connId data) (peerEp data)] /\
    proc_sentMsg (m_prevUeProc (ue w')) =
      Some (mkUdpData b (connId data) (peerEp data)).
Proof.
  intros Hcomp Hwait Hexp Hnext Hjob Hty Hmsg Hcat H.
  unfold handleIncReqMsg in H. rewrite Hexp in H. simpl in H.
  apply bind_Ok in H as (w6 & H6 & H).
  apply bind_Ok in H as ([ret w7] & H7 & H). injection H as <- <-.
  split; [reflexivity|].
  pose proof (acceptReq_netOut _ _ _ _ H6) as Hnet.
  apply acceptReq_route in H6 as (Htask & Hbit & Hshape & Htmpl & Hconn & tun & Htun & Hep).
  rewrite Hnext in Htask.
  assert (exists job', jobSeq w6 !! n = Some job' /\ job_type job' = JOB_TYPE_SEND /\
                       job_gtpMsg job' = Some m) as (job' & Hjob' & Hty' & Hmsg').
  { apply jobShape_types in Hshape as (Htypes & _).
    pose proof (f_equal (fun l => l !! n) Htypes) as Ht.
    pose proof (f_equal (fun l => l !! n) Htmpl) as Hm. simpl in Ht, Hm.
    rewrite !lookup_map, Hjob in Ht. rewrite !list_lookup_fmap, Hjob in Hm.
    destruct (jobSeq w6 !! n) as [job'|]; simpl in *; [|discriminate].
    exists job'. split; [reflexivity|]. split; congruence. }
  unfold run_timer in H7.
  assert (chkComplete (run_enter now2 w6) = false) as Hc
    by (unfold chkComplete in *; simpl; rewrite Hbit; exact Hcomp).
  rewrite Hc in H7.
  assert (derefJob (m_currTask (ue (run_enter now2 w6))) (run_enter now2 w6) = Ok job')
    as Hd by (unfold derefJob; simpl; rewrite Htask; simpl; rewrite Hjob'; reflexivity).
  rewrite Hd in H7. simpl in H7. rewrite Hty' in H7.
  unfold handleSend in H7.
  assert (chkWaiting (run_enter now2 w6) = false) as Hw
    by (unfold chkWaiting in *; simpl; rewrite Hbit; exact Hwait).
  rewrite Hw in H7.
  assert (currGtpMsg (run_enter now2 w6) = Ok m) as Hcur
    by (unfold currGtpMsg; rewrite Hd; simpl; rewrite Hmsg'; reflexivity).
  rewrite Hcur in H7. simpl in H7.
  assert (exists ret1 w8, handleOutRspMsg (run_enter now2 w6) = Ok (ret1, w8) /\
            netOut w7 = netOut w8 /\ m_prevUeProc (ue w7) = m_prevUeProc (ue w8))
    as (ret1 & w8 & H8 & Hn8 & Hp8).
  { destruct (gtpGetMsgCategory (msgType m)); [|congruence|];
      apply bind_Ok in H7 as ([ret1 w8] & H8 & H7); exists ret1, w8;
      (split; [exact H8|]);
      destruct ret1; injection H7 as <- <-; split; reflexivity. }
  apply handleOutRspMsg_sends in H8 as (b & tun' & Htun' & Hout & Hsent).
  assert (tun' = tun) as ->.
  { assert (derefCTun (m_pCurrPdn (ue (run_enter now2 w6))) (run_enter now2 w6)
            = derefCTun (m_pCurrPdn (ue w6)) w6) as E by reflexivity.
    congruence. }
  exists b. simpl in Hout, Hsent. rewrite Hn8, Hp8, Hout, Hsent, Hconn, Hep, Hnet.
  split; reflexivity.
Qed.

End Procedures.

(** ** The sequence number of the request that is out *)

Section Outstanding.

Context {GtpMsg : Type} `{!GtpCodec GtpMsg}.

Implicit Types (w : World (GtpMsg := GtpMsg)).

Lemma helperFrame_proc w w' :
  helperFrame w w' -> m_currUeProc (ue w') = m_currUeProc (ue w).
Proof. intros (Hb & _). apply (f_equal m_currUeProc) in Hb. exact Hb. Qed.

Lemma helperFrame_seqCtr w w' : helperFrame w w' -> seqCtr w' = seqCtr w.
Proof. intros (_ & _ & _ & _ & _ & Hs & _). exact Hs. Qed.

(** [handleOutReqMsg] leaves in [m_currUeProc.seqNumber] the number that
    [generateSeqNum] gives for the request. *)
Lemma handleOutReqMsg_seq w (r : RETVAL) w' :
  handleOutReqMsg w = Ok (r, w') ->
  proc_seqNumber (m_currUeProc (ue w')) = fst (generateSeqNum w).
Proof.
  unfold handleOutReqMsg, generateSeqNum. intros H.
  apply bind_Ok in H as (gtpMsg & _ & H).
  apply bind_Ok in H as ([pPdn w1] & H1 & H).
  apply bind_Ok in H as (w2 & H2 & H). simpl in H.
  apply bind_Ok in H as ([b w5] & H5 & H).
  apply bind_Ok in H as (w7 & H7 & H).
  injection H as _ <-.
  assert (seqCtr w1 = seqCtr w) as S1.
  { destruct (_ =? _).
    - apply bind_Ok in H1 as ([p w0] & Hp & H1). injection H1 as _ <-.
      apply createPdn_frame, helperFrame_seqCtr in Hp. exact Hp.
    - injection H1 as _ <-. reflexivity. }
  apply createBearers_frame, helperFrame_seqCtr in H2.
  apply encGtpcOutMsg_frame, helperFrame_proc in H5.
  apply updJob_frame, helperFrame_proc in H7; [|apply inc_shape; tauto].
  simpl in *. rewrite H7, H5. simpl. congruence.
Qed.

Lemma handleSend_seq w (gtpMsg : GtpMsg) (r : RETVAL) w' :
  chkWaiting w = false ->
  currGtpMsg w = Ok gtpMsg ->
  gtpGetMsgCategory (msgType gtpMsg) = GTP_MSG_CAT_REQ ->
  handleSend w = Ok (r, w') ->
  proc_seqNumber (m_currUeProc (ue w')) = fst (generateSeqNum w).
Proof.
  intros Hwait Hmsg Hcat H. unfold handleSend in H.
  rewrite Hwait, Hmsg in H. simpl in H. rewrite Hcat in H.
  apply bind_Ok in H as ([ret w1] & H1 & H).
  apply handleOutReqMsg_seq in H1.
  destruct ret; simpl in H; injection H as _ <-; exact H1.
Qed.

Lemma handleOutReqTimeout_seq w (r : RETVAL) w' :
  handleOutReqTimeout w = Ok (r, w') ->
  proc_seqNumber (m_currUeProc (ue w')) = proc_seqNumber (m_currUeProc (ue w)).
Proof.
  unfold handleOutReqTimeout. intros H. destruct (_ <=? _).
  - injection H as _ <-. reflexivity.
  - apply bind_Ok in H as (d & _ & H).
    apply bind_Ok in H as (w2 & H2 & H). injection H as _ <-.
    apply updJob_frame, helperFrame_proc in H2; [|apply inc_shape; tauto].
    simpl in *. rewrite H2. reflexivity.
Qed.

Lemma handleSend_waiting_seq w (r : RETVAL) w' :
  chkWaiting w = true ->
  handleSend w = Ok (r, w') ->
  proc_seqNumber (m_currUeProc (ue w')) = proc_seqNumber (m_currUeProc (ue w)).
Proof.
  intros Hw H. unfold handleSend in H. rewrite Hw in H.
  apply bind_Ok in H as ([ret w1] & H1 & H).
  apply handleOutReqTimeout_seq in H1.
  destruct (RETVAL_eqb _ _).
  - apply bind_Ok in H as (w2 & H2 & H). injection H as _ <-.
    apply updJob_frame, helperFrame_proc in H2; [|apply inc_shape; tauto].
    simpl. rewrite H2. exact H1.
  - injection H as _ <-. exact H1.
Qed.

Lemma run_timer_waiting_seq (now : Time_t) w (r : RETVAL) w' :
  chkWaiting w = true ->
  run_timer now w = Ok (r, w') ->
  proc_seqNumber (m_currUeProc (ue w')) = proc_seqNumber (m_currUeProc (ue w)).
Proof.
  unfold run_timer. intros Hw H.
  destruct (chkComplete _).
  - apply bind_Ok in H as ([ret w2] & H2 & H). injection H as _ <-.
    apply handleDeadCall_inv in H2 as (Hue & _). rewrite Hue. reflexivity.
  - apply bind_Ok in H as (job & _ & H).
    destruct (job_type job).
    + injection H as _ <-. reflexivity.
    + apply handleSend_waiting_seq in H; [exact H | exact Hw].
    + injection H as _ <-. reflexivity.
    + unfold handleWait in H. apply bind_Ok in H as (j & _ & H).
      injection H as _ <-. reflexivity.
Qed.

Lemma handleIncRspMsg_seq (m : GtpMsg) (data : UdpData_t) w (r : RETVAL) w' :
  handleIncRspMsg m data w = Ok (r, w') ->
  proc_seqNumber (m_currUeProc (ue w')) = proc_seqNumber (m_currUeProc (ue w)).
Proof.
  unfold handleIncRspMsg. intros H.
  apply bind_Ok in H as (expected & _ & H).
  destruct expected.
  - apply bind_Ok in H as (w3 & H3 & H).
    apply bind_Ok in H as (w4 & H4 & H). injection H as _ <-.
    apply updJob_frame, helperFrame_proc in H3; [|apply inc_shape; tauto].
    apply decAndStore_frame, helperFrame_proc in H4.
    simpl in *. destruct (IS_SCN_COMPLETED _); simpl; rewrite H4, H3; reflexivity.
  - destruct (isPrevProcRsp _ _);
      apply bind_Ok in H as (w1 & H1 & H); injection H as _ <-;
      (apply updJob_frame, helperFrame_proc in H1; [|apply inc_shape; tauto]);
      rewrite H1; reflexivity.
Qed.

Lemma handleIncReqMsg_refused_seq (m : GtpMsg) (data : UdpData_t) (now2 : Time_t) w
    (r : RETVAL) w' :
  isExpectedReq m w = Ok false ->
  handleIncReqMsg m data now2 w = Ok (r, w') ->
  proc_seqNumber (m_currUeProc (ue w')) = proc_seqNumber (m_currUeProc (ue w)).
Proof.
  unfold handleIncReqMsg. intros He H. rewrite He in H. simpl in H.
  destruct (isPrevProcReq _ _);
    apply bind_Ok in H as (w1 & H1 & H); injection H as _ <-.
  - unfold resendPrevRsp in H1.
    apply bind_Ok in H1 as (w2 & H2 & H1).
    apply bind_Ok in H1 as (d & _ & H1). injection H1 as <-.
    apply updJob_frame, helperFrame_proc in H2; [|apply inc_shape; tauto].
    simpl. rewrite H2. reflexivity.
  - apply updJob_frame, helperFrame_proc in H1; [|apply inc_shape; tauto].
    rewrite H1. reflexivity.
Qed.

(** While the session waits, a run on the timer, or on a datagram that is
    not a request accepted as the expected one, leaves
    [m_currUeProc.seqNumber] as it is. *)
Lemma run_waiting_seq (arg : option UdpData_t) (now now2 : Time_t) w (r : RETVAL) w' :
  chkWaiting w = true ->
  (forall data, arg = Some data ->
     gtpGetMsgCategory (msgType (msgOfBuffer (buf data))) <> GTP_MSG_CAT_REQ \/
     isExpectedReq (msgOfBuffer (buf data)) w = Ok false) ->
  run arg now now2 w = Ok (r, w') ->
  proc_seqNumber (m_currUeProc (ue w')) = proc_seqNumber (m_currUeProc (ue w)).
Proof.
  intros Hw Hd H. destruct arg as [data|].
  - unfold run in H. destruct (chkComplete _).
    + apply bind_Ok in H as ([ret w2] & H2 & H). injection H as _ <-.
      apply handleDeadCall_inv in H2 as (Hue & _). rewrite Hue. reflexivity.
    + unfold handleRecv in H.
      apply bind_Ok in H as ([ret w1] & H1 & H). injection H as _ <-. simpl.
      destruct (gtpGetMsgCategory _) eqn:Hcat.
      * injection H1 as _ <-. reflexivity.
      * destruct (Hd data eq_refl) as [Hne | He]; [congruence|].
        apply handleIncReqMsg_refused_seq in H1; [exact H1 | exact He].
      * apply handleIncRspMsg_seq in H1. exact H1.
  - apply (run_timer_waiting_seq now w r w' Hw H).
Qed.

(** A request that is out has its sequence number in
    [m_currUeProc.seqNumber]. *)
Lemma awaiting_seq (seqN : GtpSeqNumber_t) w :
  awaiting seqN w -> proc_seqNumber (m_currUeProc (ue w)) = seqN.
Proof.
  induction 1 as [w0 gtpMsg r w Hw Hm Hc H
                 | seqN w now now2 r w' _ IH Hw H
                 | seqN w data now now2 r w' _ IH Hw Hd H].
  - eapply handleSend_seq; eassumption.
  - rewrite <- IH. eapply run_waiting_seq; [exact Hw | | exact H].
    intros d Heq. discriminate Heq.
  - rewrite <- IH. eapply run_waiting_seq; [exact Hw | | exact H].
    intros d Heq. injection Heq as <-. exact Hd.
Qed.

(** C3, as amended. An inbound response is accepted as expected exactly when
    the message template of the job at [m_currTaskIndx + 1], whatever the
    kind of that job, has the type of the response and the sequence number of
    the response equals [m_currUeProc.seqNumber]. On acceptance (the session
    having a current PDN with a control tunnel, and a Create Session Response
    carrying its F-TEID) [WAITING_FOR_RSP] is cleared, [m_currUeProc.sentMsg]
    is freed, [m_numRcv] of the job at [m_currTaskIndx + 1] is incremented and
    [m_currTaskIndx] is advanced by two. The sequence number of an accepted
    response is that of the request when a request is out: the session has
    sent one, with the number [generateSeqNum] gave it, and has since been
    run, [WAITING_FOR_RSP] set, on its timer or on datagrams that are not
    requests accepted as expected. *)
Theorem handleIncRspMsg_expected (rspMsg : GtpMsg) (rcvdData : UdpData_t) w :
  (isExpectedRsp rspMsg w = Ok true <->
   exists (n : nat) (job : Job) (expectedRspMsg : GtpMsg),
     jobSeq_at (jobSeq w) (u32 (m_currTaskIndx (ue w) + 1)) = Some n /\
     jobSeq w !! n = Some job /\
     job_gtpMsg job = Some expectedRspMsg /\
     msgType expectedRspMsg = msgType rspMsg /\
     proc_seqNumber (m_currUeProc (ue w)) = msgSeqNumber rspMsg) /\
  (forall (n : nat) (job : Job) (tun : GtpcTun),
     isExpectedRsp rspMsg w = Ok true ->
     jobSeq_at (jobSeq w) (u32 (m_currTaskIndx (ue w) + 1)) = Some n ->
     jobSeq w !! n = Some job ->
     derefCTun (m_pCurrPdn (ue w)) w = Ok tun ->
     msgType (msgDecode rspMsg) <> GTPC_MSG_CS_REQ ->
     (msgType (msgDecode rspMsg) = GTPC_MSG_CS_RSP ->
      is_Some (msgFteidTeid (msgDecode rspMsg))) ->
     exists w',
       handleIncRspMsg rspMsg rcvdData w = Ok (ROK, w') /\
       chkWaiting w' = false /\
       proc_sentMsg (m_currUeProc (ue w')) = None /\
       jobSeq w' !! n = Some (inc_numRcv job) /\
       m_numRcv (inc_numRcv job) = u32 (m_numRcv job + 1) /\
       m_currTaskIndx (ue w') = u32 (u32 (m_currTaskIndx (ue w) + 1) + 1) /\
       msgSeqNumber rspMsg = proc_seqNumber (m_currUeProc (ue w)) /\
       proc_seqNumber (m_prevUeProc (ue w')) = msgSeqNumber rspMsg) /\
  (forall seqN : GtpSeqNumber_t,
     awaiting seqN w ->
     isExpectedRsp rspMsg w = Ok true ->
     msgSeqNumber rspMsg = seqN).
Proof.
  destruct (handleIncRspMsg_accepts rspMsg rcvdData w) as [Hiff Hacc].
  split; [exact Hiff|]. split; [exact Hacc|].
  intros seqN Haw Hexp. apply awaiting_seq in Haw.
  apply Hiff in Hexp as (n & job & m & _ & _ & _ & _ & Hseq). congruence.
Qed.

End Outstanding.

(** ** The properties on the scenarios *)

Lemma run_sends_at_most_one_witness :
  netOut s1_w1 = netOut s1_w0 \/
  exists d : UdpData_t, netOut s1_w1 = netOut s1_w0 ++ [d].
Proof.
  apply (run_sends_at_most_one None 0 0 s1_w0 ROK s1_w1).
  vm_compute. reflexivity.
Defined.

Lemma run_keeps_static_witness :
  m_n3req (ue s1_done) = m_n3req (ue s1_w1) /\
  m_peerEp (ue s1_done) = m_peerEp (ue s1_w1) /\
  map job_type (jobSeq s1_done) = map job_type (jobSeq s1_w1).
Proof.
  destruct (run_keeps_static (Some csRsp1) 50 50 s1_w1 ROK s1_done)
    as (Hn3 & _ & _ & _ & _ & Hpeer & _ & _ & _ & Htypes & _).
  - vm_compute. reflexivity.
  - split; [exact Hn3|]. split; [exact Hpeer | exact Htypes].
Defined.

Lemma session_counters_balance_witness :
  (NUM_SESSIONS_CREATED (stats s1_done) - NUM_SESSIONS_SUCC (stats s1_done)
   - NUM_SESSIONS (stats s1_done)) mod 2 ^ 32 = 0 /\
  NUM_DEADCALLS (stats s1_done) = 0.
Proof.
  destruct (session_counters_balance testCfg GTP_IF_S11_C_MME scnS1 testImsi s1_w1
              (Some csRsp1) 50 50 ROK s1_done) as (_ & Hafter).
  - exact s1_w1_reachable.
  - vm_compute. reflexivity.
  - exact Hafter.
Defined.

Lemma cursor_in_range_witness :
  0 <= m_currTaskIndx (ue s1_w1) <= Z.of_nat (length (jobSeq s1_w1)) /\
  m_currTask (ue s1_w1) = jobSeq_at (jobSeq s1_w1) (m_currTaskIndx (ue s1_w1)).
Proof.
  destruct (cursor_in_range testCfg GTP_IF_S11_C_MME scnS1 testImsi s1_w1)
    as (Hrange & _ & Htask & _).
  - vm_compute. reflexivity.
  - exact s1_w1_reachable.
  - split; [exact Hrange | exact Htask].
Defined.

Lemma run_dead_call_witness :
  s1_dead = run_enter 6000 s1_done /\ stats s1_dead = stats s1_done.
Proof.
  destruct (run_dead_call None 6000 6000 s1_done ROK s1_dead)
    as (_ & _ & _ & _ & _ & Hstats & _ & Hw).
  - vm_compute. reflexivity.
  - vm_compute. reflexivity.
  - split; [exact (Hw eq_refl) | exact Hstats].
Defined.

Lemma run_datagram_returns_ROK_witness : m_wakeTime (ue s1_done) = 0.
Proof.
  destruct (run_datagram_returns_ROK csRsp1 50 50 s1_w1 ROK s1_done) as (_ & Hwake).
  - vm_compute. reflexivity.
  - apply Hwake. vm_compute. reflexivity.
Defined.

Lemma response_keeps_retry_count_witness :
  m_retryCnt (ue s1_t1_rsp) = m_retryCnt (ue s1_t1).
Proof.
  apply (response_keeps_retry_count (msgOfBuffer (buf csRsp1)) csRsp1 s1_t1 ROK
           s1_t1_rsp).
  vm_compute. reflexivity.
Defined.

Lemma run_timer_wait_job_witness :
  exists w',
    run None 60 60 sw_w2 = Ok (ROK, w') /\
    m_lastRunTime (ue w') = 60 /\
    m_taskState (ue w') = TASK_STATE_PAUSED /\
    netOut w' = netOut sw_w2.
Proof.
  destruct (run_timer_wait_job 60 60 sw_w2 2%nat (waitJob 100))
    as (w' & Hrun & _ & Hlast & _ & Hstate & _ & _ & Hnet & _).
  - vm_compute. reflexivity.
  - vm_compute. reflexivity.
  - vm_compute. reflexivity.
  - reflexivity.
  - exists w'. split; [exact Hrun|]. split; [exact Hlast|].
    split; [exact Hstate | exact Hnet].
Defined.

Lemma createPdn_S11_shares_tunnel_witness :
  exists w',
    createPdn s1_w1 = Ok (length (m_pdnLst (ue s1_w1)), w') /\
    m_pCurrPdn (ue w') = Some (length (m_pdnLst (ue s1_w1))) /\
    length (cTuns w') = length (cTuns s1_w1).
Proof.
  destruct (createPdn_S11_shares_tunnel s1_w1 (mkGtpcPdn (Some 0%nat) 0) 0%nat
              (default (mkGtpcTun 0 0 (testEp 0) (testEp 0) 0 0) (cTuns s1_w1 !! 0%nat)))
    as (w' & Hrun & _ & Hcurr & _ & _ & _ & Hlen & _).
  - reflexivity.
  - vm_compute. reflexivity.
  - reflexivity.
  - vm_compute. reflexivity.
  - exists w'. split; [exact Hrun|]. split; [exact Hcurr | exact Hlen].
Defined.

Lemma createPdn_own_tunnel_witness :
  exists w' (tun : GtpcTun),
    createPdn s1_w0 = Ok (length (m_pdnLst (ue s1_w0)), w') /\
    cTuns w' = cTuns s1_w0 ++ [tun] /\
    ctun_pPdn tun = length (m_pdnLst (ue s1_w0)).
Proof.
  destruct (createPdn_own_tunnel s1_w0) as (w' & tun & Hrun & _ & _ & Htuns & Hpdn & _).
  - right. reflexivity.
  - exists w', tun. split; [exact Hrun|]. split; [exact Htuns | exact Hpdn].
Defined.


Lemma no_next_job_witness :
  nextTaskType sw_w2 = JOB_TYPE_INV /\
  handleIncRspMsg (msgOfBuffer (buf csRsp1)) csRsp1 sw_w2 = Fault.
Proof.
  destruct (no_next_job (msgOfBuffer (buf csRsp1)) csRsp1 0 sw_w2)
    as (Hnext & _ & Hrsp & _).
  - vm_compute. discriminate.
  - split; [exact Hnext | exact Hrsp].
Defined.

Lemma createUeSession_lookup_witness :
  getUeSession testImsi (snd (createUeSession testCfg scnS1 testImsi emptyReg))
  = Some (fst (createUeSession testCfg scnS1 testImsi emptyReg)).
Proof.
  generalize (createUeSession_lookup testCfg scnS1 testImsi emptyReg eq_refl).
  destruct (createUeSession testCfg scnS1 testImsi emptyReg) as [p reg'].
  intros (Hget & _). exact Hget.
Defined.

Lemma create_delete_roundtrip_witness :
  exists reg'',
    deleteUeSession (fst (createUeSession testCfg scnS1 testImsi emptyReg))
      (snd (createUeSession testCfg scnS1 testImsi emptyReg)) = Ok reg'' /\
    s_ueSessionMap reg'' = s_ueSessionMap emptyReg.
Proof.
  generalize (create_delete_roundtrip testCfg scnS1 testImsi emptyReg eq_refl).
  destruct (createUeSession testCfg scnS1 testImsi emptyReg) as [p reg'].
  intros (reg'' & Hdel & Hmap & _). exists reg''. split; [exact Hdel | exact Hmap].
Defined.

Lemma createUeSession_registered_witness :
  getUeSession testImsi (snd (createUeSession testCfg scnS1 testImsi oneReg))
  = Some 0%nat /\
  exists reg'',
    deleteUeSession (fst (createUeSession testCfg scnS1 testImsi oneReg))
      (snd (createUeSession testCfg scnS1 testImsi oneReg)) = Ok reg'' /\
    getUeSession testImsi reg'' = None.
Proof.
  generalize (createUeSession_registered testCfg scnS1 testImsi oneReg 0%nat
                (UeSession_new testCfg scnS1 1 testImsi)
                ltac:(vm_compute; reflexivity) ltac:(vm_compute; reflexivity)).
  destruct (createUeSession testCfg scnS1 testImsi oneReg) as [p reg'].
  intros (_ & Hget & _ & reg'' & Hdel & Hgone & _).
  split; [exact Hget|]. exists reg''. split; [exact Hdel | exact Hgone].
Defined.

Lemma handleSend_request_witness :
  chkWaiting s1_sent = true /\
  m_taskState (ue s1_sent) = TASK_STATE_PAUSED /\
  m_currTaskIndx (ue s1_sent) = m_currTaskIndx (ue s1_w0) /\
  exists b : Buffer, netOut s1_sent = netOut s1_w0 ++ [mkUdpData b 0 (m_peerEp (ue s1_w0))].
Proof.
  destruct (handleSend_request s1_w0 (mkTestMsg 32 0 0 None []) ROK s1_sent)
    as (_ & Hwait & Hstate & Hidx & _ & _ & _ & _ & (b & Hout & _) & _).
  - vm_compute. reflexivity.
  - vm_compute. reflexivity.
  - reflexivity.
  - vm_compute. reflexivity.
  - split; [exact Hwait|]. split; [exact Hstate|]. split; [exact Hidx|].
    exists b. exact Hout.
Defined.

Lemma response_goes_back_witness :
  exists b : Buffer,
    netOut s4_answered = netOut s4_w0 ++ [mkUdpData b (connId csReq10) (peerEp csReq10)].
Proof.
  destruct (response_goes_back (msgOfBuffer (buf csReq10)) csReq10 0 s4_w0 1%nat
              (sendJob 33) (mkTestMsg 33 0 0 None []) ROK s4_answered)
    as (_ & b & Hout & _).
  - vm_compute. reflexivity.
  - vm_compute. reflexivity.
  - vm_compute. reflexivity.
  - vm_compute. reflexivity.
  - vm_compute. reflexivity.
  - reflexivity.
  - reflexivity.
  - vm_compute. discriminate.
  - vm_compute. reflexivity.
  - exists b. exact Hout.
Defined.

Lemma handleIncRspMsg_expected_witness :
  (exists w',
     handleIncRspMsg (msgOfBuffer (buf csRsp1)) csRsp1 s1_t1 = Ok (ROK, w') /\
     chkWaiting w' = false /\
     m_currTaskIndx (ue w') = 2) /\
  awaiting 1 s1_t1 /\
  msgSeqNumber (msgOfBuffer (buf csRsp1)) = 1 /\
  map (fun d => msgSeqNumber (msgOfBuffer (buf d))) (netOut s1_t1) = [1; 1].
Proof.
  assert (awaiting 1 s1_t1) as Haw.
  { apply (await_timer 1 s1_w1 1000 1000 ROK s1_t1).
    - change (awaiting (fst (generateSeqNum (run_enter 0 s1_w0))) s1_w1).
      apply (await_sent (run_enter 0 s1_w0) (mkTestMsg 32 0 0 None []) ROK s1_w1).
      + vm_compute. reflexivity.
      + vm_compute. reflexivity.
      + reflexivity.
      + vm_compute. reflexivity.
    - vm_compute. reflexivity.
    - vm_compute. reflexivity. }
  destruct (handleIncRspMsg_expected (msgOfBuffer (buf csRsp1)) csRsp1 s1_t1)
    as (_ & Hacc & Hseq).
  destruct (Hacc 1%nat (recvJob 33)
              (default (mkGtpcTun 0 0 (testEp 0) (testEp 0) 0 0) (cTuns s1_t1 !! 0%nat)))
    as (w' & Hrun & Hwait & _ & _ & _ & Hidx & _).
  - vm_compute. reflexivity.
  - vm_compute. reflexivity.
  - vm_compute. reflexivity.
  - vm_compute. reflexivity.
  - vm_compute. discriminate.
  - intros _. vm_compute. eexists. reflexivity.
  - split; [exists w'; split; [exact Hrun|]; split; [exact Hwait | exact Hidx]|].
    split; [exact Haw|]. split.
    + apply (Hseq 1 Haw). vm_compute. reflexivity.
    + vm_compute. reflexivity.
Defined.
